(** * The dialogue-tree runtime of GDevelop (Extensions/DialogueTree/dialoguetools.js)

    A shallow embedding of the [gdjs.dialogueTree] singleton: its fields
    become one record, every JavaScript function becomes a function on that
    record, and the functions that can raise a [TypeError] return an
    [Outcome].  The functions are read as method calls on
    [gdjs.dialogueTree], so [this] and [gdjs.dialogueTree] are the same
    object. *)

From Stdlib Require Import ZArith List Bool String Ascii Lia DecimalString.
Import ListNotations.
Set Warnings "-register-all".
Open Scope string_scope.
Open Scope list_scope.
Open Scope Z_scope.

(** ** JavaScript values used by the runtime *)

(** A JavaScript number holding an integer, or [NaN].  A field that may be
    [undefined] has an [option] type, [None] standing for [undefined]. *)
Inductive number : Type :=
| NaN
| Num (z : Z).

(** [ToNumber]: [undefined] converts to [NaN]. *)
Definition toNumber (o : option number) : number :=
  match o with
  | Some n => n
  | None => NaN
  end.

(** [a + b] on numbers. *)
Definition num_add (a b : number) : number :=
  match a, b with
  | Num x, Num y => Num (x + y)
  | _, _ => NaN
  end.

(** [a - b] on numbers. *)
Definition num_sub (a b : number) : number :=
  match a, b with
  | Num x, Num y => Num (x - y)
  | _, _ => NaN
  end.

(** [a < b], [a > b], [a >= b]: false as soon as one side is [NaN]. *)
Definition num_lt (a b : number) : bool :=
  match a, b with
  | Num x, Num y => x <? y
  | _, _ => false
  end.

Definition num_gt (a b : number) : bool := num_lt b a.

Definition num_ge (a b : number) : bool :=
  match a, b with
  | Num x, Num y => y <=? x
  | _, _ => false
  end.

(** [a === b] where both sides are numbers or [undefined]. *)
Definition strict_eq_num (a b : option number) : bool :=
  match a, b with
  | None, None => true
  | Some (Num x), Some (Num y) => x =? y
  | _, _ => false
  end.

(** [a === b] where [a] is a string or [undefined] and [b] a string. *)
Definition strict_eq_str (a : option string) (b : string) : bool :=
  match a with
  | Some s => String.eqb s b
  | None => false
  end.

(** Truthiness of a boolean-or-undefined, a string-or-undefined and a
    number-or-undefined. *)
Definition truthy (o : option bool) : bool :=
  match o with
  | Some b => b
  | None => false
  end.

Definition truthy_str (o : option string) : bool :=
  match o with
  | Some s => negb (String.eqb s "")
  | None => false
  end.

Definition truthy_num (n : number) : bool :=
  match n with
  | Num z => negb (z =? 0)
  | NaN => false
  end.

(** [s.length]. *)
Definition str_length (s : string) : number := Num (Z.of_nat (String.length s)).

(** [s.substring(0, e)]: the end index is clamped into [0, s.length], [NaN]
    counts as 0 and [undefined] as [s.length]. *)
Definition substring0 (s : string) (e : option number) : string :=
  match e with
  | None => s
  | Some NaN => ""
  | Some (Num z) => String.substring 0 (Z.to_nat z) s
  end.

(** [s.split(' ')]. *)
Fixpoint split_space_aux (s : string) (cur : string) : list string :=
  match s with
  | EmptyString => [cur]
  | String c s' =>
      if Ascii.eqb c " "%char then cur :: split_space_aux s' ""
      else split_space_aux s' (cur ++ String c "")%string
  end.

Definition split_space (s : string) : list string := split_space_aux s "".

(** [parseInt(s, 10)]: leading white space is skipped, then an optional sign
    and the longest run of decimal digits are read; no digit gives [NaN]. *)
Definition digit_of (c : ascii) : option Z :=
  let n := Z.of_nat (nat_of_ascii c) in
  if (48 <=? n) && (n <=? 57) then Some (n - 48) else None.

Definition is_space (c : ascii) : bool :=
  let n := nat_of_ascii c in
  (Nat.eqb n 32 || (Nat.leb 9 n && Nat.leb n 13))%bool.

Fixpoint skip_spaces (s : string) : string :=
  match s with
  | String c s' => if is_space c then skip_spaces s' else s
  | EmptyString => s
  end.

Fixpoint read_digits (s : string) (acc : option Z) : option Z :=
  match s with
  | String c s' =>
      match digit_of c with
      | Some d => read_digits s' (Some (10 * match acc with Some a => a | None => 0 end + d))
      | None => acc
      end
  | EmptyString => acc
  end.

Definition parseInt10 (o : option string) : number :=
  match o with
  | None => NaN
  | Some s =>
      match skip_spaces s with
      | String "-" s' =>
          match read_digits s' None with Some n => Num (- n) | None => NaN end
      | String "+" s' =>
          match read_digits s' None with Some n => Num n | None => NaN end
      | s' =>
          match read_digits s' None with Some n => Num n | None => NaN end
      end
  end.

(** [a.splice(index, 1)]: the element at [index] is removed, and nothing
    happens when [index] is past the end. *)
Fixpoint splice1 {A : Type} (index : nat) (a : list A) : list A :=
  match index, a with
  | _, [] => []
  | O, _ :: rest => rest
  | S i, x :: rest => x :: splice1 i rest
  end.

(** A JSON-compatible value, as held by the interpreter's variable and
    visit tables and produced by [JSON.parse]. *)
Inductive JSValue : Type :=
| JUndefined
| JNull
| JBool (b : bool)
| JNumber (z : Z)
| JString (s : string)
| JArray (items : list JSValue)
| JObject (props : list (string * JSValue)).

(** [o[key]] for an own property of a plain object. *)
Fixpoint own_property (key : string) (props : list (string * JSValue)) : JSValue :=
  match props with
  | [] => JUndefined
  | (k, v) :: rest => if String.eqb k key then v else own_property key rest
  end.

(** ** The external interpreter (bondage.js), as the runtime sees it *)

(** Metadata of the node a text line belongs to: [result.data]. *)
Record NodeData : Type := mkNodeData {
  tags : list string;
  title : string;
  body : string
}.

(** The three kinds of result the interpreter yields. *)
Inductive Result : Type :=
| TextResult (text : string) (data : NodeData)
| OptionsResult (candidates : list string)
| CommandResult (text : string).

(** What [dialogueData] can hold: [undefined] (nothing pulled yet, or the
    sequence is exhausted), [null] (after a stop) or a result object. *)
Inductive Ref : Type :=
| Undefined
| Null
| Obj (r : Result).

(** The generator returned by [runner.run]: the results it has not yielded
    yet.  [next().value] pops the first one and is [undefined] at the end. *)
Definition Generator : Type := list Result.

Definition generator_next (g : Generator) : Ref * Generator :=
  match g with
  | [] => (Undefined, [])
  | r :: rest => (Obj r, rest)
  end.

(** The runner: the loaded nodes by title, with the sequence each one runs,
    and the two tables that are saved and loaded. *)
Record Runner : Type := mkRunner {
  yarnNodes : list (string * Generator);
  variables_data : JSValue;
  visited : JSValue
}.

(** ** The state of [gdjs.dialogueTree] *)

(** A queued command: [{cmd, params, time}]. *)
Record CommandCall : Type := mkCommandCall {
  cmd : string;
  params : list string;
  time : number
}.

(** A pending [setTimeout] of a wait command.  Its callback holds the index
    of the wait entry and the array object that was in [commandCalls] when
    the timer was set; [timer_array] names that array object. *)
Record Timer : Type := mkTimer {
  timer_index : nat;
  timer_array : nat;
  timer_delay : number
}.

(** The errors a call can raise: a property read on [undefined] or [null],
    a text [JSON.parse] rejects, and the runner asked for a node it does not
    have. *)
Inductive Error : Type :=
| TypeError
| SyntaxError
| UnknownNode.

(** What [console.error] received. *)
Inductive Diagnostic : Type :=
| Reported (e : Error).

Record DialogueTree : Type := mkDialogueTree {
  runner : Runner;
  dialogue : option Generator;
  dialogueIsRunning : option bool;
  dialogueData : Ref;
  dialogueDataType : option string;
  dialogueText : option string;
  clipTextEnd : option number;
  commandCalls : option (list CommandCall);
  commandCallsRef : nat;
  commandParameters : option (list string);
  pauseScrolling : option bool;
  options : option (list string);
  optionsCount : option number;
  selectedOption : option number;
  selectedOptionUpdated : option bool;
  dialogueBranchTitle : option string;
  dialogueBranchBody : option string;
  dialogueBranchTags : option (list string);
  tagParameters : option (list string);
  timers : list Timer;
  console : list Diagnostic
}.

Definition set_runner (v : Runner) (st : DialogueTree) : DialogueTree :=
  mkDialogueTree v (dialogue st) (dialogueIsRunning st) (dialogueData st)
    (dialogueDataType st) (dialogueText st) (clipTextEnd st) (commandCalls st)
    (commandCallsRef st) (commandParameters st) (pauseScrolling st)
    (options st) (optionsCount st) (selectedOption st)
    (selectedOptionUpdated st) (dialogueBranchTitle st)
    (dialogueBranchBody st) (dialogueBranchTags st) (tagParameters st)
    (timers st) (console st).

Definition set_dialogue (v : option Generator) (st : DialogueTree) : DialogueTree :=
  mkDialogueTree (runner st) v (dialogueIsRunning st) (dialogueData st)
    (dialogueDataType st) (dialogueText st) (clipTextEnd st) (commandCalls st)
    (commandCallsRef st) (commandParameters st) (pauseScrolling st)
    (options st) (optionsCount st) (selectedOption st)
    (selectedOptionUpdated st) (dialogueBranchTitle st)
    (dialogueBranchBody st) (dialogueBranchTags st) (tagParameters st)
    (timers st) (console st).

Definition set_dialogueIsRunning (v : option bool) (st : DialogueTree) : DialogueTree :=
  mkDialogueTree (runner st) (dialogue st) v (dialogueData st)
    (dialogueDataType st) (dialogueText st) (clipTextEnd st) (commandCalls st)
    (commandCallsRef st) (commandParameters st) (pauseScrolling st)
    (options st) (optionsCount st) (selectedOption st)
    (selectedOptionUpdated st) (dialogueBranchTitle st)
    (dialogueBranchBody st) (dialogueBranchTags st) (tagParameters st)
    (timers st) (console st).

Definition set_dialogueData (v : Ref) (st : DialogueTree) : DialogueTree :=
  mkDialogueTree (runner st) (dialogue st) (dialogueIsRunning st) v
    (dialogueDataType st) (dialogueText st) (clipTextEnd st) (commandCalls st)
    (commandCallsRef st) (commandParameters st) (pauseScrolling st)
    (options st) (optionsCount st) (selectedOption st)
    (selectedOptionUpdated st) (dialogueBranchTitle st)
    (dialogueBranchBody st) (dialogueBranchTags st) (tagParameters st)
    (timers st) (console st).

Definition set_dialogueDataType (v : option string) (st : DialogueTree) : DialogueTree :=
  mkDialogueTree (runner st) (dialogue st) (dialogueIsRunning st)
    (dialogueData st) v (dialogueText st) (clipTextEnd st) (commandCalls st)
    (commandCallsRef st) (commandParameters st) (pauseScrolling st)
    (options st) (optionsCount st) (selectedOption st)
    (selectedOptionUpdated st) (dialogueBranchTitle st)
    (dialogueBranchBody st) (dialogueBranchTags st) (tagParameters st)
    (timers st) (console st).

Definition set_dialogueText (v : option string) (st : DialogueTree) : DialogueTree :=
  mkDialogueTree (runner st) (dialogue st) (dialogueIsRunning st)
    (dialogueData st) (dialogueDataType st) v (clipTextEnd st)
    (commandCalls st) (commandCallsRef st) (commandParameters st)
    (pauseScrolling st) (options st) (optionsCount st) (selectedOption st)
    (selectedOptionUpdated st) (dialogueBranchTitle st)
    (dialogueBranchBody st) (dialogueBranchTags st) (tagParameters st)
    (timers st) (console st).

Definition set_clipTextEnd (v : option number) (st : DialogueTree) : DialogueTree :=
  mkDialogueTree (runner st) (dialogue st) (dialogueIsRunning st)
    (dialogueData st) (dialogueDataType st) (dialogueText st) v
    (commandCalls st) (commandCallsRef st) (commandParameters st)
    (pauseScrolling st) (options st) (optionsCount st) (selectedOption st)
    (selectedOptionUpdated st) (dialogueBranchTitle st)
    (dialogueBranchBody st) (dialogueBranchTags st) (tagParameters st)
    (timers st) (console st).

Definition set_commandCalls (v : option (list CommandCall)) (st : DialogueTree) : DialogueTree :=
  mkDialogueTree (runner st) (dialogue st) (dialogueIsRunning st)
    (dialogueData st) (dialogueDataType st) (dialogueText st) (clipTextEnd st)
    v (commandCallsRef st) (commandParameters st) (pauseScrolling st)
    (options st) (optionsCount st) (selectedOption st)
    (selectedOptionUpdated st) (dialogueBranchTitle st)
    (dialogueBranchBody st) (dialogueBranchTags st) (tagParameters st)
    (timers st) (console st).

Definition set_commandCallsRef (v : nat) (st : DialogueTree) : DialogueTree :=
  mkDialogueTree (runner st) (dialogue st) (dialogueIsRunning st)
    (dialogueData st) (dialogueDataType st) (dialogueText st) (clipTextEnd st)
    (commandCalls st) v (commandParameters st) (pauseScrolling st)
    (options st) (optionsCount st) (selectedOption st)
    (selectedOptionUpdated st) (dialogueBranchTitle st)
    (dialogueBranchBody st) (dialogueBranchTags st) (tagParameters st)
    (timers st) (console st).

Definition set_commandParameters (v : option (list string)) (st : DialogueTree) : DialogueTree :=
  mkDialogueTree (runner st) (dialogue st) (dialogueIsRunning st)
    (dialogueData st) (dialogueDataType st) (dialogueText st) (clipTextEnd st)
    (commandCalls st) (commandCallsRef st) v (pauseScrolling st) (options st)
    (optionsCount st) (selectedOption st) (selectedOptionUpdated st)
    (dialogueBranchTitle st) (dialogueBranchBody st) (dialogueBranchTags st)
    (tagParameters st) (timers st) (console st).

Definition set_pauseScrolling (v : option bool) (st : DialogueTree) : DialogueTree :=
  mkDialogueTree (runner st) (dialogue st) (dialogueIsRunning st)
    (dialogueData st) (dialogueDataType st) (dialogueText st) (clipTextEnd st)
    (commandCalls st) (commandCallsRef st) (commandParameters st) v
    (options st) (optionsCount st) (selectedOption st)
    (selectedOptionUpdated st) (dialogueBranchTitle st)
    (dialogueBranchBody st) (dialogueBranchTags st) (tagParameters st)
    (timers st) (console st).

Definition set_options (v : option (list string)) (st : DialogueTree) : DialogueTree :=
  mkDialogueTree (runner st) (dialogue st) (dialogueIsRunning st)
    (dialogueData st) (dialogueDataType st) (dialogueText st) (clipTextEnd st)
    (commandCalls st) (commandCallsRef st) (commandParameters st)
    (pauseScrolling st) v (optionsCount st) (selectedOption st)
    (selectedOptionUpdated st) (dialogueBranchTitle st)
    (dialogueBranchBody st) (dialogueBranchTags st) (tagParameters st)
    (timers st) (console st).

Definition set_optionsCount (v : option number) (st : DialogueTree) : DialogueTree :=
  mkDialogueTree (runner st) (dialogue st) (dialogueIsRunning st)
    (dialogueData st) (dialogueDataType st) (dialogueText st) (clipTextEnd st)
    (commandCalls st) (commandCallsRef st) (commandParameters st)
    (pauseScrolling st) (options st) v (selectedOption st)
    (selectedOptionUpdated st) (dialogueBranchTitle st)
    (dialogueBranchBody st) (dialogueBranchTags st) (tagParameters st)
    (timers st) (console st).

Definition set_selectedOption (v : option number) (st : DialogueTree) : DialogueTree :=
  mkDialogueTree (runner st) (dialogue st) (dialogueIsRunning st)
    (dialogueData st) (dialogueDataType st) (dialogueText st) (clipTextEnd st)
    (commandCalls st) (commandCallsRef st) (commandParameters st)
    (pauseScrolling st) (options st) (optionsCount st) v
    (selectedOptionUpdated st) (dialogueBranchTitle st)
    (dialogueBranchBody st) (dialogueBranchTags st) (tagParameters st)
    (timers st) (console st).

Definition set_selectedOptionUpdated (v : option bool) (st : DialogueTree) : DialogueTree :=
  mkDialogueTree (runner st) (dialogue st) (dialogueIsRunning st)
    (dialogueData st) (dialogueDataType st) (dialogueText st) (clipTextEnd st)
    (commandCalls st) (commandCallsRef st) (commandParameters st)
    (pauseScrolling st) (options st) (optionsCount st) (selectedOption st) v
    (dialogueBranchTitle st) (dialogueBranchBody st) (dialogueBranchTags st)
    (tagParameters st) (timers st) (console st).

Definition set_dialogueBranchTitle (v : option string) (st : DialogueTree) : DialogueTree :=
  mkDialogueTree (runner st) (dialogue st) (dialogueIsRunning st)
    (dialogueData st) (dialogueDataType st) (dialogueText st) (clipTextEnd st)
    (commandCalls st) (commandCallsRef st) (commandParameters st)
    (pauseScrolling st) (options st) (optionsCount st) (selectedOption st)
    (selectedOptionUpdated st) v (dialogueBranchBody st)
    (dialogueBranchTags st) (tagParameters st) (timers st) (console st).

Definition set_dialogueBranchBody (v : option string) (st : DialogueTree) : DialogueTree :=
  mkDialogueTree (runner st) (dialogue st) (dialogueIsRunning st)
    (dialogueData st) (dialogueDataType st) (dialogueText st) (clipTextEnd st)
    (commandCalls st) (commandCallsRef st) (commandParameters st)
    (pauseScrolling st) (options st) (optionsCount st) (selectedOption st)
    (selectedOptionUpdated st) (dialogueBranchTitle st) v
    (dialogueBranchTags st) (tagParameters st) (timers st) (console st).

Definition set_dialogueBranchTags (v : option (list string)) (st : DialogueTree) : DialogueTree :=
  mkDialogueTree (runner st) (dialogue st) (dialogueIsRunning st)
    (dialogueData st) (dialogueDataType st) (dialogueText st) (clipTextEnd st)
    (commandCalls st) (commandCallsRef st) (commandParameters st)
    (pauseScrolling st) (options st) (optionsCount st) (selectedOption st)
    (selectedOptionUpdated st) (dialogueBranchTitle st)
    (dialogueBranchBody st) v (tagParameters st) (timers st) (console st).

Definition set_tagParameters (v : option (list string)) (st : DialogueTree) : DialogueTree :=
  mkDialogueTree (runner st) (dialogue st) (dialogueIsRunning st)
    (dialogueData st) (dialogueDataType st) (dialogueText st) (clipTextEnd st)
    (commandCalls st) (commandCallsRef st) (commandParameters st)
    (pauseScrolling st) (options st) (optionsCount st) (selectedOption st)
    (selectedOptionUpdated st) (dialogueBranchTitle st)
    (dialogueBranchBody st) (dialogueBranchTags st) v (timers st) (console st).

Definition set_timers (v : list Timer) (st : DialogueTree) : DialogueTree :=
  mkDialogueTree (runner st) (dialogue st) (dialogueIsRunning st)
    (dialogueData st) (dialogueDataType st) (dialogueText st) (clipTextEnd st)
    (commandCalls st) (commandCallsRef st) (commandParameters st)
    (pauseScrolling st) (options st) (optionsCount st) (selectedOption st)
    (selectedOptionUpdated st) (dialogueBranchTitle st)
    (dialogueBranchBody st) (dialogueBranchTags st) (tagParameters st) v
    (console st).

Definition set_console (v : list Diagnostic) (st : DialogueTree) : DialogueTree :=
  mkDialogueTree (runner st) (dialogue st) (dialogueIsRunning st)
    (dialogueData st) (dialogueDataType st) (dialogueText st) (clipTextEnd st)
    (commandCalls st) (commandCallsRef st) (commandParameters st)
    (pauseScrolling st) (options st) (optionsCount st) (selectedOption st)
    (selectedOptionUpdated st) (dialogueBranchTitle st)
    (dialogueBranchBody st) (dialogueBranchTags st) (tagParameters st)
    (timers st) v.

(** The result of a call that may raise: the value returned, or the error
    raised, with the state the call leaves behind. *)
Inductive Outcome (A : Type) : Type :=
| Return (v : A) (st : DialogueTree)
| Throw (e : Error) (st : DialogueTree).

Arguments Return {A} v st.
Arguments Throw {A} e st.

Definition state_of {A : Type} (o : Outcome A) : DialogueTree :=
  match o with
  | Return _ st => st
  | Throw _ st => st
  end.

Definition returned {A : Type} (o : Outcome A) : option A :=
  match o with
  | Return v _ => Some v
  | Throw _ _ => None
  end.

(** The object before any function has run: only [runner] is set, by
    [gdjs.dialogueTree.runner = new bondage.Runner()]. *)
Definition initial (r : Runner) : DialogueTree :=
  mkDialogueTree r None None Undefined None None None None 0%nat None None
    None None None None None None None None [] [].

(** ** Line presenter *)

(** [gdjs.dialogueTree.scrollClippedText] *)
Definition scrollClippedText (st : DialogueTree) : DialogueTree :=
  if truthy (pauseScrolling st) || negb (truthy (dialogueIsRunning st)) then st
  else if truthy_str (dialogueText st)
       then set_clipTextEnd (Some (num_add (toNumber (clipTextEnd st)) (Num 1))) st
       else st.

(** [gdjs.dialogueTree.completeClippedTextScrolling] *)
Definition completeClippedTextScrolling (st : DialogueTree) : DialogueTree :=
  if truthy (pauseScrolling st) || negb (truthy (dialogueIsRunning st))
     || negb (truthy_str (dialogueText st))
  then st
  else match dialogueText st with
       | Some s => set_clipTextEnd (Some (str_length s)) st
       | None => st
       end.

(** [gdjs.dialogueTree.hasClippedScrollingCompleted] *)
Definition hasClippedScrollingCompleted (st : DialogueTree) : Outcome bool :=
  match dialogueData st with
  | Obj _ =>
      match dialogueText st with
      | None => Throw TypeError st
      | Some s =>
          if truthy_num (str_length s)
          then Return (num_ge (toNumber (clipTextEnd st)) (str_length s)) st
          else Return false st
      end
  | _ => Return false st
  end.

(** [gdjs.dialogueTree.getClippedLineText] *)
Definition getClippedLineText (st : DialogueTree) : Outcome string :=
  match dialogueText st with
  | None => Throw TypeError st
  | Some s =>
      if truthy_num (str_length s) then Return (substring0 s (clipTextEnd st)) st
      else Return "" st
  end.

(** [gdjs.dialogueTree.getLineText] *)
Definition getLineText (st : DialogueTree) : Outcome string :=
  let st1 := completeClippedTextScrolling st in
  match dialogueText st1 with
  | None => Throw TypeError st1
  | Some s => Return (if truthy_num (str_length s) then s else "") st1
  end.

(** ** Session controller: stop and the running check *)

(** [gdjs.dialogueTree.stopRunningDialogue] *)
Definition stopRunningDialogue (st : DialogueTree) : DialogueTree :=
  let st1 := if truthy (dialogueIsRunning st)
             then set_dialogueIsRunning (Some false) st else st in
  let st2 := match dialogueData st1 with
             | Obj _ => set_dialogueData Null st1
             | _ => st1
             end in
  set_clipTextEnd (Some (Num 0)) (set_dialogueText (Some "") st2).

(** The condition under which [isRunning] clears the flag. *)
Definition line_finished (st : DialogueTree) : bool :=
  truthy (dialogueIsRunning st)
  && match dialogueData st with Obj _ => false | _ => true end
  && match dialogueText st with
     | Some s => negb (String.eqb s "")
                 && num_ge (toNumber (clipTextEnd st)) (str_length s)
     | None => false
     end.

(** [gdjs.dialogueTree.isRunning]: the value returned is the flag itself,
    which is [undefined] before the first start. *)
Definition isRunning (st : DialogueTree) : option bool * DialogueTree :=
  let st1 := if line_finished st then set_dialogueIsRunning (Some false) st
             else st in
  (dialogueIsRunning st1, st1).

(** ** Command queue *)

(** [gdjs.dialogueTree.commandParametersCount] *)
Definition commandParametersCount (st : DialogueTree) : number :=
  match commandParameters st with
  | Some ps =>
      if (1 <? Z.of_nat (List.length ps)) then Num (Z.of_nat (List.length ps) - 1)
      else Num 0
  | None => Num 0
  end.

(** [gdjs.dialogueTree.getCommandParameter], for an integer index. *)
Definition getCommandParameter (paramIndex : Z) (st : DialogueTree) : string :=
  match commandParameters st with
  | Some ps =>
      if (paramIndex + 1 <=? Z.of_nat (List.length ps))
      then if (0 <=? paramIndex + 1)
           then nth (Z.to_nat (paramIndex + 1)) ps ""
           else ""
      else ""
  | None => ""
  end.

(** The callback given to [commandCalls.some] by [isCommandCalled], run over
    the entries from position [index] on.  [clip] and [text] are the values
    of [clipTextEnd] and [dialogueText] read before the scan. *)
Fixpoint scanCommandCalls (command : string) (clip : option number)
    (text : option string) (index : nat) (calls : list CommandCall)
    (st : DialogueTree) : Outcome bool :=
  match calls with
  | [] => Return false st
  | call :: rest =>
      if num_lt (toNumber clip) (time call)
      then scanCommandCalls command clip text (S index) rest st
      else
        let waited :=
          if String.eqb (cmd call) "wait" then
            match text with
            | None => Throw TypeError st
            | Some s =>
                if negb (strict_eq_num clip (Some (str_length s)))
                then Return tt
                       (set_timers
                          (timers st ++
                           [mkTimer index (commandCallsRef st)
                              (parseInt10 (nth_error (params call) 1))])
                          (set_pauseScrolling (Some true) st))
                else Return tt st
            end
          else Return tt st in
        match waited with
        | Throw e st1 => Throw e st1
        | Return _ st1 =>
            if String.eqb (cmd call) command
            then Return true
                   (set_commandCalls
                      (option_map (splice1 index) (commandCalls st1))
                      (set_commandParameters (Some (params call)) st1))
            else scanCommandCalls command clip text (S index) rest st1
        end
  end.

(** [gdjs.dialogueTree.isCommandCalled] *)
Definition isCommandCalled (command : string) (st : DialogueTree) : Outcome bool :=
  match commandCalls st with
  | None => Return false st
  | Some calls =>
      if truthy (pauseScrolling st) then Return false st
      else scanCommandCalls command (clipTextEnd st) (dialogueText st) 0 calls st
  end.

(** The callback of a wait timer, when the host runs it: the pause ends and
    one entry is spliced out of the array the callback holds.  When
    [commandCalls] has been given a new array since, the splice reaches the
    old array only. *)
Definition timerCallback (t : Timer) (st : DialogueTree) : DialogueTree :=
  let st1 := set_pauseScrolling (Some false) st in
  if Nat.eqb (timer_array t) (commandCallsRef st1)
  then set_commandCalls (option_map (splice1 (timer_index t)) (commandCalls st1)) st1
  else st1.

(** The host fires the pending timer at position [i], if there is one. *)
Definition fireTimer (i : nat) (st : DialogueTree) : DialogueTree :=
  match nth_error (timers st) i with
  | Some t => timerCallback t (set_timers (splice1 i (timers st)) st)
  | None => st
  end.

(** The test of [isDialogueLineType] on the queue: some wait entry has
    [clipTextEnd] strictly past its offset. *)
Definition waitExpired (st : DialogueTree) : bool :=
  match commandCalls st with
  | Some calls =>
      existsb (fun call => num_gt (toNumber (clipTextEnd st)) (time call)
                           && String.eqb (cmd call) "wait") calls
  | None => false
  end.

(** [gdjs.dialogueTree.isDialogueLineType] *)
Definition isDialogueLineType (type : string) (st : DialogueTree) : bool :=
  if waitExpired st then negb (truthy (pauseScrolling st))
  else if truthy (dialogueIsRunning st)
       then strict_eq_str (dialogueDataType st) type
       else false.

(** ** Option selector *)

(** [this.dialogueData.select]: reading the property raises on [undefined]
    and [null]; only an options result has the method. *)
Definition data_select (st : DialogueTree) : Outcome bool :=
  match dialogueData st with
  | Undefined | Null => Throw TypeError st
  | Obj (OptionsResult _) => Return true st
  | Obj _ => Return false st
  end.

(** [gdjs.dialogueTree._normalizedOptionIndex] *)
Definition _normalizedOptionIndex (optionIndex : option number)
    (st : DialogueTree) : Outcome (option number) :=
  match options st with
  | None => Throw TypeError st
  | Some opts =>
      let len := Num (Z.of_nat (List.length opts)) in
      let i1 := if num_ge (toNumber optionIndex) len
                then Some (num_sub len (Num 1)) else optionIndex in
      let i2 := if num_lt (toNumber i1) (Num 0) then Some (Num 0) else i1 in
      Return i2 st
  end.

(** [gdjs.dialogueTree._cycledOptionIndex] *)
Definition _cycledOptionIndex (optionIndex : option number)
    (st : DialogueTree) : Outcome (option number) :=
  match options st with
  | None => Throw TypeError st
  | Some opts =>
      let len := Num (Z.of_nat (List.length opts)) in
      let i1 := if num_ge (toNumber optionIndex) len
                then Some (Num 0) else optionIndex in
      let i2 := if num_lt (toNumber i1) (Num 0)
                then Some (num_sub len (Num 1)) else i1 in
      Return i2 st
  end.

(** [gdjs.dialogueTree.selectNextOption] *)
Definition selectNextOption (st : DialogueTree) : Outcome unit :=
  match data_select st with
  | Throw e st1 => Throw e st1
  | Return false st1 => Return tt st1
  | Return true st1 =>
      let st2 := set_selectedOption
                   (Some (num_add (toNumber (selectedOption st1)) (Num 1))) st1 in
      match _cycledOptionIndex (selectedOption st2) st2 with
      | Throw e st3 => Throw e st3
      | Return i st3 =>
          Return tt (set_selectedOptionUpdated (Some true) (set_selectedOption i st3))
      end
  end.

(** [gdjs.dialogueTree.selectPreviousOption] *)
Definition selectPreviousOption (st : DialogueTree) : Outcome unit :=
  match data_select st with
  | Throw e st1 => Throw e st1
  | Return false st1 => Return tt st1
  | Return true st1 =>
      let st2 := set_selectedOption
                   (Some (num_sub (toNumber (selectedOption st1)) (Num 1))) st1 in
      match _cycledOptionIndex (selectedOption st2) st2 with
      | Throw e st3 => Throw e st3
      | Return i st3 =>
          Return tt (set_selectedOptionUpdated (Some true) (set_selectedOption i st3))
      end
  end.

(** [gdjs.dialogueTree.selectOption]: the argument is not read. *)
Definition selectOption (optionIndex : option number) (st : DialogueTree)
    : Outcome unit :=
  match data_select st with
  | Throw e st1 => Throw e st1
  | Return false st1 => Return tt st1
  | Return true st1 =>
      match _normalizedOptionIndex (selectedOption st1) st1 with
      | Throw e st2 => Throw e st2
      | Return i st2 =>
          Return tt (set_selectedOptionUpdated (Some true) (set_selectedOption i st2))
      end
  end.

(** [gdjs.dialogueTree.getSelectedOption] *)
Definition getSelectedOption (st : DialogueTree) : Outcome (option number) :=
  match data_select st with
  | Throw e st1 => Throw e st1
  | Return true st1 => Return (selectedOption st1) st1
  | Return false st1 => Return (Some (Num 0)) st1
  end.

(** [gdjs.dialogueTree.hasSelectedOptionChanged] *)
Definition hasSelectedOptionChanged (st : DialogueTree) : bool * DialogueTree :=
  if truthy (selectedOptionUpdated st) then
    let st1 := set_selectedOptionUpdated (Some false) st in
    let st2 := if strict_eq_num (selectedOption st1) (Some (Num (-1)))
               then set_selectedOption (Some (Num 0)) st1 else st1 in
    (true, st2)
  else (false, st).

(** [gdjs.dialogueTree.getLineOptionsCount] *)
Definition getLineOptionsCount (st : DialogueTree) : Outcome (option number) :=
  match options st with
  | None => Throw TypeError st
  | Some opts =>
      if truthy_num (Num (Z.of_nat (List.length opts)))
      then Return (optionsCount st) st
      else Return (Some (Num 0)) st
  end.

(** ** Session controller: starting a branch and advancing *)

(** [gdjs.dialogueTree.hasDialogueBranch]: the runner and its node table
    always exist, so the answer is whether some key equals the name. *)
Definition hasDialogueBranch (branchName : string) (st : DialogueTree) : bool :=
  existsb (fun node => String.eqb (fst node) branchName) (yarnNodes (runner st)).

(** [runner.run(name)]: the sequence of the node, an error for a name the
    runner does not know. *)
Fixpoint runner_run (name : string) (nodes : list (string * Generator))
    : option Generator :=
  match nodes with
  | [] => None
  | (k, g) :: rest => if String.eqb k name then Some g else runner_run name rest
  end.

(** [this.dialogueData = this.dialogue.next().value] *)
Definition pullNext (st : DialogueTree) : Outcome unit :=
  match dialogue st with
  | None => Throw TypeError st
  | Some g =>
      let (v, g') := generator_next g in
      Return tt (set_dialogueData v (set_dialogue (Some g') st))
  end.

(** [this.commandCalls.length && last.cmd === 'wait' ? 1 : 0] *)
Definition offsetTime (calls : list CommandCall) : Z :=
  match List.last (map (fun c => Some (cmd c)) calls) None with
  | Some c => if String.eqb c "wait" then 1 else 0
  | None => 0
  end.

Definition isCommandRef (d : Ref) : bool :=
  match d with
  | Obj (CommandResult _) => true
  | _ => false
  end.

(** [gdjs.dialogueTree.goToNextDialogueLine].  The function calls itself
    after each command it queues; [fuel] bounds the depth of these calls and
    [None] means that the bound was reached. *)
Fixpoint goToNextDialogueLine_fuel (fuel : nat) (st : DialogueTree)
    : option (Outcome unit) :=
  match fuel with
  | O => None
  | S fuel' =>
      if truthy (pauseScrolling st) || negb (truthy (dialogueIsRunning st))
      then Some (Return tt st)
      else
        let st0 := set_selectedOptionUpdated (Some false)
                     (set_selectedOption (Some (Num (-1)))
                        (set_optionsCount (Some (Num 0)) st)) in
        let dispatched : option (Outcome unit) :=
          match dialogueData st0 with
          | Obj (TextResult text data) =>
              let st1 :=
                if strict_eq_str (dialogueDataType st0) "options"
                   || strict_eq_str (dialogueDataType st0) "text"
                   || negb (truthy_str (dialogueDataType st0))
                then set_commandCalls (Some [])
                       (set_commandCallsRef (S (commandCallsRef st0))
                          (set_dialogueText (Some text)
                             (set_clipTextEnd (Some (Num 0)) st0)))
                else set_dialogueText
                       (Some (match dialogueText st0 with
                              | Some s => s ++ text
                              | None => "undefined" ++ text
                              end)%string) st0 in
              let st2 := set_dialogueBranchBody (Some (body data))
                           (set_dialogueBranchTitle (Some (title data))
                              (set_dialogueBranchTags (Some (tags data))
                                 (set_dialogueDataType (Some "text") st1))) in
              Some (pullNext st2)
          | Obj (OptionsResult opts) =>
              Some (Return tt
                      (set_selectedOptionUpdated (Some true)
                         (set_options (Some opts)
                            (set_optionsCount (Some (Num (Z.of_nat (List.length opts))))
                               (set_dialogueDataType (Some "options") st0)))))
          | Obj (CommandResult text) =>
              let st1 := set_dialogueDataType (Some "command") st0 in
              let command := split_space text in
              match commandCalls st1, dialogueText st1 with
              | None, _ => Some (Throw TypeError st1)
              | Some _, None => Some (Throw TypeError st1)
              | Some calls, Some s =>
                  let call := mkCommandCall (hd "" command) command
                                (num_add (str_length s) (Num (offsetTime calls))) in
                  match pullNext (set_commandCalls (Some (calls ++ [call])%list) st1) with
                  | Throw e st2 => Some (Throw e st2)
                  | Return _ st2 => goToNextDialogueLine_fuel fuel' st2
                  end
              end
          | _ => Some (Return tt (set_dialogueDataType (Some "unknown") st0))
          end in
        match dispatched with
        | Some (Return _ st3) =>
            if isCommandRef (dialogueData st3)
            then goToNextDialogueLine_fuel fuel'
                   (set_dialogueDataType (Some "command") st3)
            else Some (Return tt st3)
        | other => other
        end
  end.

(** Two calls for each result still to come, and two more, are enough (see
    [goToNextDialogueLine_returns]). *)
Definition fuel_for (st : DialogueTree) : nat :=
  match dialogue st with
  | Some g => 2 * List.length g + 2
  | None => 2
  end.

Definition goToNextDialogueLine (st : DialogueTree) : option (Outcome unit) :=
  goToNextDialogueLine_fuel (fuel_for st) st.

(** [gdjs.dialogueTree.startFrom] *)
Definition startFrom (startDialogueNode : string) (st : DialogueTree)
    : option (Outcome unit) :=
  if negb (hasDialogueBranch startDialogueNode st) then Some (Return tt st)
  else
    let st1 := set_tagParameters (Some [])
                 (set_dialogueBranchTags (Some [])
                    (set_dialogueBranchBody (Some "")
                       (set_dialogueBranchTitle (Some "")
                          (set_options (Some [])
                             (set_optionsCount (Some (Num 0)) st))))) in
    match runner_run startDialogueNode (yarnNodes (runner st1)) with
    | None => Some (Throw UnknownNode st1)
    | Some g =>
        let st2 := set_pauseScrolling (Some false)
                     (set_commandParameters (Some [])
                        (set_commandCalls (Some [])
                           (set_commandCallsRef (S (commandCallsRef st1))
                              (set_clipTextEnd (Some (Num 0))
                                 (set_dialogueText (Some "")
                                    (set_dialogueDataType (Some "")
                                       (set_dialogueData Null
                                          (set_dialogue (Some g) st1)))))))) in
        match pullNext st2 with
        | Throw e st3 => Some (Throw e st3)
        | Return _ st3 =>
            goToNextDialogueLine (set_dialogueIsRunning (Some true) st3)
        end
    end.

(** ** State codec *)

(** What the runtime uses of the host to save and load: the host's variable
    type [gdjs.Variable], [gdjs.evtTools.network._objectToVariable] (which
    fills the variable it is given), [variableStructureToJSON], and
    [JSON.parse], which returns the parsed value or raises. *)
Class Host : Type := {
  Variable_ : Type;
  _objectToVariable : JSValue -> Variable_ -> Variable_;
  variableStructureToJSON : Variable_ -> string;
  JSON_parse : string -> Error + JSValue
}.

(** The object [{variables: ..., visited: ...}] built by [saveState]. *)
Definition dialogueState (st : DialogueTree) : JSValue :=
  JObject [("variables", variables_data (runner st));
           ("visited", visited (runner st))].

(** [gdjs.dialogueTree.saveState]: the content of [outputVariable] after
    the call. *)
Definition saveState `{Host} (outputVariable : Variable_) (st : DialogueTree)
    : Variable_ :=
  _objectToVariable (dialogueState st) outputVariable.

(** [loadedState.key]: a property read raises on [null] and [undefined], and
    gives [undefined] on a value without that own property. *)
Definition get_property (key : string) (v : JSValue) : Error + JSValue :=
  match v with
  | JUndefined | JNull => inl TypeError
  | JObject props => inr (own_property key props)
  | _ => inr JUndefined
  end.

Definition set_visited (v : JSValue) (st : DialogueTree) : DialogueTree :=
  set_runner (mkRunner (yarnNodes (runner st)) (variables_data (runner st)) v) st.

Definition set_variables_data (v : JSValue) (st : DialogueTree) : DialogueTree :=
  set_runner (mkRunner (yarnNodes (runner st)) v (visited (runner st))) st.

Definition console_error (e : Error) (st : DialogueTree) : DialogueTree :=
  set_console (console st ++ [Reported e]) st.

(** [gdjs.dialogueTree.loadState]: everything inside the [try] block that
    raises is caught and sent to [console.error]. *)
Definition loadState `{Host} (inputVariable : Variable_) (st : DialogueTree)
    : DialogueTree :=
  let jsonData := variableStructureToJSON inputVariable in
  match JSON_parse (variableStructureToJSON inputVariable) with
  | inl e => console_error e st
  | inr loadedState =>
      match get_property "visited" loadedState with
      | inl e => console_error e st
      | inr v =>
          let st1 := set_visited v st in
          match get_property "variables" loadedState with
          | inl e => console_error e st1
          | inr d => set_variables_data d st1
          end
      end
  end.

(** The two tables [saveState] and [loadState] are about. *)
Definition tables (st : DialogueTree) : JSValue * JSValue :=
  (variables_data (runner st), visited (runner st)).

(** A parsed value has the shape of a saved state when it is an object with
    both properties. *)
Definition persisted_shape (v : JSValue) : Prop :=
  exists props, v = JObject props
    /\ own_property "variables" props <> JUndefined
    /\ own_property "visited" props <> JUndefined.

(** ** Driving the runtime from a game loop *)

(** What the caller or the host does in one step: a scroll tick, a poll of
    [isCommandCalled] for a command name, or the firing of the pending
    timer at some position. *)
Inductive Event : Type :=
| Tick
| Poll (command : string)
| Fire (i : nat).

Definition step (e : Event) (st : DialogueTree) : option (option bool) * DialogueTree :=
  match e with
  | Tick => (None, scrollClippedText st)
  | Fire i => (None, fireTimer i st)
  | Poll c => let o := isCommandCalled c st in (Some (returned o), state_of o)
  end.

(** The state after a list of events. *)
Fixpoint run (evs : list Event) (st : DialogueTree) : DialogueTree :=
  match evs with
  | [] => st
  | e :: rest => run rest (snd (step e st))
  end.

(** The answers of the polls in a list of events, in order; [None] for a
    poll that raised. *)
Fixpoint answers (evs : list Event) (st : DialogueTree) : list (option bool) :=
  match evs with
  | [] => []
  | e :: rest =>
      match fst (step e st) with
      | Some a => a :: answers rest (snd (step e st))
      | None => answers rest (snd (step e st))
      end
  end.

(** How many polls answered true. *)
Definition fired (l : list (option bool)) : nat :=
  List.length (filter (fun a => match a with Some true => true | _ => false end) l).

(** [n] scroll ticks. *)
Definition ticks (n : nat) (st : DialogueTree) : DialogueTree :=
  run (repeat Tick n) st.

(** [n] calls of [selectNextOption], an error leaving the state as it is at
    that point. *)
Fixpoint selectNextOption_times (n : nat) (st : DialogueTree) : DialogueTree :=
  match n with
  | O => st
  | S n' => selectNextOption_times n' (state_of (selectNextOption st))
  end.

(** ** Sample scripts *)

Definition plain_data : NodeData := mkNodeData [] "Start" "Hi".

(** A node with the single line "Hi". *)
Definition one_line : Runner :=
  mkRunner [("Start", [TextResult "Hi" plain_data])] (JObject []) (JObject []).

(** A node that opens on a choice between "Yes" and "No". *)
Definition choice : Runner :=
  mkRunner [("Start", [OptionsResult ["Yes"; "No"]])] (JObject []) (JObject []).

(** The scenario of a line "Hi <<wait 500>> there" followed by a choice. *)
Definition wait_data : NodeData :=
  mkNodeData [] "Start" "Hi <<wait 500>> there".

Definition wait_script : Runner :=
  mkRunner
    [("Start", [TextResult "Hi " wait_data; CommandResult "wait 500";
                TextResult "there" wait_data; OptionsResult ["Yes"; "No"]])]
    (JObject []) (JObject []).

(** A line "Hello" with a command "shake 3" queued after "He". *)
Definition shake_script : Runner :=
  mkRunner
    [("Start", [TextResult "He" plain_data; CommandResult "shake 3";
                TextResult "llo" plain_data])]
    (JObject []) (JObject []).

(** The state after [startFrom "Start"] on a freshly loaded runner. *)
Definition started (r : Runner) : DialogueTree :=
  match startFrom "Start" (initial r) with
  | Some o => state_of o
  | None => initial r
  end.


(** ** Predicates used to state the properties *)

(** The events of a caller that only scrolls and polls for one command. *)
Definition scroll_or_poll (name : string) (e : Event) : Prop :=
  e = Tick \/ e = Poll name \/ exists i, e = Fire i.

(** The cursor is at or past offset [k]. *)
Definition clip_reached (k : Z) (st : DialogueTree) : Prop :=
  exists c, clipTextEnd st = Some (Num c) /\ k <= c.

(** A line is being shown with the single entry [call] queued, no pause and
    no timer pending. *)
Definition armed (call : CommandCall) (text : string) (st : DialogueTree) : Prop :=
  commandCalls st = Some [call]
  /\ dialogueText st = Some text
  /\ truthy (pauseScrolling st) = false
  /\ timers st = []
  /\ exists c, clipTextEnd st = Some (Num c).

(** An entry is eligible once the cursor is not before its offset. *)
Definition eligible (clip : option number) (call : CommandCall) : bool :=
  negb (num_lt (toNumber clip) (time call)).

(** An eligible entry with the polled name. *)
Definition matches (command : string) (clip : option number) (call : CommandCall)
    : bool :=
  eligible clip call && String.eqb (cmd call) command.

(** What the scan does to the state at an eligible entry before it compares
    the name, on a line [s]. *)
Definition waitStep (clip : option number) (s : string) (index : nat)
    (call : CommandCall) (st : DialogueTree) : DialogueTree :=
  if String.eqb (cmd call) "wait" && negb (strict_eq_num clip (Some (str_length s)))
  then set_timers
         (timers st ++ [mkTimer index (commandCallsRef st)
                          (parseInt10 (nth_error (params call) 1))])
         (set_pauseScrolling (Some true) st)
  else st.

(** Some queued entry is a wait whose offset the cursor has passed. *)
Definition expired_wait_queued (st : DialogueTree) : Prop :=
  exists calls call c t,
    commandCalls st = Some calls /\ In call calls /\ cmd call = "wait"
    /\ clipTextEnd st = Some (Num c) /\ time call = Num t /\ t < c.

(** The line shown is not empty and the cursor is at or past its end. *)
Definition fully_scrolled (st : DialogueTree) : Prop :=
  exists s c, dialogueText st = Some s /\ s <> ""
    /\ clipTextEnd st = Some (Num c) /\ Z.of_nat (String.length s) <= c.

(** No node is held in [dialogueData]: the sequence is exhausted, or the
    session was stopped or never started. *)
Definition no_node_pending (st : DialogueTree) : Prop :=
  dialogueData st = Undefined \/ dialogueData st = Null.

(** An options node is current, with the candidate list [opts] recorded. *)
Definition choosing (opts : list string) (st : DialogueTree) : Prop :=
  dialogueData st = Obj (OptionsResult opts) /\ options st = Some opts.

(** A text or command result is current. *)
Definition not_choosing (st : DialogueTree) : Prop :=
  exists r, dialogueData st = Obj r
    /\ match r with OptionsResult _ => False | _ => True end.

(** [n] calls of [selectPreviousOption]. *)
Fixpoint selectPreviousOption_times (n : nat) (st : DialogueTree) : DialogueTree :=
  match n with
  | O => st
  | S n' => selectPreviousOption_times n' (state_of (selectPreviousOption st))
  end.

(** The two selection moves in one: [d] is 1 for [selectNextOption] and -1
    for [selectPreviousOption]. *)
Definition selectStep (d : Z) (st : DialogueTree) : Outcome unit :=
  if d =? 1 then selectNextOption st else selectPreviousOption st.

(** The index [_cycledOptionIndex] returns for an integer index [j] and
    [count] candidates. *)
Definition cycled (count j : Z) : Z :=
  let j1 := if count <=? j then 0 else j in
  if j1 <? 0 then count - 1 else j1.

(** The results the generator of the session still holds. *)
Definition pending (st : DialogueTree) : Generator :=
  match dialogue st with
  | Some g => g
  | None => []
  end.

(** What bounds the calls of [goToNextDialogueLine]: two for each pending
    result, and one for a command result held in [dialogueData]. *)
Definition advance_measure (st : DialogueTree) : nat :=
  2 * List.length (pending st) + (if isCommandRef (dialogueData st) then 1 else 0).

(** ** A sample host *)

(** A host whose variables store the object they are given, with a JSON
    writer and a JSON reader for objects, arrays, strings without escapes,
    integers and the three literals.  It gives the examples below a host to
    run on. *)
Definition quote : ascii := ascii_of_nat 34.

Definition quoted (s : string) : string :=
  (String quote s ++ String quote "")%string.

Fixpoint render (v : JSValue) : string :=
  match v with
  | JUndefined | JNull => "null"
  | JBool true => "true"
  | JBool false => "false"
  | JNumber z => NilZero.string_of_int (Z.to_int z)
  | JString s => quoted s
  | JArray items =>
      ("[" ++ (fix go (l : list JSValue) : string :=
                 match l with
                 | [] => ""
                 | [x] => render x
                 | x :: rest => render x ++ "," ++ go rest
                 end) items ++ "]")%string
  | JObject props =>
      ("{" ++ (fix go (l : list (string * JSValue)) : string :=
                 match l with
                 | [] => ""
                 | [(k, x)] => quoted k ++ ": " ++ render x
                 | (k, x) :: rest => quoted k ++ ": " ++ render x ++ "," ++ go rest
                 end) props ++ "}")%string
  end.

(** The characters of a string up to its closing quote, and what follows. *)
Fixpoint read_string (s : string) (acc : string) : option (string * string) :=
  match s with
  | EmptyString => None
  | String c rest =>
      if Ascii.eqb c quote then Some (acc, rest)
      else if Ascii.eqb c "\"%char then None
      else read_string rest (acc ++ String c "")%string
  end.

(** The text after a prefix, when the text starts with it. *)
Fixpoint strip_prefix (p s : string) : option string :=
  match p, s with
  | EmptyString, _ => Some s
  | String a p', String b s' => if Ascii.eqb a b then strip_prefix p' s' else None
  | _, EmptyString => None
  end.

(** The text after the leading run of decimal digits. *)
Fixpoint drop_digits (s : string) : string :=
  match s with
  | String c rest => match digit_of c with Some _ => drop_digits rest | None => s end
  | EmptyString => s
  end.

Definition read_number (s : string) : option (JSValue * string) :=
  match s with
  | String "-" rest =>
      match read_digits rest None with
      | Some n => Some (JNumber (- n), drop_digits rest)
      | None => None
      end
  | _ =>
      match read_digits s None with
      | Some n => Some (JNumber n, drop_digits s)
      | None => None
      end
  end.

Definition read_literal (s : string) : option (JSValue * string) :=
  match strip_prefix "true" s, strip_prefix "false" s, strip_prefix "null" s with
  | Some rest, _, _ => Some (JBool true, rest)
  | _, Some rest, _ => Some (JBool false, rest)
  | _, _, Some rest => Some (JNull, rest)
  | _, _, _ => read_number s
  end.

Fixpoint read_value (fuel : nat) (s : string) : option (JSValue * string) :=
  match fuel with
  | O => None
  | S fuel' =>
      match skip_spaces s with
      | EmptyString => None
      | String c rest =>
          if Ascii.eqb c "{"%char then
            match skip_spaces rest with
            | String "}" rest' => Some (JObject [], rest')
            | _ =>
                match read_members fuel' rest with
                | Some (props, rest') => Some (JObject props, rest')
                | None => None
                end
            end
          else if Ascii.eqb c "["%char then
            match skip_spaces rest with
            | String "]" rest' => Some (JArray [], rest')
            | _ =>
                match read_items fuel' rest with
                | Some (items, rest') => Some (JArray items, rest')
                | None => None
                end
            end
          else if Ascii.eqb c quote then
            match read_string rest "" with
            | Some (t, rest') => Some (JString t, rest')
            | None => None
            end
          else read_literal (String c rest)
      end
  end
with read_members (fuel : nat) (s : string)
    : option (list (string * JSValue) * string) :=
  match fuel with
  | O => None
  | S fuel' =>
      match strip_prefix (String quote "") (skip_spaces s) with
      | None => None
      | Some s1 =>
          match read_string s1 "" with
          | None => None
          | Some (key, s2) =>
              match skip_spaces s2 with
              | String ":" s3 =>
                  match read_value fuel' s3 with
                  | None => None
                  | Some (v, s4) =>
                      match skip_spaces s4 with
                      | String "}" s5 => Some ([(key, v)], s5)
                      | String "," s5 =>
                          match read_members fuel' s5 with
                          | Some (props, s6) => Some ((key, v) :: props, s6)
                          | None => None
                          end
                      | _ => None
                      end
                  end
              | _ => None
              end
          end
      end
  end
with read_items (fuel : nat) (s : string) : option (list JSValue * string) :=
  match fuel with
  | O => None
  | S fuel' =>
      match read_value fuel' s with
      | None => None
      | Some (v, s1) =>
          match skip_spaces s1 with
          | String "]" s2 => Some ([v], s2)
          | String "," s2 =>
              match read_items fuel' s2 with
              | Some (items, s3) => Some (v :: items, s3)
              | None => None
              end
          | _ => None
          end
      end
  end.

Definition parse (s : string) : Error + JSValue :=
  match read_value (S (String.length s)) s with
  | Some (v, rest) =>
      match skip_spaces rest with
      | EmptyString => inr v
      | _ => inl SyntaxError
      end
  | None => inl SyntaxError
  end.

#[local] Instance sampleHost : Host := {|
  Variable_ := JSValue;
  _objectToVariable := fun obj _ => obj;
  variableStructureToJSON := render;
  JSON_parse := parse
|}.

(** A runner whose two tables are not empty. *)
Definition played : Runner :=
  mkRunner [("Start", [TextResult "Hi" plain_data])]
    (JObject [("gold", JNumber 5); ("name", JString "Ann")])
    (JObject [("Start", JBool true)]).


(** ** Further functions of the runtime *)

(** *** Option texts *)

(** What [getLineOption] returns: the empty array, a candidate, or
    [undefined]. *)
Inductive OptionText : Type :=
| NoOptions
| OptionString (s : string)
| OptionUndefined.

(** [a[i]] on an array of strings, for an index that is a number or
    [undefined]. *)
Definition array_get (a : list string) (i : option number) : option string :=
  match i with
  | Some (Num z) => if z <? 0 then None else nth_error a (Z.to_nat z)
  | _ => None
  end.

(** [gdjs.dialogueTree.getLineOption] *)
Definition getLineOption (optionIndex : option number) (st : DialogueTree)
    : Outcome OptionText :=
  match options st with
  | None => Throw TypeError st
  | Some opts =>
      if negb (truthy_num (Num (Z.of_nat (List.length opts))))
      then Return NoOptions st
      else
        match _normalizedOptionIndex optionIndex st with
        | Throw e st1 => Throw e st1
        | Return i st1 =>
            Return (match array_get opts i with
                    | Some s => OptionString s
                    | None => OptionUndefined
                    end) st1
        end
  end.

(** The characters the dot of a regular expression does not match, among
    8-bit characters: line feed and carriage return. *)
Definition is_line_terminator (c : ascii) : bool :=
  (Nat.eqb (nat_of_ascii c) 10 || Nat.eqb (nat_of_ascii c) 13)%bool.

(** [s.replace(/.*/g, ' ')]: on each line the pattern matches the whole line
    and then, when the line is not empty, the empty string at its end, and
    every match becomes one space; line terminators stay.  [seen] tells
    whether the current line has had a character. *)
Fixpoint blankLines (s : string) (seen : bool) : string :=
  match s with
  | EmptyString => if seen then "  " else " "
  | String c rest =>
      if is_line_terminator c
      then ((if seen then "  " else " ") ++ String c (blankLines rest false))%string
      else blankLines rest true
  end.

Definition blankCursor (s : string) : string := blankLines s false.

Definition newline : string := String (ascii_of_nat 10) "".

(** The callback given to [options.forEach] by [getLineOptionsText], run
    over the candidates from position [index] on, [textResult] being the
    text built so far. *)
Fixpoint appendOptions (optionSelectionCursor : string) (addNewLine : bool)
    (selected : option number) (index : nat) (opts : list string)
    (textResult : string) : string :=
  match opts with
  | [] => textResult
  | optionText :: rest =>
      let t1 := if strict_eq_num (Some (Num (Z.of_nat index))) selected
                then (textResult ++ optionSelectionCursor)%string
                else (textResult ++ blankCursor optionSelectionCursor)%string in
      let t2 := (t1 ++ optionText)%string in
      let t3 := if addNewLine then (t2 ++ newline)%string else t2 in
      appendOptions optionSelectionCursor addNewLine selected (S index) rest t3
  end.

(** [gdjs.dialogueTree.getLineOptionsText] *)
Definition getLineOptionsText (optionSelectionCursor : string) (addNewLine : bool)
    (st : DialogueTree) : Outcome string :=
  match options st with
  | None => Throw TypeError st
  | Some opts =>
      if negb (truthy_num (Num (Z.of_nat (List.length opts)))) then Return "" st
      else Return (appendOptions optionSelectionCursor addNewLine
                     (selectedOption st) 0 opts "") st
  end.

(** [gdjs.dialogueTree.getLineOptionsTextHorizontal] *)
Definition getLineOptionsTextHorizontal (optionSelectionCursor : string)
    (st : DialogueTree) : Outcome string :=
  getLineOptionsText optionSelectionCursor false st.

(** [gdjs.dialogueTree.getLineOptionsTextVertical] *)
Definition getLineOptionsTextVertical (optionSelectionCursor : string)
    (st : DialogueTree) : Outcome string :=
  getLineOptionsText optionSelectionCursor true st.

(** *** Confirming a selection *)

(** What the runtime uses of an options result of the interpreter:
    [result.select(index)], given the candidates of the result and the
    generator the session holds.  The call either raises or leaves the
    generator ready to continue with the branch chosen. *)
Class Interpreter : Type := {
  result_select : list string -> option number -> option Generator
                  -> Error + option Generator
}.

(** [gdjs.dialogueTree.confirmSelectOption]: what the [try] block raises is
    caught and sent to [console.error]. *)
Definition confirmSelectOption `{Interpreter} (st : DialogueTree)
    : option (Outcome unit) :=
  match dialogueData st with
  | Undefined | Null => Some (Throw TypeError st)
  | Obj (OptionsResult opts) =>
      if negb (truthy (selectedOptionUpdated st))
         && negb (strict_eq_num (selectedOption st) (Some (Num (-1))))
      then
        let st1 := set_commandCalls (Some [])
                     (set_commandCallsRef (S (commandCallsRef st)) st) in
        match result_select opts (selectedOption st1) (dialogue st1) with
        | inl e => Some (Return tt (console_error e st1))
        | inr g =>
            match pullNext (set_dialogue g st1) with
            | Throw e st2 => Some (Return tt (console_error e st2))
            | Return _ st2 =>
                match goToNextDialogueLine st2 with
                | None => None
                | Some (Throw e st3) => Some (Return tt (console_error e st3))
                | Some (Return _ st3) => Some (Return tt st3)
                end
            end
        end
      else Some (Return tt st)
  | Obj _ => Some (Return tt st)
  end.

(** *** Branch metadata *)

(** [gdjs.dialogueTree.getBranchTitle] *)
Definition getBranchTitle (st : DialogueTree) : option string :=
  if truthy (dialogueIsRunning st) then dialogueBranchTitle st else Some "".

(** [gdjs.dialogueTree.branchTitleIs] *)
Definition branchTitleIs (title : string) (st : DialogueTree) : bool :=
  if truthy (dialogueIsRunning st)
  then strict_eq_str (dialogueBranchTitle st) title
  else false.

(** [a.join(',')] on an array of strings. *)
Fixpoint join_comma (a : list string) : string :=
  match a with
  | [] => ""
  | [x] => x
  | x :: rest => (x ++ "," ++ join_comma rest)%string
  end.

(** [gdjs.dialogueTree.getBranchTags] *)
Definition getBranchTags (st : DialogueTree) : Outcome string :=
  if truthy (dialogueIsRunning st) then
    match dialogueBranchTags st with
    | None => Throw TypeError st
    | Some ts => Return (join_comma ts) st
    end
  else Return "" st.

(** [gdjs.dialogueTree.getBranchTag], for an index that is a number; the
    value returned is a tag or [undefined]. *)
Definition getBranchTag (index : number) (st : DialogueTree)
    : Outcome (option string) :=
  if truthy (dialogueIsRunning st) then
    match dialogueBranchTags st with
    | None => Throw TypeError st
    | Some ts =>
        let len := Num (Z.of_nat (List.length ts)) in
        if truthy_num len then
          let index1 := if num_gt index (num_sub len (Num 1))
                        then num_sub len (Num 1) else index in
          Return (array_get ts (Some index1)) st
        else Return (Some "") st
    end
  else Return (Some "") st.

(** [gdjs.dialogueTree.getBranchText] *)
Definition getBranchText (st : DialogueTree) : option string :=
  if truthy (dialogueIsRunning st) then dialogueBranchBody st else Some "".

(** The longest prefix of characters that satisfy [p], and what follows. *)
Fixpoint span (p : ascii -> bool) (s : string) : string * string :=
  match s with
  | EmptyString => ("", "")
  | String c rest =>
      if p c then let (a, b) := span p rest in (String c a, b)
      else ("", s)
  end.

Definition not_open (c : ascii) : bool := negb (Ascii.eqb c "("%char).
Definition not_close (c : ascii) : bool := negb (Ascii.eqb c ")"%char).

(** A match of [/([^\(]+)\(([^\)]+)\)/] that starts at the first character:
    both groups are greedy and what follows each is a single character that
    the group excludes, so only the longest runs can match. *)
Definition matchTagHere (s : string) : option (string * string) :=
  match span not_open s with
  | (EmptyString, _) => None
  | (name, String _ rest) =>
      match span not_close rest with
      | (EmptyString, _) => None
      | (args, String _ _) => Some (name, args)
      | (_, EmptyString) => None
      end
  | (_, EmptyString) => None
  end.

(** [tag.match(/([^\(]+)\(([^\)]+)\)/i)]: the first position with a match;
    the result holds the two groups. *)
Fixpoint matchTag (s : string) : option (string * string) :=
  match matchTagHere s with
  | Some groups => Some groups
  | None =>
      match s with
      | EmptyString => None
      | String _ rest => matchTag rest
      end
  end.

(** [s.split(',')]. *)
Fixpoint split_comma_aux (s : string) (cur : string) : list string :=
  match s with
  | EmptyString => [cur]
  | String c s' =>
      if Ascii.eqb c ","%char then cur :: split_comma_aux s' ""
      else split_comma_aux s' (cur ++ String c "")%string
  end.

Definition split_comma (s : string) : list string := split_comma_aux s "".

(** The callback given to [dialogueBranchTags.some] by [branchContainsTag],
    run over the tags. *)
Fixpoint scanTags (query : string) (ts : list string) (st : DialogueTree)
    : bool * DialogueTree :=
  match ts with
  | [] => (false, st)
  | tag :: rest =>
      match matchTag tag with
      | Some (name, args) =>
          let st1 := set_tagParameters (Some (split_comma args)) st in
          if String.eqb name query then (true, st1) else scanTags query rest st1
      | None =>
          let st1 := set_tagParameters (Some []) st in
          if String.eqb tag query then (true, st1) else scanTags query rest st1
      end
  end.

(** [gdjs.dialogueTree.branchContainsTag] *)
Definition branchContainsTag (query : string) (st : DialogueTree) : Outcome bool :=
  let st1 := set_tagParameters (Some []) st in
  if truthy (dialogueIsRunning st1) then
    match dialogueBranchTags st1 with
    | None => Throw TypeError st1
    | Some ts =>
        if truthy_num (Num (Z.of_nat (List.length ts)))
        then let (b, st2) := scanTags query ts st1 in Return b st2
        else Return false st1
    end
  else Return false st1.

(** [gdjs.dialogueTree.getTagParameter], for an integer index. *)
Definition getTagParameter (paramIndex : Z) (st : DialogueTree) : Outcome string :=
  if truthy (dialogueIsRunning st) then
    match tagParameters st with
    | None => Throw TypeError st
    | Some ps =>
        if paramIndex <=? Z.of_nat (List.length ps)
        then Return (if paramIndex <? 0 then ""
                     else nth (Z.to_nat paramIndex) ps "") st
        else Return "" st
    end
  else Return "" st.

(** *** The visit table *)

(** The string of an array index. *)
Definition index_key (i : nat) : string := NilZero.string_of_uint (Nat.to_uint i).

Fixpoint chars (s : string) : list JSValue :=
  match s with
  | EmptyString => []
  | String c rest => JString (String c "") :: chars rest
  end.

(** The own enumerable properties of a value, in the order of
    [Object.keys], which raises on [undefined] and [null]. *)
Definition own_entries (v : JSValue) : Error + list (string * JSValue) :=
  match v with
  | JUndefined | JNull => inl TypeError
  | JBool _ | JNumber _ => inr []
  | JString s => inr (combine (map index_key (seq 0 (String.length s))) (chars s))
  | JArray items => inr (combine (map index_key (seq 0 (List.length items))) items)
  | JObject props => inr props
  end.

(** [gdjs.dialogueTree.getVisitedBranchTitles] *)
Definition getVisitedBranchTitles (st : DialogueTree) : Outcome string :=
  if truthy (dialogueIsRunning st) then
    match own_entries (visited (runner st)) with
    | inl e => Throw e st
    | inr entries => Return (join_comma (map fst entries)) st
    end
  else Return "" st.

(** [gdjs.dialogueTree.branchTitleHasBeenVisited]: the value returned is
    [false] or what the table holds for the title. *)
Definition branchTitleHasBeenVisited (title : string) (st : DialogueTree)
    : Outcome JSValue :=
  let title1 := if String.eqb title "" then dialogueBranchTitle st else Some title in
  match own_entries (visited (runner st)) with
  | inl e => Throw e st
  | inr entries =>
      match title1 with
      | None => Return (JBool false) st
      | Some t =>
          if existsb (fun k => String.eqb k t) (map fst entries)
          then Return (own_property t entries) st
          else Return (JBool false) st
      end
  end.

(** *** Predicates used to state further properties *)

(** Every character of a string satisfies [p]. *)
Fixpoint all_chars (p : ascii -> bool) (s : string) : bool :=
  match s with
  | EmptyString => true
  | String c rest => p c && all_chars p rest
  end.

Definition not_space (c : ascii) : bool := negb (Ascii.eqb c " "%char).
Definition not_comma (c : ascii) : bool := negb (Ascii.eqb c ","%char).
Definition not_terminator (c : ascii) : bool := negb (is_line_terminator c).

(** Words written one after the other with one space between them. *)
Fixpoint join_space (words : list string) : string :=
  match words with
  | [] => ""
  | [w] => w
  | w :: rest => (w ++ " " ++ join_space rest)%string
  end.

(** The node whose candidate list, text or command is held as pending. *)
Definition node_pending (st : DialogueTree) : Prop :=
  exists r, dialogueData st = Obj r.



(** The name a tag answers to in [branchContainsTag]: the part before its
    parameter list, or the whole tag. *)
Definition tag_name (tag : string) : string :=
  match matchTag tag with
  | Some (name, _) => name
  | None => tag
  end.

(** The first result of a sequence is not a command. *)
Definition starts_without_command (g : Generator) : Prop :=
  match g with
  | CommandResult _ :: _ => False
  | _ => True
  end.

(** What the operations of the caller leave alone while scrolling is
    paused: a tick, a completion, an advance or a poll. *)
Inductive CallerOp : Type :=
| OpScroll
| OpComplete
| OpAdvance
| OpPoll (command : string).

Definition callerOp (op : CallerOp) (st : DialogueTree) : option DialogueTree :=
  match op with
  | OpScroll => Some (scrollClippedText st)
  | OpComplete => Some (completeClippedTextScrolling st)
  | OpAdvance => option_map state_of (goToNextDialogueLine st)
  | OpPoll c => Some (state_of (isCommandCalled c st))
  end.

Fixpoint callerOps (ops : list CallerOp) (st : DialogueTree) : option DialogueTree :=
  match ops with
  | [] => Some st
  | op :: rest =>
      match callerOp op st with
      | Some st1 => callerOps rest st1
      | None => None
      end
  end.

(** One candidate as [getLineOptionsText] writes it when the cursor is one
    line that is not empty: the cursor or two spaces, the candidate, and the
    line feed asked for. *)
Definition optionPiece (optionSelectionCursor : string) (addNewLine : bool)
    (selected : option number) (entry : nat * string) : string :=
  ((if strict_eq_num (Some (Num (Z.of_nat (fst entry)))) selected
    then optionSelectionCursor else "  ")
   ++ snd entry ++ (if addNewLine then newline else ""))%string.

(** The index [_normalizedOptionIndex] returns for an integer index [j] and
    [count] candidates. *)
Definition normalized (count j : Z) : Z := Z.max 0 (Z.min j (count - 1)).


(** The three resets a line advance starts with. *)
Definition resetSelection (st : DialogueTree) : DialogueTree :=
  set_selectedOptionUpdated (Some false)
    (set_selectedOption (Some (Num (-1)))
       (set_optionsCount (Some (Num 0)) st)).

(** The end of a line advance: the check for a command result made after
    the dispatch on the type of the node. *)
Definition afterDispatch (fuel : nat) (st : DialogueTree) : option (Outcome unit) :=
  if isCommandRef (dialogueData st)
  then goToNextDialogueLine_fuel fuel (set_dialogueDataType (Some "command") st)
  else Some (Return tt st).

(** The state in which a line advance leaves a text result [text] with
    metadata [data] before it pulls the next result, [fresh] telling whether
    the text replaces the line or continues it. *)
Definition textShown (fresh : bool) (text : string) (data : NodeData)
    (st : DialogueTree) : DialogueTree :=
  set_dialogueBranchBody (Some (body data))
    (set_dialogueBranchTitle (Some (title data))
       (set_dialogueBranchTags (Some (tags data))
          (set_dialogueDataType (Some "text")
             (if fresh
              then set_commandCalls (Some [])
                     (set_commandCallsRef (S (commandCallsRef st))
                        (set_dialogueText (Some text)
                           (set_clipTextEnd (Some (Num 0)) st)))
              else set_dialogueText
                     (Some (match dialogueText st with
                            | Some s => s ++ text
                            | None => "undefined" ++ text
                            end)%string) st)))).

(** The state after [this.dialogueData = this.dialogue.next().value] on a
    generator [g]. *)
Definition pulled (g : Generator) (st : DialogueTree) : DialogueTree :=
  set_dialogueData (fst (generator_next g))
    (set_dialogue (Some (snd (generator_next g))) st).

(** The entry a line advance queues for the command [text] behind the
    entries [calls], on a line [s]. *)
Definition queuedCall (text : string) (calls : list CommandCall) (s : string)
    : CommandCall :=
  mkCommandCall (hd "" (split_space text)) (split_space text)
    (num_add (str_length s) (Num (offsetTime calls))).

(** A line of a branch tagged "sad" and "mood(happy,loud)". *)
Definition mood_data : NodeData :=
  mkNodeData ["sad"; "mood(happy,loud)"] "Start" "Hi".

Definition mood_script : Runner :=
  mkRunner [("Start", [TextResult "Hi" mood_data])] (JObject [])
    (JObject [("Start", JBool true)]).

(** An interpreter whose choices cannot be taken, for the examples. *)
#[local] Instance closedInterpreter : Interpreter := {|
  result_select := fun _ _ _ => inl UnknownNode
|}.

(** Reduction of the fields of a state built by the setters. *)
Ltac fields :=
  cbn [runner dialogue dialogueIsRunning dialogueData dialogueDataType
       dialogueText clipTextEnd commandCalls commandCallsRef commandParameters
       pauseScrolling options optionsCount selectedOption selectedOptionUpdated
       dialogueBranchTitle dialogueBranchBody dialogueBranchTags tagParameters
       timers console
       set_runner set_dialogue set_dialogueIsRunning set_dialogueData
       set_dialogueDataType set_dialogueText set_clipTextEnd set_commandCalls
       set_commandCallsRef set_commandParameters set_pauseScrolling set_options
       set_optionsCount set_selectedOption set_selectedOptionUpdated
       set_dialogueBranchTitle set_dialogueBranchBody set_dialogueBranchTags
       set_tagParameters set_timers set_console] in *.
(** * Properties *)

(** ** The line advance returns *)

Lemma pullNext_measure (st : DialogueTree) :
  (exists e, pullNext st = Throw e st)
  \/ (exists st', pullNext st = Return tt st'
        /\ (advance_measure st' <= 2 * List.length (pending st) - 1)%nat).
Proof.
  unfold pullNext, advance_measure, pending.
  destruct (dialogue st) as [[|r g]|].
  - right. eexists. split; [reflexivity|].
    cbn [dialogue dialogueData set_dialogueData set_dialogue isCommandRef List.length].
    lia.
  - right. eexists. split; [reflexivity|].
    cbn [dialogue dialogueData set_dialogueData set_dialogue List.length].
    destruct (isCommandRef (Obj r)); lia.
  - left. eexists. reflexivity.
Qed.

Lemma advance_measure_ext (st st' : DialogueTree) :
  dialogue st' = dialogue st -> dialogueData st' = dialogueData st ->
  advance_measure st' = advance_measure st.
Proof. unfold advance_measure, pending. now intros -> ->. Qed.

(** With more fuel than the measure of the state, the line advance returns
    a result, and the measure has not grown. *)
Lemma goToNextDialogueLine_fuel_enough (fuel : nat) :
  forall st : DialogueTree,
    (advance_measure st < fuel)%nat ->
    exists o, goToNextDialogueLine_fuel fuel st = Some o
              /\ (advance_measure (state_of o) <= advance_measure st)%nat.
Proof.
  induction fuel as [|fuel IH]; intros st Hm; [lia|].
  cbn [goToNextDialogueLine_fuel].
  destruct (truthy (pauseScrolling st) || negb (truthy (dialogueIsRunning st))).
  { eexists. split; [reflexivity | cbn; lia]. }
  set (st0 := set_selectedOptionUpdated (Some false)
                (set_selectedOption (Some (Num (-1)))
                   (set_optionsCount (Some (Num 0)) st))).
  assert (Hd0 : dialogueData st0 = dialogueData st) by reflexivity.
  assert (Hp0 : pending st0 = pending st) by reflexivity.
  rewrite Hd0.
  destruct (dialogueData st) as [| |[text data|opts|text]] eqn:Ed.
  - (* undefined *)
    cbv zeta.
    cbn [dialogueData set_dialogueDataType set_selectedOptionUpdated set_options
         set_optionsCount].
    rewrite Hd0. cbn [isCommandRef]. eexists. split; [reflexivity|]. cbn [state_of].
    match goal with
    | |- (advance_measure ?s <= _)%nat =>
        rewrite (advance_measure_ext st s) by reflexivity
    end. lia.
  - (* null *)
    cbv zeta.
    cbn [dialogueData set_dialogueDataType set_selectedOptionUpdated set_options
         set_optionsCount].
    rewrite Hd0. cbn [isCommandRef]. eexists. split; [reflexivity|]. cbn [state_of].
    match goal with
    | |- (advance_measure ?s <= _)%nat =>
        rewrite (advance_measure_ext st s) by reflexivity
    end. lia.
  - (* text *)
    match goal with
    | |- context [pullNext ?s] =>
        assert (Hp : pending s = pending st)
          by (destruct (strict_eq_str (dialogueDataType st0) "options"
                        || strict_eq_str (dialogueDataType st0) "text"
                        || negb (truthy_str (dialogueDataType st0))); reflexivity);
        assert (Hd : dialogueData s = dialogueData st)
          by (destruct (strict_eq_str (dialogueDataType st0) "options"
                        || strict_eq_str (dialogueDataType st0) "text"
                        || negb (truthy_str (dialogueDataType st0))); reflexivity);
        destruct (pullNext_measure s) as [(e & E)|(st' & E & Hle)]; rewrite E
    end.
    + eexists. split; [reflexivity|]. cbn [state_of].
      unfold advance_measure. rewrite Hp, Hd. lia.
    + rewrite Hp in Hle.
      assert (Hst : (advance_measure st = 2 * List.length (pending st))%nat)
        by (unfold advance_measure; rewrite Ed; cbn; lia).
      destruct (isCommandRef (dialogueData st')) eqn:Ec.
      * destruct (IH (set_dialogueDataType (Some "command") st')) as (o & Eo & Ho).
        { change (advance_measure (set_dialogueDataType (Some "command") st'))
            with (advance_measure st').
          unfold advance_measure in Hle |- *. rewrite Ec in *. lia. }
        exists o. split; [exact Eo|].
        change (advance_measure (set_dialogueDataType (Some "command") st'))
          with (advance_measure st') in Ho. lia.
      * eexists. split; [reflexivity|]. cbn [state_of]. lia.
  - (* options *)
    cbv zeta.
    cbn [dialogueData set_dialogueDataType set_selectedOptionUpdated set_options
         set_optionsCount].
    rewrite Hd0. cbn [isCommandRef]. eexists. split; [reflexivity|]. cbn [state_of].
    match goal with
    | |- (advance_measure ?s <= _)%nat =>
        rewrite (advance_measure_ext st s) by reflexivity
    end. lia.
  - (* command *)
    assert (Hst : (advance_measure st = 2 * List.length (pending st) + 1)%nat)
      by (unfold advance_measure; rewrite Ed; reflexivity).
    set (st1 := set_dialogueDataType (Some "command") st0).
    assert (Hm1 : advance_measure st1 = advance_measure st) by reflexivity.
    destruct (commandCalls st1) as [calls|];
      [|eexists; split; [reflexivity | cbn [state_of]; lia]].
    destruct (dialogueText st1) as [s|];
      [|eexists; split; [reflexivity | cbn [state_of]; lia]].
    match goal with
    | |- context [pullNext ?s] =>
        assert (Hp : pending s = pending st) by reflexivity;
        assert (Hm2 : advance_measure s = advance_measure st) by reflexivity;
        destruct (pullNext_measure s) as [(e & E)|(st' & E & Hle)]; rewrite E
    end.
    + eexists. split; [reflexivity|]. cbn [state_of]. lia.
    + rewrite Hp in Hle.
      destruct (IH st') as (o & Eo & Ho); [lia|]. rewrite Eo.
      destruct o as [[] st3|e st3]; cbn [state_of] in Ho.
      * destruct (isCommandRef (dialogueData st3)) eqn:Ec.
        -- destruct (IH (set_dialogueDataType (Some "command") st3)) as (o & Eo' & Ho').
           { change (advance_measure (set_dialogueDataType (Some "command") st3))
               with (advance_measure st3). lia. }
           exists o. split; [exact Eo'|].
           change (advance_measure (set_dialogueDataType (Some "command") st3))
             with (advance_measure st3) in Ho'. lia.
        -- eexists. split; [reflexivity|]. cbn [state_of]. lia.
      * eexists. split; [reflexivity|]. cbn [state_of]. lia.
Qed.

(** [goToNextDialogueLine] and [startFrom] always return a result: the
    bound on the calls is never reached. *)
Lemma goToNextDialogueLine_returns (st : DialogueTree) :
  exists o, goToNextDialogueLine st = Some o.
Proof.
  destruct (goToNextDialogueLine_fuel_enough (fuel_for st) st) as (o & E & _).
  - unfold fuel_for, advance_measure, pending.
    destruct (dialogue st); destruct (isCommandRef (dialogueData st)); cbn; lia.
  - exists o. exact E.
Qed.

Lemma startFrom_returns (startDialogueNode : string) (st : DialogueTree) :
  exists o, startFrom startDialogueNode st = Some o.
Proof.
  unfold startFrom.
  destruct (negb (hasDialogueBranch startDialogueNode st)); [eexists; reflexivity|].
  destruct (runner_run _ _); [|eexists; reflexivity].
  destruct (pullNext _); [|eexists; reflexivity].
  apply goToNextDialogueLine_returns.
Qed.

(** ** Scrolling *)

Lemma clipTextEnd_set_clipTextEnd (v : option number) (st : DialogueTree) :
  clipTextEnd (set_clipTextEnd v st) = v.
Proof. reflexivity. Qed.

(** One tick leaves the state alone when scrolling is paused, when no
    session runs or when the line is empty, and adds one to the cursor
    otherwise. *)
Lemma scrollClippedText_cases (st : DialogueTree) :
  scrollClippedText st =
    if truthy (pauseScrolling st) || negb (truthy (dialogueIsRunning st))
       || negb (truthy_str (dialogueText st))
    then st
    else set_clipTextEnd (Some (num_add (toNumber (clipTextEnd st)) (Num 1))) st.
Proof.
  unfold scrollClippedText.
  destruct (truthy (pauseScrolling st) || negb (truthy (dialogueIsRunning st)));
    [reflexivity|].
  destruct (truthy_str (dialogueText st)); reflexivity.
Qed.

Lemma ticks_S (n : nat) (st : DialogueTree) :
  ticks (S n) st = ticks n (scrollClippedText st).
Proof. reflexivity. Qed.

Lemma ticks_monotone (n : nat) :
  forall (st : DialogueTree) (c : Z),
    clipTextEnd st = Some (Num c) ->
    exists c', clipTextEnd (ticks n st) = Some (Num c')
               /\ c <= c' <= c + Z.of_nat n.
Proof.
  induction n as [|n IH]; intros st c Hc.
  - exists c. split; [exact Hc | lia].
  - rewrite ticks_S, scrollClippedText_cases.
    destruct (truthy (pauseScrolling st) || negb (truthy (dialogueIsRunning st))
              || negb (truthy_str (dialogueText st))).
    + destruct (IH st c Hc) as [c' [H1 H2]]. exists c'. split; [exact H1 | lia].
    + destruct (IH (set_clipTextEnd (Some (num_add (toNumber (clipTextEnd st)) (Num 1))) st)
                  (c + 1)) as [c' [H1 H2]].
      * rewrite clipTextEnd_set_clipTextEnd, Hc. reflexivity.
      * exists c'. split; [exact H1 | lia].
Qed.

(** While a session runs unpaused on a line that is not empty, [n] ticks
    add exactly [n] to the cursor, whatever the length of the line. *)
Lemma ticks_advance (n : nat) :
  forall (st : DialogueTree) (c : Z),
    truthy (pauseScrolling st) = false ->
    truthy (dialogueIsRunning st) = true ->
    truthy_str (dialogueText st) = true ->
    clipTextEnd st = Some (Num c) ->
    clipTextEnd (ticks n st) = Some (Num (c + Z.of_nat n)).
Proof.
  induction n as [|n IH]; intros st c Hp Hr Ht Hc.
  - cbn. rewrite Hc. do 2 f_equal. lia.
  - rewrite ticks_S, scrollClippedText_cases, Hp, Hr, Ht. cbn [orb negb].
    rewrite (IH _ (c + 1)); try assumption.
    + do 2 f_equal. lia.
    + rewrite clipTextEnd_set_clipTextEnd, Hc. reflexivity.
Qed.

Lemma completeClippedTextScrolling_idempotent (st : DialogueTree) :
  completeClippedTextScrolling (completeClippedTextScrolling st)
  = completeClippedTextScrolling st.
Proof.
  destruct st as [r g run d ty [[|a s]|] clip calls ref ps [[|]|] os oc so su bt bb bg tp tm cs];
    destruct run as [[|]|]; reflexivity.
Qed.

(** C2, as stated, fails: on the line "Hi", of length 2, three ticks put the
    cursor at 3. *)
Lemma scrolling_passes_line_end :
  dialogueText (started one_line) = Some "Hi"
  /\ clipTextEnd (started one_line) = Some (Num 0)
  /\ clipTextEnd (ticks 3 (started one_line)) = Some (Num 3)
  /\ Z.of_nat (String.length "Hi") < 3.
Proof. repeat split. Qed.

(** C2, amended: over any number of scroll ticks the cursor never decreases
    and gains at most one per tick; a tick does nothing when scrolling is
    paused, no session runs or the line is empty, and otherwise adds exactly
    one with no clamp at the length of the line; completing the line twice
    is the same as completing it once. *)
Theorem scrolling_monotone_unclamped (st : DialogueTree) (n : nat) (c : Z) :
  clipTextEnd st = Some (Num c) ->
  (exists c', clipTextEnd (ticks n st) = Some (Num c')
              /\ c <= c' <= c + Z.of_nat n)
  /\ (truthy (pauseScrolling st) = true \/ truthy (dialogueIsRunning st) = false
      \/ truthy_str (dialogueText st) = false ->
      scrollClippedText st = st)
  /\ (truthy (pauseScrolling st) = false -> truthy (dialogueIsRunning st) = true ->
      truthy_str (dialogueText st) = true ->
      scrollClippedText st = set_clipTextEnd (Some (Num (c + 1))) st
      /\ clipTextEnd (ticks n st) = Some (Num (c + Z.of_nat n)))
  /\ completeClippedTextScrolling (completeClippedTextScrolling st)
     = completeClippedTextScrolling st.
Proof.
  intros Hc. split; [|split; [|split]].
  - exact (ticks_monotone n st c Hc).
  - intros H. rewrite scrollClippedText_cases.
    destruct H as [H|[H|H]]; rewrite H; cbn;
      repeat rewrite orb_true_r; reflexivity.
  - intros Hp Hr Ht. split.
    + rewrite scrollClippedText_cases, Hp, Hr, Ht, Hc. reflexivity.
    + exact (ticks_advance n st c Hp Hr Ht Hc).
  - exact (completeClippedTextScrolling_idempotent st).
Qed.

Lemma scrolling_monotone_unclamped_witness :
  clipTextEnd (ticks 3 (started one_line)) = Some (Num 3)
  /\ completeClippedTextScrolling (completeClippedTextScrolling (started one_line))
     = completeClippedTextScrolling (started one_line).
Proof.
  destruct (scrolling_monotone_unclamped (started one_line) 3 0) as [_ [_ [H I]]].
  - reflexivity.
  - split; [|exact I].
    apply H; reflexivity.
Defined.

(** ** Command firing *)

Lemma cons_eq_app_poll (e : Event) (evs pre post : list Event) (c : string) :
  e :: evs = pre ++ Poll c :: post ->
  (pre = [] /\ e = Poll c /\ evs = post)
  \/ (exists pre', pre = e :: pre' /\ evs = pre' ++ Poll c :: post).
Proof.
  destruct pre as [|e' pre']; cbn; intros H; injection H as H1 H2.
  - left. auto.
  - right. exists pre'. subst. auto.
Qed.

Section OneCommand.

Variable call : CommandCall.
Variable text : string.
Variable k : Z.
Hypothesis time_call : time call = Num k.

(** A poll before the cursor reaches the offset answers false and changes
    nothing. *)
Lemma poll_too_early (st : DialogueTree) (c : Z) :
  armed call text st -> clipTextEnd st = Some (Num c) -> c < k ->
  isCommandCalled (cmd call) st = Return false st.
Proof.
  intros (Hq & _ & Hp & _ & _) Hc Hlt.
  unfold isCommandCalled. rewrite Hq, Hp. cbn [scanCommandCalls].
  rewrite Hc, time_call. cbn [toNumber num_lt].
  destruct (Z.ltb_spec c k); [reflexivity | lia].
Qed.

(** A poll once the cursor has reached the offset answers true, empties the
    queue and captures the parameters. *)
Lemma poll_fires (st : DialogueTree) (c : Z) :
  armed call text st -> clipTextEnd st = Some (Num c) -> k <= c ->
  exists st', isCommandCalled (cmd call) st = Return true st'
              /\ commandCalls st' = Some []
              /\ commandParameters st' = Some (params call).
Proof.
  intros (Hq & Ht & Hp & _ & _) Hc Hle.
  unfold isCommandCalled. rewrite Hq, Hp. cbn [scanCommandCalls].
  rewrite Hc, time_call. cbn [toNumber num_lt].
  destruct (Z.ltb_spec c k); [lia|].
  rewrite String.eqb_refl, Ht.
  destruct (String.eqb (cmd call) "wait");
    [destruct (negb (strict_eq_num (Some (Num c)) (Some (str_length text))))|];
    eexists; (split; [reflexivity|]); cbn; rewrite Hq; split; reflexivity.
Qed.

(** Once the queue is empty no poll answers true, and the queue stays
    empty. *)
Lemma step_spent (e : Event) (st : DialogueTree) :
  commandCalls st = Some [] ->
  commandCalls (snd (step e st)) = Some []
  /\ fst (step e st) <> Some (Some true).
Proof.
  intros Hq. destruct e as [|c|i]; cbn [step fst snd].
  - split; [|discriminate].
    rewrite scrollClippedText_cases.
    destruct (truthy (pauseScrolling st) || negb (truthy (dialogueIsRunning st))
              || negb (truthy_str (dialogueText st))); exact Hq.
  - unfold isCommandCalled. rewrite Hq.
    destruct (truthy (pauseScrolling st)); cbn; (split; [exact Hq | discriminate]).
  - split; [|discriminate].
    unfold fireTimer. destruct (nth_error (timers st) i) as [t|]; [|exact Hq].
    unfold timerCallback. cbn.
    destruct (Nat.eqb (timer_array t) (commandCallsRef st)); cbn; rewrite Hq;
      [destruct (timer_index t)|]; reflexivity.
Qed.

Lemma answers_spent (evs : list Event) :
  forall st : DialogueTree,
    commandCalls st = Some [] ->
    fired (answers evs st) = 0%nat
    /\ forall pre post c, evs = pre ++ Poll c :: post ->
         returned (isCommandCalled c (run pre st)) <> Some true.
Proof.
  induction evs as [|e evs IH]; intros st Hq.
  - split; [reflexivity|]. intros [|? ?] ? ? H; discriminate.
  - destruct (step_spent e st Hq) as [Hq' Hno].
    destruct (IH _ Hq') as [IH1 IH2]. split.
    + cbn [answers]. destruct (fst (step e st)) as [[[|]|]|]; try exact IH1.
      congruence.
    + intros pre post c H.
      destruct (cons_eq_app_poll _ _ _ _ _ H) as [(-> & -> & _)|(pre' & -> & H')].
      * cbn [run]. cbn [step fst] in Hno. congruence.
      * cbn [run]. exact (IH2 pre' post c H').
Qed.

(** Before the entry fires, a tick or a timer event keeps the line armed and
    does not move the cursor back. *)
Lemma step_armed_quiet (e : Event) (st : DialogueTree) :
  armed call text st -> e = Tick \/ (exists i, e = Fire i) ->
  armed call text (snd (step e st)) /\ fst (step e st) = None.
Proof.
  intros (Hq & Ht & Hp & Htm & c & Hc) [He|[i He]]; subst e; cbn [step fst snd].
  - split; [|reflexivity]. rewrite scrollClippedText_cases.
    destruct (truthy (pauseScrolling st) || negb (truthy (dialogueIsRunning st))
              || negb (truthy_str (dialogueText st))).
    + repeat split; try assumption. exists c; exact Hc.
    + repeat split; try assumption. rewrite Hc. eexists; reflexivity.
  - split; [|reflexivity]. unfold fireTimer. rewrite Htm.
    destruct i; cbn; (repeat split; try assumption; exists c; exact Hc).
Qed.

Lemma answers_armed (evs : list Event) :
  forall st : DialogueTree,
    armed call text st ->
    Forall (scroll_or_poll (cmd call)) evs ->
    (fired (answers evs st) <= 1)%nat
    /\ (forall pre post, evs = pre ++ Poll (cmd call) :: post ->
          returned (isCommandCalled (cmd call) (run pre st)) = Some true ->
          clip_reached k (run pre st)
          /\ commandCalls (state_of (isCommandCalled (cmd call) (run pre st))) = Some []
          /\ commandParameters (state_of (isCommandCalled (cmd call) (run pre st)))
             = Some (params call))
    /\ (forall pre post, evs = pre ++ Poll (cmd call) :: post ->
          clip_reached k (run pre st) ->
          fired (answers evs st) = 1%nat).
Proof.
  induction evs as [|e evs IH]; intros st Ha Hall.
  - split; [cbn; lia|]. split; intros [|? ?] ? H; discriminate.
  - inversion Hall as [|? ? He Hall']; subst.
    destruct He as [He|[He|He]].
    + (* a tick *)
      destruct (step_armed_quiet e st Ha (or_introl He)) as [Ha' Hn].
      destruct (IH _ Ha' Hall') as (I1 & I2 & I3).
      cbn [answers]. rewrite Hn. split; [exact I1|].
      split; intros pre post H;
        destruct (cons_eq_app_poll _ _ _ _ _ H) as [(_ & Hp & _)|(pre' & -> & H')];
        try (subst e; discriminate); cbn [run].
      * exact (I2 pre' post H').
      * exact (I3 pre' post H').
    + (* a poll *)
      subst e. destruct Ha as (Hq & Ht & Hp & Htm & c & Hc).
      assert (Ha : armed call text st).
      { repeat split; try assumption. exists c; exact Hc. }
      destruct (Z.lt_ge_cases c k) as [Hlt|Hge].
      * pose proof (poll_too_early st c Ha Hc Hlt) as E.
        destruct (IH st Ha Hall') as (I1 & I2 & I3).
        cbn [answers step fst snd]. rewrite E. cbn [returned state_of].
        split; [exact I1|].
        split; intros pre post H;
          destruct (cons_eq_app_poll _ _ _ _ _ H) as [(-> & _ & _)|(pre' & -> & H')].
        -- cbn [run]. rewrite E. discriminate.
        -- cbn [run step snd]. rewrite E. exact (I2 pre' post H').
        -- cbn [run]. intros (c' & Hc' & Hk). rewrite Hc in Hc'.
           injection Hc' as <-. lia.
        -- cbn [run step snd]. rewrite E. exact (I3 pre' post H').
      * destruct (poll_fires st c Ha Hc Hge) as (st' & E & Hq' & Hps).
        destruct (answers_spent evs st' Hq') as [S1 S2].
        cbn [answers step fst snd]. rewrite E. cbn [returned state_of].
        assert (F : fired (Some true :: answers evs st') = 1%nat).
        { unfold fired in *. cbn. rewrite S1. reflexivity. }
        split; [rewrite F; lia|].
        split; intros pre post H;
          destruct (cons_eq_app_poll _ _ _ _ _ H) as [(-> & _ & _)|(pre' & -> & H')].
        -- cbn [run]. rewrite E. cbn [state_of]. intros _.
           split; [exists c; split; [exact Hc | exact Hge]|].
           split; assumption.
        -- cbn [run step snd]. rewrite E. cbn [state_of].
           intros Hr. exfalso. exact (S2 pre' post (cmd call) H' Hr).
        -- intros _. exact F.
        -- intros _. exact F.
    + (* a timer *)
      destruct (step_armed_quiet e st Ha (or_intror He)) as [Ha' Hn].
      destruct He as [i He].
      destruct (IH _ Ha' Hall') as (I1 & I2 & I3).
      cbn [answers]. rewrite Hn. split; [exact I1|].
      split; intros pre post H;
        destruct (cons_eq_app_poll _ _ _ _ _ H) as [(_ & Hp & _)|(pre' & -> & H')];
        try (subst e; discriminate); cbn [run].
      * exact (I2 pre' post H').
      * exact (I3 pre' post H').
Qed.

End OneCommand.

(** ** The wait command *)

Lemma splice1_middle {A : Type} (pre post : list A) (x : A) :
  splice1 (List.length pre) (pre ++ x :: post) = pre ++ post.
Proof. induction pre as [|y pre IH]; cbn; [reflexivity | now rewrite IH]. Qed.

Lemma nth_error_splice1_before {A : Type} (l : list A) :
  forall i j : nat, (i < j)%nat -> nth_error (splice1 j l) i = nth_error l i.
Proof.
  induction l as [|x l IH]; intros i j Hij.
  - destruct j; reflexivity.
  - destruct j as [|j]; [lia|]. destruct i as [|i]; cbn; [reflexivity|].
    apply IH. lia.
Qed.

Lemma nth_error_middle {A : Type} (pre post : list A) (x : A) :
  nth_error (pre ++ x :: post) (List.length pre) = Some x.
Proof. induction pre as [|y pre IH]; cbn; [reflexivity | exact IH]. Qed.

(** One step of the scan on a line [s]. *)
Lemma scanCommandCalls_cons (command : string) (clip : option number) (s : string)
    (index : nat) (call : CommandCall) (rest : list CommandCall) (st : DialogueTree) :
  scanCommandCalls command clip (Some s) index (call :: rest) st =
    if eligible clip call then
      if String.eqb (cmd call) command
      then Return true
             (set_commandCalls
                (option_map (splice1 index) (commandCalls (waitStep clip s index call st)))
                (set_commandParameters (Some (params call))
                   (waitStep clip s index call st)))
      else scanCommandCalls command clip (Some s) (S index) rest
             (waitStep clip s index call st)
    else scanCommandCalls command clip (Some s) (S index) rest st.
Proof.
  cbn [scanCommandCalls]. unfold eligible, waitStep.
  destruct (num_lt (toNumber clip) (time call)); cbn [negb]; [reflexivity|].
  destruct (String.eqb (cmd call) "wait"); cbn [andb]; [|reflexivity].
  destruct (negb (strict_eq_num clip (Some (str_length s)))); reflexivity.
Qed.

Lemma waitStep_keeps (clip : option number) (s : string) (index : nat)
    (call : CommandCall) (st : DialogueTree) :
  commandCalls (waitStep clip s index call st) = commandCalls st
  /\ commandCallsRef (waitStep clip s index call st) = commandCallsRef st
  /\ incl (timers st) (timers (waitStep clip s index call st))
  /\ (pauseScrolling st = Some true ->
      pauseScrolling (waitStep clip s index call st) = Some true).
Proof.
  unfold waitStep.
  destruct (String.eqb (cmd call) "wait" && negb (strict_eq_num clip (Some (str_length s))));
    cbn; repeat split; auto using incl_refl, incl_appl.
Qed.

(** The whole scan on a line [s]: the answer is whether some entry is
    eligible with the polled name; a pause that is set stays set, timers are
    only added, and the queue is either as before or lacks one entry at or
    after the position the scan started from. *)
Lemma scanCommandCalls_spec (command : string) (clip : option number) (s : string)
    (calls : list CommandCall) :
  forall (index : nat) (st : DialogueTree),
    let o := scanCommandCalls command clip (Some s) index calls st in
    returned o = Some (existsb (matches command clip) calls)
    /\ (pauseScrolling st = Some true -> pauseScrolling (state_of o) = Some true)
    /\ incl (timers st) (timers (state_of o))
    /\ commandCallsRef (state_of o) = commandCallsRef st
    /\ (commandCalls (state_of o) = commandCalls st
        \/ exists j, (index <= j)%nat
             /\ commandCalls (state_of o) = option_map (splice1 j) (commandCalls st)).
Proof.
  induction calls as [|call rest IH]; intros index st o; subst o.
  - cbn. repeat split; auto using incl_refl.
  - rewrite scanCommandCalls_cons. cbn [existsb]. unfold matches at 1.
    destruct (waitStep_keeps clip s index call st) as (K1 & K2 & K3 & K4).
    destruct (eligible clip call); cbn [andb].
    + destruct (String.eqb (cmd call) command); cbn [orb].
      * cbn. rewrite K1. repeat split; auto.
        right. exists index. split; [lia | reflexivity].
      * destruct (IH (S index) (waitStep clip s index call st)) as (I1 & I2 & I3 & I4 & I5).
        split; [exact I1|]. split; [auto|].
        split; [eapply incl_tran; eassumption|].
        split; [congruence|].
        destruct I5 as [I5|(j & Hj & I5)]; [left; congruence|].
        right. exists j. split; [lia | congruence].
    + destruct (IH (S index) st) as (I1 & I2 & I3 & I4 & I5).
      repeat split; auto.
      destruct I5 as [I5|(j & Hj & I5)]; [left; exact I5|].
      right. exists j. split; [lia | exact I5].
Qed.

(** The scan from a position where a wait entry [w] comes after entries
    [pre] that do not answer the poll. *)
Lemma scanCommandCalls_wait (command : string) (clip : option number) (s : string)
    (w : CommandCall) (post : list CommandCall) (pre : list CommandCall) :
  forall (index : nat) (st : DialogueTree),
    cmd w = "wait" ->
    eligible clip w = true ->
    strict_eq_num clip (Some (str_length s)) = false ->
    (forall c, In c pre -> matches command clip c = false) ->
    let o := scanCommandCalls command clip (Some s) index (pre ++ w :: post) st in
    pauseScrolling (state_of o) = Some true
    /\ In (mkTimer (index + List.length pre) (commandCallsRef st)
             (parseInt10 (nth_error (params w) 1)))
          (timers (state_of o))
    /\ (command = "wait" ->
        returned o = Some true
        /\ commandCalls (state_of o)
           = option_map (splice1 (index + List.length pre)) (commandCalls st)
        /\ commandParameters (state_of o) = Some (params w))
    /\ (command <> "wait" ->
        returned o = Some (existsb (matches command clip) post)
        /\ (commandCalls (state_of o) = commandCalls st
            \/ exists j, (index + List.length pre < j)%nat
                 /\ commandCalls (state_of o) = option_map (splice1 j) (commandCalls st))).
Proof.
  induction pre as [|c pre IH]; intros index st Hw He Hne Hpre o; subst o.
  - cbn [app List.length]. rewrite Nat.add_0_r, scanCommandCalls_cons, He.
    assert (Ew : waitStep clip s index w st
                 = set_timers
                     (timers st ++ [mkTimer index (commandCallsRef st)
                                      (parseInt10 (nth_error (params w) 1))])
                     (set_pauseScrolling (Some true) st)).
    { unfold waitStep. rewrite Hw, Hne. reflexivity. }
    rewrite Ew, Hw.
    destruct (String.eqb_spec "wait" command) as [<-|Hn].
    + cbn. split; [reflexivity|].
      split; [apply in_or_app; right; left; reflexivity|].
      split; [intros _; auto | intros H; congruence].
    + match goal with
      | |- context [scanCommandCalls command clip (Some s) (S index) post ?st1] =>
          destruct (scanCommandCalls_spec command clip s post (S index) st1)
            as (S1 & S2 & S3 & S4 & S5)
      end.
      split; [apply S2; reflexivity|].
      split; [apply S3; cbn; apply in_or_app; right; left; reflexivity|].
      split; [intros H; congruence|].
      intros _. split; [exact S1|].
      destruct S5 as [S5|(j & Hj & S5)]; [left; exact S5|].
      right. exists j. split; [lia | exact S5].
  - cbn [app List.length]. rewrite scanCommandCalls_cons.
    assert (Hc : matches command clip c = false) by (apply Hpre; left; reflexivity).
    assert (Hpre' : forall c', In c' pre -> matches command clip c' = false)
      by (intros c' H; apply Hpre; right; exact H).
    unfold matches in Hc.
    destruct (waitStep_keeps clip s index c st) as (K1 & K2 & K3 & K4).
    replace (index + S (List.length pre))%nat with (S index + List.length pre)%nat by lia.
    destruct (eligible clip c); cbn [andb] in Hc.
    + rewrite Hc.
      destruct (IH (S index) (waitStep clip s index c st) Hw He Hne Hpre')
        as (I1 & I2 & I3 & I4).
      rewrite K1, K2 in *. auto.
    + destruct (IH (S index) st Hw He Hne Hpre') as (I1 & I2 & I3 & I4). auto.
Qed.

(** When the timer of a wait entry fires on the queue it was set on, the
    pause ends and that entry leaves the queue. *)
Lemma timerCallback_resumes (st : DialogueTree) (pre post : list CommandCall)
    (w : CommandCall) (delay : number) :
  commandCalls st = Some (pre ++ w :: post) ->
  let st' := timerCallback (mkTimer (List.length pre) (commandCallsRef st) delay) st in
  pauseScrolling st' = Some false /\ commandCalls st' = Some (pre ++ post).
Proof.
  intros Hq. unfold timerCallback. cbn. rewrite Nat.eqb_refl. cbn.
  rewrite Hq. cbn. now rewrite splice1_middle.
Qed.

(** A poll whose name is that of the first queued entry, once that entry is
    eligible, removes that entry alone: the entries behind it are not
    looked at, whatever their names. *)
Lemma scan_stops_at_first_match (st : DialogueTree) (call : CommandCall)
    (rest : list CommandCall) (s : string) :
  commandCalls st = Some (call :: rest) ->
  truthy (pauseScrolling st) = false ->
  dialogueText st = Some s ->
  eligible (clipTextEnd st) call = true ->
  returned (isCommandCalled (cmd call) st) = Some true
  /\ commandCalls (state_of (isCommandCalled (cmd call) st)) = Some rest
  /\ commandParameters (state_of (isCommandCalled (cmd call) st))
     = Some (params call).
Proof.
  intros Hq Hp Ht He. unfold isCommandCalled. rewrite Hq, Hp, Ht.
  rewrite scanCommandCalls_cons, He, String.eqb_refl.
  destruct (waitStep_keeps (clipTextEnd st) s 0 call st) as (K1 & _).
  cbn. rewrite K1, Hq. repeat split.
Qed.

(** C1: with one entry queued at offset [k] on a line of length at least
    [k], over any interleaving of scroll ticks, timer events and polls for
    the name of the entry, at most one poll answers true; a poll that
    answers true is made with the cursor at or past [k], empties the queue
    and captures the parameters of the entry; as soon as some poll is made
    with the cursor at or past [k], exactly one poll has answered true; and
    a match ends the scan, the entries behind the matched one staying
    queued. *)
Theorem command_fires_exactly_once (st : DialogueTree) (call : CommandCall)
    (text : string) (k : Z) (evs : list Event) :
  time call = Num k ->
  k <= Z.of_nat (String.length text) ->
  armed call text st ->
  Forall (scroll_or_poll (cmd call)) evs ->
  (fired (answers evs st) <= 1)%nat
  /\ (forall pre post, evs = pre ++ Poll (cmd call) :: post ->
        returned (isCommandCalled (cmd call) (run pre st)) = Some true ->
        clip_reached k (run pre st)
        /\ commandCalls (state_of (isCommandCalled (cmd call) (run pre st))) = Some []
        /\ commandParameters (state_of (isCommandCalled (cmd call) (run pre st)))
           = Some (params call))
  /\ (forall pre post, evs = pre ++ Poll (cmd call) :: post ->
        clip_reached k (run pre st) ->
        fired (answers evs st) = 1%nat)
  /\ (forall (st2 : DialogueTree) (rest : list CommandCall),
        commandCalls st2 = Some (call :: rest) ->
        truthy (pauseScrolling st2) = false ->
        dialogueText st2 = Some text ->
        clip_reached k st2 ->
        returned (isCommandCalled (cmd call) st2) = Some true
        /\ commandCalls (state_of (isCommandCalled (cmd call) st2)) = Some rest).
Proof.
  intros Htime _ Ha Hall.
  destruct (answers_armed call text k Htime evs st Ha Hall) as (H1 & H2 & H3).
  split; [exact H1|]. split; [exact H2|]. split; [exact H3|].
  intros st2 rest Hq Hp Ht (c & Hc & Hk).
  assert (He : eligible (clipTextEnd st2) call = true).
  { unfold eligible. rewrite Hc, Htime. cbn.
    destruct (Z.ltb_spec c k); [lia | reflexivity]. }
  destruct (scan_stops_at_first_match st2 call rest text Hq Hp Ht He) as (R1 & R2 & _).
  split; assumption.
Qed.

(** The entry "shake 3" queued at offset 2 of the line "Hello": polled
    before and after the cursor reaches 2, it fires once. *)
Lemma command_fires_exactly_once_witness :
  fired (answers [Poll "shake"; Tick; Tick; Poll "shake"; Tick; Poll "shake"]
           (started shake_script)) = 1%nat.
Proof.
  destruct (command_fires_exactly_once (started shake_script)
              (mkCommandCall "shake" ["shake"; "3"] (Num 2)) "Hello" 2
              [Poll "shake"; Tick; Tick; Poll "shake"; Tick; Poll "shake"])
    as (_ & _ & H & _).
  - reflexivity.
  - cbn. lia.
  - repeat split. exists 0. reflexivity.
  - repeat (apply Forall_cons; [unfold scroll_or_poll; cbn; auto|]).
    apply Forall_nil.
  - apply (H [Poll "shake"; Tick; Tick] [Tick; Poll "shake"]); [reflexivity|].
    exists 2. split; [reflexivity | lia].
Defined.

(** C3, as stated, fails: on the line "Hi there" with the entry "wait 500"
    queued at offset 3 and the cursor at 3, the poll for "wait" answers
    true. *)
Lemma wait_poll_answers_true :
  dialogueText (ticks 3 (started wait_script)) = Some "Hi there"
  /\ clipTextEnd (ticks 3 (started wait_script)) = Some (Num 3)
  /\ commandCalls (ticks 3 (started wait_script))
     = Some [mkCommandCall "wait" ["wait"; "500"] (Num 3)]
  /\ returned (isCommandCalled "wait" (ticks 3 (started wait_script))) = Some true.
Proof. repeat split. Qed.

(** C3, amended: an eligible wait entry the scan reaches, on a line whose
    length the cursor does not equal, sets the pause flag and schedules a
    timer whose delay is its second parameter read as a base-10 integer; the
    poll reports that entry as its match exactly when the polled name is
    "wait" itself, and then removes it and captures its parameters; for any
    other name the wait entry is not reported and stays queued, and the
    answer depends on the entries behind it only. *)
Theorem wait_entry_pauses_and_matches_only_wait (st : DialogueTree)
    (command : string) (pre post : list CommandCall) (w : CommandCall) (s : string) :
  commandCalls st = Some (pre ++ w :: post) ->
  truthy (pauseScrolling st) = false ->
  dialogueText st = Some s ->
  cmd w = "wait" ->
  eligible (clipTextEnd st) w = true ->
  strict_eq_num (clipTextEnd st) (Some (str_length s)) = false ->
  (forall c, In c pre -> matches command (clipTextEnd st) c = false) ->
  pauseScrolling (state_of (isCommandCalled command st)) = Some true
  /\ In (mkTimer (List.length pre) (commandCallsRef st)
           (parseInt10 (nth_error (params w) 1)))
        (timers (state_of (isCommandCalled command st)))
  /\ (command = "wait" ->
      returned (isCommandCalled command st) = Some true
      /\ commandCalls (state_of (isCommandCalled command st)) = Some (pre ++ post)
      /\ commandParameters (state_of (isCommandCalled command st)) = Some (params w))
  /\ (command <> "wait" ->
      returned (isCommandCalled command st)
      = Some (existsb (matches command (clipTextEnd st)) post)
      /\ exists calls, commandCalls (state_of (isCommandCalled command st)) = Some calls
           /\ nth_error calls (List.length pre) = Some w).
Proof.
  intros Hq Hp Ht Hw He Hne Hpre.
  unfold isCommandCalled. rewrite Hq, Hp, Ht.
  destruct (scanCommandCalls_wait command (clipTextEnd st) s w post pre 0 st
              Hw He Hne Hpre) as (S1 & S2 & S3 & S4).
  cbn [Nat.add] in *.
  split; [exact S1|]. split; [exact S2|]. split.
  - intros Hc. destruct (S3 Hc) as (A1 & A2 & A3).
    split; [exact A1|]. split; [|exact A3].
    rewrite A2, Hq. cbn. now rewrite splice1_middle.
  - intros Hc. destruct (S4 Hc) as (A1 & A2). split; [exact A1|].
    destruct A2 as [A2|(j & Hj & A2)]; rewrite A2, Hq.
    + eexists. split; [reflexivity|]. apply nth_error_middle.
    + eexists. split; [reflexivity|].
      rewrite nth_error_splice1_before by exact Hj. apply nth_error_middle.
Qed.

(** On the line "Hi there" with the cursor at 3, a poll for another command
    pauses scrolling, schedules the timer of 500 and answers false. *)
Lemma wait_entry_pauses_and_matches_only_wait_witness :
  pauseScrolling (state_of (isCommandCalled "shake" (ticks 3 (started wait_script))))
  = Some true
  /\ In (mkTimer 0 2 (Num 500))
        (timers (state_of (isCommandCalled "shake" (ticks 3 (started wait_script)))))
  /\ returned (isCommandCalled "shake" (ticks 3 (started wait_script))) = Some false.
Proof.
  destruct (wait_entry_pauses_and_matches_only_wait (ticks 3 (started wait_script))
              "shake" [] [] (mkCommandCall "wait" ["wait"; "500"] (Num 3)) "Hi there")
    as (H1 & H2 & _ & H4); try reflexivity.
  - intros c [].
  - split; [exact H1|]. split; [exact H2|].
    destruct H4 as [H4 _]; [discriminate | exact H4].
Defined.

(** ** The line type *)

Lemma num_gt_true (a b : number) :
  num_gt a b = true <-> exists x y, a = Num x /\ b = Num y /\ y < x.
Proof.
  unfold num_gt, num_lt. destruct a as [|x], b as [|y]; split;
    try discriminate; try (intros (x' & y' & H1 & H2 & _); discriminate).
  - intros H. exists x, y. repeat split. now apply Z.ltb_lt.
  - intros (x' & y' & H1 & H2 & H3). injection H1 as <-. injection H2 as <-.
    now apply Z.ltb_lt.
Qed.

Lemma waitExpired_true (st : DialogueTree) :
  waitExpired st = true <-> expired_wait_queued st.
Proof.
  unfold waitExpired, expired_wait_queued. split.
  - destruct (commandCalls st) as [calls|]; [|discriminate].
    intros H. apply existsb_exists in H. destruct H as (call & Hin & H).
    apply andb_true_iff in H. destruct H as [H1 H2].
    apply num_gt_true in H1. destruct H1 as (c & t & Hc & Ht & Hlt).
    apply String.eqb_eq in H2.
    exists calls, call, c, t. repeat split; try assumption.
    destruct (clipTextEnd st) as [n|]; [|discriminate]. cbn in Hc. now subst.
  - intros (calls & call & c & t & Hq & Hin & Hw & Hc & Ht & Hlt).
    rewrite Hq. apply existsb_exists. exists call. split; [exact Hin|].
    apply andb_true_iff. split.
    + apply num_gt_true. exists c, t. rewrite Hc. auto.
    + now apply String.eqb_eq.
Qed.

(** C10: when some queued wait entry has its offset strictly below the
    cursor, [isDialogueLineType] answers the negation of the pause flag for
    every type asked; otherwise it answers whether the session runs and the
    current type is the one asked. *)
Theorem isDialogueLineType_wait_override (st : DialogueTree) (type : string) :
  (expired_wait_queued st ->
   isDialogueLineType type st = negb (truthy (pauseScrolling st)))
  /\ (~ expired_wait_queued st ->
      isDialogueLineType type st
      = (truthy (dialogueIsRunning st) && strict_eq_str (dialogueDataType st) type)
      /\ (truthy (dialogueIsRunning st) = false ->
          isDialogueLineType type st = false)).
Proof.
  unfold isDialogueLineType. split.
  - intros H. apply waitExpired_true in H. rewrite H. reflexivity.
  - intros H. destruct (waitExpired st) eqn:E.
    + exfalso. apply H. now apply waitExpired_true.
    + destruct (truthy (dialogueIsRunning st));
        (split; [reflexivity | intros; (discriminate || reflexivity)]).
Qed.

(** With the entry "wait 500" queued at offset 3 and never polled, five
    ticks later every type is granted, also one that is not current. *)
Lemma isDialogueLineType_wait_override_witness :
  dialogueDataType (ticks 5 (started wait_script)) = Some "text"
  /\ isDialogueLineType "options" (ticks 5 (started wait_script)) = true.
Proof.
  split; [reflexivity|].
  rewrite (proj1 (isDialogueLineType_wait_override
                    (ticks 5 (started wait_script)) "options")); [reflexivity|].
  exists [mkCommandCall "wait" ["wait"; "500"] (Num 3)],
         (mkCommandCall "wait" ["wait"; "500"] (Num 3)), 5, 3.
  repeat split. left. reflexivity.
Defined.

(** ** The running check *)

(** C5: [isRunning] returns the flag as it stands after the call; the call
    turns a set flag off exactly when no node is pending and the line shown
    has been scrolled to its end, and changes nothing otherwise; so it
    answers true for a running session as long as a node is pending or the
    line is not fully scrolled. *)
Theorem isRunning_lazy_end (st : DialogueTree) :
  fst (isRunning st) = dialogueIsRunning (snd (isRunning st))
  /\ (truthy (dialogueIsRunning st) = true
      /\ truthy (dialogueIsRunning (snd (isRunning st))) = false
      <-> truthy (dialogueIsRunning st) = true
          /\ no_node_pending st /\ fully_scrolled st)
  /\ (truthy (dialogueIsRunning st) = true -> no_node_pending st ->
      fully_scrolled st ->
      isRunning st = (Some false, set_dialogueIsRunning (Some false) st))
  /\ (~ (no_node_pending st /\ fully_scrolled st) ->
      isRunning st = (dialogueIsRunning st, st)).
Proof.
  assert (F : line_finished st = true
              <-> truthy (dialogueIsRunning st) = true
                  /\ no_node_pending st /\ fully_scrolled st).
  { unfold line_finished, no_node_pending, fully_scrolled.
    rewrite !andb_true_iff. split.
    - intros [[H1 H2] H3]. split; [exact H1|]. split.
      + destruct (dialogueData st); auto; discriminate.
      + destruct (dialogueText st) as [s|]; [|discriminate].
        apply andb_true_iff in H3. destruct H3 as [H3 H4].
        destruct (clipTextEnd st) as [[|c]|]; try discriminate.
        exists s, c. repeat split.
        * intros ->. discriminate.
        * cbn in H4. now apply Z.leb_le.
    - intros (H1 & H2 & s & c & Hs & Hne & Hc & Hle). split; [split|].
      + exact H1.
      + destruct H2 as [-> | ->]; reflexivity.
      + rewrite Hs, Hc. apply andb_true_iff. split.
        * destruct (String.eqb_spec s ""); [contradiction | reflexivity].
        * cbn. now apply Z.leb_le. }
  unfold isRunning. destruct (line_finished st) eqn:E; cbn [fst snd].
  - assert (G := proj1 F eq_refl). split; [reflexivity|]. split; [|split].
    + cbn. split; [intros _; exact G | intros _; split; [apply G | reflexivity]].
    + intros _ _ _. reflexivity.
    + intros H. exfalso. apply H. split; apply G.
  - split; [reflexivity|]. split; [|split].
    + split.
      * intros [H1 H2]. congruence.
      * intros H. apply F in H. discriminate.
    + intros H1 H2 H3. assert (G : false = true) by (apply F; auto).
      discriminate.
    + intros _. reflexivity.
Qed.

(** The one-line script: running while "Hi" scrolls, ended by the read that
    follows the second tick. *)
Lemma isRunning_lazy_end_witness :
  fst (isRunning (ticks 1 (started one_line))) = Some true
  /\ isRunning (ticks 2 (started one_line))
     = (Some false, set_dialogueIsRunning (Some false) (ticks 2 (started one_line))).
Proof.
  split.
  - destruct (isRunning_lazy_end (ticks 1 (started one_line))) as (_ & _ & _ & H).
    rewrite H; [reflexivity|].
    intros (_ & s & c & Hs & _ & Hc & Hle).
    injection Hs as <-. injection Hc as <-. cbn in Hle. lia.
  - destruct (isRunning_lazy_end (ticks 2 (started one_line))) as (_ & _ & H & _).
    apply H.
    + reflexivity.
    + left. reflexivity.
    + exists "Hi", 2. repeat split; [discriminate | cbn; lia].
Defined.

(** ** Starting from a branch *)

Lemma hasDialogueBranch_false (nodeId : string) (st : DialogueTree) :
  ~ In nodeId (map fst (yarnNodes (runner st))) ->
  hasDialogueBranch nodeId st = false.
Proof.
  intros H. unfold hasDialogueBranch.
  destruct (existsb _ _) eqn:E; [|reflexivity].
  exfalso. apply H. apply existsb_exists in E. destruct E as (node & Hin & He).
  apply String.eqb_eq in He. subst nodeId. now apply in_map.
Qed.

(** C4: for a name that is not a node of the loaded script, [startFrom]
    returns without raising and leaves the whole state as it was; a session
    that was not running is still not running. *)
Theorem startFrom_unknown_branch (nodeId : string) (st : DialogueTree) :
  ~ In nodeId (map fst (yarnNodes (runner st))) ->
  startFrom nodeId st = Some (Return tt st)
  /\ (truthy (dialogueIsRunning st) = false ->
      forall o, startFrom nodeId st = Some o ->
                truthy (dialogueIsRunning (state_of o)) = false).
Proof.
  intros H. unfold startFrom. rewrite (hasDialogueBranch_false nodeId st H).
  cbn [negb]. split; [reflexivity|].
  intros Hr o Ho. injection Ho as <-. exact Hr.
Qed.

Lemma startFrom_unknown_branch_witness :
  startFrom "Nowhere" (initial wait_script)
  = Some (Return tt (initial wait_script)).
Proof.
  apply startFrom_unknown_branch.
  cbn. intros [H|[]]. discriminate.
Defined.

(** ** Option cycling *)

Lemma selectStep_choosing (d : Z) (opts : list string) (st : DialogueTree) (i : Z) :
  d = 1 \/ d = -1 ->
  choosing opts st ->
  selectedOption st = Some (Num i) ->
  exists st', selectStep d st = Return tt st'
    /\ choosing opts st'
    /\ selectedOption st' = Some (Num (cycled (Z.of_nat (List.length opts)) (i + d)))
    /\ selectedOptionUpdated st' = Some true.
Proof.
  intros Hdir [Hd Ho] Hi.
  unfold selectStep, selectNextOption, selectPreviousOption, data_select.
  rewrite Hd. unfold _cycledOptionIndex. cbn. rewrite Ho, Hi.
  destruct Hdir as [-> | ->]; cbn; unfold cycled;
    replace (i - 1) with (i + -1) by lia.
  - destruct (Z.of_nat (List.length opts) <=? i + 1); cbn;
      [| destruct (i + 1 <? 0)];
      cbn; eexists; (split; [reflexivity|]); cbn; repeat split; assumption.
  - destruct (Z.of_nat (List.length opts) <=? i + -1); cbn;
      [| destruct (i + -1 <? 0)];
      cbn; eexists; (split; [reflexivity|]); cbn; repeat split; assumption.
Qed.

Lemma selectStep_not_choosing (d : Z) (st : DialogueTree) :
  not_choosing st -> selectStep d st = Return tt st.
Proof.
  intros (r & Hd & Hr).
  unfold selectStep, selectNextOption, selectPreviousOption, data_select.
  rewrite Hd. destruct r, (d =? 1); (reflexivity || contradiction).
Qed.

Lemma cycled_next (count i : Z) :
  0 <= i < count -> cycled count (i + 1) = (i + 1) mod count.
Proof.
  intros H. unfold cycled. destruct (Z.leb_spec count (i + 1)).
  - assert (i + 1 = count) as -> by lia. cbn. now rewrite Z.mod_same by lia.
  - destruct (Z.ltb_spec (i + 1) 0); [lia|]. now rewrite Z.mod_small by lia.
Qed.

Lemma cycled_previous (count i : Z) :
  0 <= i < count -> cycled count (i - 1) = (i - 1) mod count.
Proof.
  intros H. unfold cycled. destruct (Z.leb_spec count (i - 1)); [lia|].
  destruct (Z.ltb_spec (i - 1) 0).
  - assert (i = 0) as -> by lia. cbn.
    replace (-1) with (count - 1 + (-1) * count) by lia.
    rewrite Z.mod_add by lia. now rewrite Z.mod_small by lia.
  - now rewrite Z.mod_small by lia.
Qed.

Lemma selectNextOption_times_index (opts : list string) (n : nat) :
  forall (st : DialogueTree) (i : Z),
    choosing opts st ->
    selectedOption st = Some (Num i) ->
    0 <= i < Z.of_nat (List.length opts) ->
    selectedOption (selectNextOption_times n st)
    = Some (Num ((i + Z.of_nat n) mod Z.of_nat (List.length opts))).
Proof.
  induction n as [|n IH]; intros st i Hc Hi Hr.
  - cbn. rewrite Hi, Z.add_0_r, Z.mod_small by lia. reflexivity.
  - cbn [selectNextOption_times]. change (selectNextOption st) with (selectStep 1 st).
    destruct (selectStep_choosing 1 opts st i (or_introl eq_refl) Hc Hi) as (st' & E & Hc' & Hi' & _).
    rewrite E. cbn [state_of]. rewrite cycled_next in Hi' by exact Hr.
    rewrite (IH st' _ Hc' Hi').
    + rewrite Zplus_mod_idemp_l. do 2 f_equal. f_equal. lia.
    + apply Z.mod_pos_bound. lia.
Qed.

(** C6, as stated, fails: when the choice between "Yes" and "No" has just
    become current the stored index is -1, and two calls of
    [selectNextOption] leave it at 1. *)
Lemma cycling_from_no_selection :
  choosing ["Yes"; "No"] (started choice)
  /\ selectedOption (started choice) = Some (Num (-1))
  /\ selectedOption (selectNextOption_times 2 (started choice)) = Some (Num 1)
  /\ selectedOption (selectNextOption_times 2 (started choice))
     <> selectedOption (started choice).
Proof. repeat split. discriminate. Qed.

(** C6, amended: while an options node with [count] candidates is current
    and the stored index lies in [0, count - 1], [selectNextOption] and
    [selectPreviousOption] mark the selection as changed and move the index
    to [(i + 1) mod count] and [(i - 1) mod count], so each undoes the other
    and [count] calls of [selectNextOption] bring the index back; from the
    index -1 of a fresh choice the first goes to 0 and the second to
    [count - 1]; and while a text or a command result is current both leave
    the state as it is. *)
Theorem option_cycling (st : DialogueTree) (opts : list string) (i : Z) :
  (choosing opts st -> selectedOption st = Some (Num i) ->
   0 <= i < Z.of_nat (List.length opts) ->
   let count := Z.of_nat (List.length opts) in
   let next := state_of (selectNextOption st) in
   let previous := state_of (selectPreviousOption st) in
   selectedOption next = Some (Num ((i + 1) mod count))
   /\ selectedOption previous = Some (Num ((i - 1) mod count))
   /\ selectedOptionUpdated next = Some true
   /\ selectedOptionUpdated previous = Some true
   /\ selectedOption (state_of (selectPreviousOption next)) = Some (Num i)
   /\ selectedOption (state_of (selectNextOption previous)) = Some (Num i)
   /\ selectedOption (selectNextOption_times (List.length opts) st) = Some (Num i))
  /\ (choosing opts st -> selectedOption st = Some (Num (-1)) -> opts <> [] ->
      selectedOption (state_of (selectNextOption st)) = Some (Num 0)
      /\ selectedOption (state_of (selectPreviousOption st))
         = Some (Num (Z.of_nat (List.length opts) - 1)))
  /\ (not_choosing st ->
      selectNextOption st = Return tt st /\ selectPreviousOption st = Return tt st).
Proof.
  split; [|split].
  - intros Hc Hi Hr count next previous. subst next previous.
    change (selectNextOption st) with (selectStep 1 st).
    change (selectPreviousOption st) with (selectStep (-1) st).
    destruct (selectStep_choosing 1 opts st i (or_introl eq_refl) Hc Hi)
      as (sn & En & Hcn & Hin & Hun).
    destruct (selectStep_choosing (-1) opts st i (or_intror eq_refl) Hc Hi)
      as (sp & Ep & Hcp & Hip & Hup).
    rewrite En, Ep. cbn [state_of].
    change (selectPreviousOption sn) with (selectStep (-1) sn).
    change (selectNextOption sp) with (selectStep 1 sp).
    rewrite cycled_next in Hin by exact Hr.
    replace (i + -1) with (i - 1) in Hip by lia.
    rewrite cycled_previous in Hip by exact Hr.
    destruct (selectStep_choosing (-1) opts sn _ (or_intror eq_refl) Hcn Hin)
      as (s1 & E1 & _ & H1 & _).
    destruct (selectStep_choosing 1 opts sp _ (or_introl eq_refl) Hcp Hip)
      as (s2 & E2 & _ & H2 & _).
    rewrite E1, E2. cbn [state_of]. fold count in Hin, Hip, H1, H2, Hr.
    assert (Bn : 0 <= (i + 1) mod count < count) by (apply Z.mod_pos_bound; lia).
    assert (Bp : 0 <= (i - 1) mod count < count) by (apply Z.mod_pos_bound; lia).
    replace ((i + 1) mod count + -1) with ((i + 1) mod count - 1) in H1 by lia.
    rewrite cycled_previous in H1 by exact Bn.
    rewrite cycled_next in H2 by exact Bp.
    rewrite Zminus_mod_idemp_l in H1. rewrite Zplus_mod_idemp_l in H2.
    replace (i + 1 - 1) with i in H1 by lia.
    replace (i - 1 + 1) with i in H2 by lia.
    rewrite Z.mod_small in H1, H2 by lia.
    repeat (split; [assumption|]).
    rewrite (selectNextOption_times_index opts _ st i Hc Hi Hr).
    fold count. replace (i + count) with (i + 1 * count) by lia.
    rewrite Z.mod_add by lia. now rewrite Z.mod_small by lia.
  - intros Hc Hi Hne.
    change (selectNextOption st) with (selectStep 1 st).
    change (selectPreviousOption st) with (selectStep (-1) st).
    destruct (selectStep_choosing 1 opts st _ (or_introl eq_refl) Hc Hi)
      as (sn & En & _ & Hin & _).
    destruct (selectStep_choosing (-1) opts st _ (or_intror eq_refl) Hc Hi)
      as (sp & Ep & _ & Hip & _).
    rewrite En, Ep. cbn [state_of]. rewrite Hin, Hip.
    assert (0 < Z.of_nat (List.length opts)) by (destruct opts; [congruence | cbn; lia]).
    unfold cycled. cbn.
    destruct (Z.leb_spec (Z.of_nat (List.length opts)) 0); [lia|].
    destruct (Z.leb_spec (Z.of_nat (List.length opts)) (-2)); [lia|].
    split; reflexivity.
  - intros H. split.
    + exact (selectStep_not_choosing 1 st H).
    + exact (selectStep_not_choosing (-1) st H).
Qed.

(** The choice between "Yes" and "No" once the index has been set to 0 by
    the first read of [hasSelectedOptionChanged]: two calls of
    [selectNextOption] come back to 0. *)
Lemma option_cycling_witness :
  selectedOption
    (selectNextOption_times 2 (snd (hasSelectedOptionChanged (started choice))))
  = Some (Num 0).
Proof.
  destruct (option_cycling (snd (hasSelectedOptionChanged (started choice)))
              ["Yes"; "No"] 0) as [H _].
  destruct H as (_ & _ & _ & _ & _ & _ & H).
  - split; reflexivity.
  - reflexivity.
  - cbn. lia.
  - exact H.
Defined.

(** ** Reading the selection *)

(** C7, as stated, fails: when the choice between "Yes" and "No" has just
    become current the stored index is -1, and [getSelectedOption] returns
    -1. *)
Lemma getSelectedOption_returns_minus_one :
  choosing ["Yes"; "No"] (started choice)
  /\ selectedOption (started choice) = Some (Num (-1))
  /\ getSelectedOption (started choice) = Return (Some (Num (-1))) (started choice)
  /\ returned (getSelectedOption (started choice)) <> Some (Some (Num 0)).
Proof.
  unfold choosing.
  split; [split | split; [|split]]; try (vm_compute; reflexivity).
  vm_compute. discriminate.
Qed.

(** C7, amended: [getSelectedOption] changes nothing and returns the stored
    index as it is while an options node is current, -1 included, and 0
    while a text or a command result is current; the stored -1 becomes 0 in
    the call of [hasSelectedOptionChanged] that finds the selection marked
    as changed; that call answers true and clears the mark, so the next one
    answers false and changes nothing, and a call that finds no mark answers
    false and changes nothing. *)
Theorem selection_reads (st : DialogueTree) (opts : list string) :
  (dialogueData st = Obj (OptionsResult opts) ->
   getSelectedOption st = Return (selectedOption st) st)
  /\ (not_choosing st -> getSelectedOption st = Return (Some (Num 0)) st)
  /\ (truthy (selectedOptionUpdated st) = true ->
      let st' := snd (hasSelectedOptionChanged st) in
      fst (hasSelectedOptionChanged st) = true
      /\ selectedOptionUpdated st' = Some false
      /\ selectedOption st'
         = (if strict_eq_num (selectedOption st) (Some (Num (-1)))
            then Some (Num 0) else selectedOption st)
      /\ hasSelectedOptionChanged st' = (false, st'))
  /\ (truthy (selectedOptionUpdated st) = false ->
      hasSelectedOptionChanged st = (false, st))
  /\ (choosing opts st -> selectedOption st = Some (Num (-1)) ->
      truthy (selectedOptionUpdated st) = true ->
      getSelectedOption (snd (hasSelectedOptionChanged st))
      = Return (Some (Num 0)) (snd (hasSelectedOptionChanged st))).
Proof.
  split; [|split; [|split; [|split]]].
  - intros Hd. unfold getSelectedOption, data_select. rewrite Hd. reflexivity.
  - intros (r & Hd & Hr). unfold getSelectedOption, data_select. rewrite Hd.
    destruct r; [reflexivity | contradiction | reflexivity].
  - intros Hu st'. subst st'. unfold hasSelectedOptionChanged. rewrite Hu.
    cbn [fst snd]. split; [reflexivity|].
    change (selectedOption (set_selectedOptionUpdated (Some false) st))
      with (selectedOption st).
    destruct (strict_eq_num (selectedOption st) (Some (Num (-1)))) eqn:E; cbn;
      rewrite ?E; repeat split.
  - intros Hu. unfold hasSelectedOptionChanged. rewrite Hu. reflexivity.
  - intros [Hd Ho] Hi Hu. unfold hasSelectedOptionChanged. rewrite Hu.
    change (selectedOption (set_selectedOptionUpdated (Some false) st))
      with (selectedOption st).
    rewrite Hi. cbn [fst snd strict_eq_num Z.eqb Pos.eqb].
    unfold getSelectedOption, data_select. cbn. rewrite Hd. reflexivity.
Qed.

(** The fresh choice: the first read of [hasSelectedOptionChanged] answers
    true and stores 0, the second answers false. *)
Lemma selection_reads_witness :
  fst (hasSelectedOptionChanged (started choice)) = true
  /\ selectedOption (snd (hasSelectedOptionChanged (started choice))) = Some (Num 0)
  /\ fst (hasSelectedOptionChanged (snd (hasSelectedOptionChanged (started choice))))
     = false.
Proof.
  destruct (selection_reads (started choice) ["Yes"; "No"]) as (_ & _ & H & _).
  destruct H as (H1 & _ & H3 & H4); [reflexivity|].
  split; [exact H1|]. split; [exact H3|]. rewrite H4. reflexivity.
Defined.

(** ** Saving and loading *)

Lemma tables_console_error (e : Error) (st : DialogueTree) :
  tables (console_error e st) = tables st.
Proof. reflexivity. Qed.

(** C8, as stated, fails: a variable whose JSON text is the empty object
    parses, does not have the shape of a saved state, and [loadState] then
    reports nothing and replaces both tables by [undefined]. *)
Lemma loadState_wrong_shape_clears_tables :
  JSON_parse (variableStructureToJSON (JObject [])) = inr (JObject [])
  /\ ~ persisted_shape (JObject [])
  /\ tables (initial played)
     = (JObject [("gold", JNumber 5); ("name", JString "Ann")],
        JObject [("Start", JBool true)])
  /\ tables (loadState (JObject []) (initial played)) = (JUndefined, JUndefined)
  /\ tables (loadState (JObject []) (initial played)) <> tables (initial played)
  /\ console (loadState (JObject []) (initial played)) = [].
Proof.
  split; [reflexivity|]. split.
  - intros (props & Hp & Hv & _). injection Hp as <-. apply Hv. reflexivity.
  - repeat split. discriminate.
Qed.

(** C8, amended: on any host, when the text written for the saved variable
    parses back to the object [saveState] built, loading what was saved
    restores both tables and reports nothing; when [JSON.parse] rejects the
    text of the input, or gives [null], the error is reported and both
    tables are left as they were; and when it gives an object, both tables
    are replaced by the properties "variables" and "visited" of that object,
    whatever the tables held, a missing property giving [undefined]. *)
Theorem loadState_saveState (H : Host) (st st0 : DialogueTree)
    (out input : Variable_) :
  (JSON_parse (variableStructureToJSON (saveState out st0)) = inr (dialogueState st0) ->
   tables (loadState (saveState out st0) st) = tables st0
   /\ console (loadState (saveState out st0) st) = console st)
  /\ (forall e, JSON_parse (variableStructureToJSON input) = inl e ->
      tables (loadState input st) = tables st
      /\ console (loadState input st) = console st ++ [Reported e])
  /\ (JSON_parse (variableStructureToJSON input) = inr JNull ->
      tables (loadState input st) = tables st
      /\ console (loadState input st) = console st ++ [Reported TypeError])
  /\ (forall props, JSON_parse (variableStructureToJSON input) = inr (JObject props) ->
      tables (loadState input st)
      = (own_property "variables" props, own_property "visited" props)
      /\ console (loadState input st) = console st
      /\ yarnNodes (runner (loadState input st)) = yarnNodes (runner st)).
Proof.
  split; [|split; [|split]].
  - intros E. unfold loadState. rewrite E. split; reflexivity.
  - intros e E. unfold loadState. rewrite E. split; reflexivity.
  - intros E. unfold loadState. rewrite E. split; reflexivity.
  - intros props E. unfold loadState. rewrite E. repeat split.
Qed.

(** On the sample host: the tables of a played game, saved and then loaded
    into a fresh runtime, and a variable whose text is malformed. *)
Lemma loadState_saveState_witness :
  tables (loadState (saveState JNull (initial played)) (initial one_line))
  = tables (initial played)
  /\ tables (loadState (JString "\") (initial played)) = tables (initial played)
  /\ console (loadState (JString "\") (initial played)) = [Reported SyntaxError].
Proof.
  destruct (loadState_saveState sampleHost (initial one_line) (initial played)
              JNull (JString "\")) as (H1 & _).
  destruct (loadState_saveState sampleHost (initial played) (initial played)
              JNull (JString "\")) as (_ & H2 & _).
  split; [apply H1; vm_compute; reflexivity|].
  destruct (H2 SyntaxError) as [H3 H4]; [vm_compute; reflexivity|].
  split; [exact H3 | exact H4].
Defined.

(** ** Calls without a current node *)

(** C9 fails on the code: once the only line of a script has been pulled the
    sequence is exhausted and [dialogueData] is [undefined], and a stop puts
    [null] there; [selectNextOption], [selectPreviousOption] and
    [getSelectedOption] then raise a [TypeError] to the caller, and so does
    [getClippedLineText] before the first start, where [dialogueText] is
    [undefined]. *)
Theorem calls_without_node_raise :
  dialogueData (started one_line) = Undefined
  /\ selectNextOption (started one_line) = Throw TypeError (started one_line)
  /\ selectPreviousOption (started one_line) = Throw TypeError (started one_line)
  /\ getSelectedOption (started one_line) = Throw TypeError (started one_line)
  /\ dialogueData (stopRunningDialogue (started choice)) = Null
  /\ selectNextOption (stopRunningDialogue (started choice))
     = Throw TypeError (stopRunningDialogue (started choice))
  /\ getClippedLineText (initial one_line) = Throw TypeError (initial one_line).
Proof. repeat (split; [vm_compute; reflexivity|]). vm_compute. reflexivity. Qed.

(** * Further properties *)

(** ** Strings *)

Lemma append_nil_r (s : string) : (s ++ "")%string = s.
Proof. induction s as [|c s IH]; cbn; [reflexivity | now rewrite IH]. Qed.

Lemma append_assoc (a b c : string) :
  ((a ++ b) ++ c)%string = (a ++ (b ++ c))%string.
Proof. induction a as [|x a IH]; cbn; [reflexivity | now rewrite IH]. Qed.

Lemma length_append (a b : string) :
  String.length (a ++ b) = (String.length a + String.length b)%nat.
Proof. induction a as [|x a IH]; cbn; [reflexivity | now rewrite IH]. Qed.

Lemma substring_prefix (s : string) :
  forall n : nat,
    exists rest, s = (String.substring 0 n s ++ rest)%string
                 /\ String.length (String.substring 0 n s) = Nat.min n (String.length s).
Proof.
  induction s as [|c s IH]; intros [|n]; cbn.
  - exists "". split; reflexivity.
  - exists "". split; reflexivity.
  - exists (String c s). split; reflexivity.
  - destruct (IH n) as (rest & H1 & H2). exists rest. split.
    + now rewrite <- H1.
    + now rewrite H2.
Qed.

Lemma substring_all (s : string) :
  String.substring 0 (String.length s) s = s.
Proof. induction s as [|c s IH]; cbn; [reflexivity | now rewrite IH]. Qed.

(** ** Stopping *)

(** X1: after [stopRunningDialogue], whatever the state was, the session
    does not run, the line readers return the empty string without raising,
    the scroll operations and the branch readers are inert, and a second
    stop changes nothing; the command queue, the pause flag and the pending
    timers are left as they were. *)
Theorem stopRunningDialogue_silences (st : DialogueTree) (title : string) :
  let st' := stopRunningDialogue st in
  truthy (dialogueIsRunning st') = false
  /\ isRunning st' = (dialogueIsRunning st', st')
  /\ getClippedLineText st' = Return "" st'
  /\ getLineText st' = Return "" st'
  /\ hasClippedScrollingCompleted st' = Return false st'
  /\ scrollClippedText st' = st'
  /\ completeClippedTextScrolling st' = st'
  /\ getBranchTitle st' = Some ""
  /\ getBranchText st' = Some ""
  /\ branchTitleIs title st' = false
  /\ getBranchTags st' = Return "" st'
  /\ stopRunningDialogue st' = st'
  /\ commandCalls st' = commandCalls st
  /\ pauseScrolling st' = pauseScrolling st
  /\ timers st' = timers st.
Proof.
  destruct st as [r g run d ty tx clip calls ref ps pause os oc so su bt bb bg tp tm cs].
  destruct run as [[|]|], d as [| |res]; cbn; repeat split;
    try (destruct pause as [[|]|]; reflexivity).
Qed.

(** ** The clipped line *)

(** X2: [getClippedLineText] returns a prefix of the line, of length the
    cursor clamped between 0 and the length of the line, and changes
    nothing; a cursor past the end of the line shows the whole line. *)
Theorem getClippedLineText_prefix (st : DialogueTree) (s : string) (c : Z) :
  dialogueText st = Some s ->
  clipTextEnd st = Some (Num c) ->
  exists shown rest,
    getClippedLineText st = Return shown st
    /\ s = (shown ++ rest)%string
    /\ Z.of_nat (String.length shown) = Z.min (Z.max c 0) (Z.of_nat (String.length s))
    /\ (Z.of_nat (String.length s) <= c -> shown = s).
Proof.
  intros Hs Hc. unfold getClippedLineText. rewrite Hs, Hc.
  destruct s as [|a s].
  - exists "", "". cbn. repeat split. lia.
  - cbn [truthy_num str_length]. 
    replace (negb (Z.of_nat (String.length (String a s)) =? 0)) with true
      by (cbn [String.length]; destruct (Z.eqb_spec (Z.of_nat (S (String.length s))) 0);
          [lia | reflexivity]).
    cbn [substring0].
    destruct (substring_prefix (String a s) (Z.to_nat c)) as (rest & H1 & H2).
    exists (String.substring 0 (Z.to_nat c) (String a s)), rest.
    split; [reflexivity|]. split; [exact H1|]. split.
    + rewrite H2. lia.
    + intros Hle.
      replace (Z.to_nat c)
        with (String.length (String a s) + (Z.to_nat c - String.length (String a s)))%nat
        by lia.
      generalize (Z.to_nat c - String.length (String a s))%nat as extra.
      intros extra. clear.
      generalize (String a s) as t. intros t.
      induction t as [|x t IH]; cbn; [destruct extra; reflexivity | now rewrite IH].
Qed.

Lemma getClippedLineText_prefix_witness :
  getClippedLineText (ticks 1 (started one_line))
  = Return "H" (ticks 1 (started one_line))
  /\ getClippedLineText (ticks 3 (started one_line))
     = Return "Hi" (ticks 3 (started one_line)).
Proof.
  destruct (getClippedLineText_prefix (ticks 3 (started one_line)) "Hi" 3)
    as (shown & rest & H1 & _ & _ & H4); try reflexivity.
  split; [vm_compute; reflexivity|].
  rewrite H1, H4; [reflexivity | cbn; lia].
Defined.

(** X3: [getLineText] returns the whole line in every state that has one;
    while a session runs unpaused it moves the cursor to the end of the
    line, so that [getClippedLineText] then returns the whole line too, and
    while scrolling is paused or no session runs it leaves the state as it
    is. *)
Theorem getLineText_completes (st : DialogueTree) (s : string) :
  dialogueText st = Some s ->
  returned (getLineText st) = Some s
  /\ (truthy (pauseScrolling st) = false -> truthy (dialogueIsRunning st) = true ->
      s <> "" ->
      clipTextEnd (state_of (getLineText st)) = Some (str_length s)
      /\ getClippedLineText (state_of (getLineText st))
         = Return s (state_of (getLineText st)))
  /\ (truthy (pauseScrolling st) = true \/ truthy (dialogueIsRunning st) = false ->
      state_of (getLineText st) = st).
Proof.
  intros Hs. unfold getLineText, completeClippedTextScrolling. rewrite Hs.
  assert (Hne : s <> "" -> truthy_num (str_length s) = true).
  { destruct s; [congruence|]. intros _. cbn [truthy_num str_length String.length].
    destruct (Z.eqb_spec (Z.of_nat (S (String.length s))) 0); [lia | reflexivity]. }
  assert (Hret : forall st1, dialogueText st1 = Some s ->
            returned (match dialogueText st1 with
                      | None => Throw TypeError st1
                      | Some s0 =>
                          Return (if truthy_num (str_length s0) then s0 else "") st1
                      end) = Some s).
  { intros st1 E. rewrite E. cbn [returned].
    destruct (String.eqb_spec s ""); [subst; reflexivity|].
    rewrite Hne by assumption. reflexivity. }
  split; [|split].
  - apply Hret.
    destruct (truthy (pauseScrolling st) || negb (truthy (dialogueIsRunning st))
              || negb (truthy_str (Some s))); exact Hs.
  - intros Hp Hr Hn. rewrite Hp, Hr. cbn [orb negb truthy_str].
    destruct (String.eqb_spec s ""); [contradiction|]. cbn [negb].
    change (dialogueText (set_clipTextEnd (Some (str_length s)) st))
      with (dialogueText st).
    rewrite Hs. cbn [state_of]. split; [reflexivity|].
    unfold getClippedLineText.
    change (dialogueText (set_clipTextEnd (Some (str_length s)) st))
      with (dialogueText st).
    rewrite Hs, (Hne Hn). cbn [clipTextEnd set_clipTextEnd substring0 str_length].
    now rewrite Nat2Z.id, substring_all.
  - intros [Hp|Hr]; [rewrite Hp | rewrite Hr; rewrite orb_true_r];
      cbn; rewrite Hs; reflexivity.
Qed.

Lemma getLineText_completes_witness :
  returned (getLineText (started one_line)) = Some "Hi"
  /\ clipTextEnd (state_of (getLineText (started one_line))) = Some (Num 2).
Proof.
  destruct (getLineText_completes (started one_line) "Hi") as (H1 & H2 & _);
    [reflexivity|].
  split; [exact H1|].
  destruct H2 as [H2 _]; [reflexivity | reflexivity | discriminate | exact H2].
Defined.

(** X4: on a running session whose line is scrolled to its end,
    [hasClippedScrollingCompleted] answers true exactly when a node is still
    pending, and that is exactly when [isRunning] still answers true: on the
    last line of a sequence it answers false and [isRunning] ends the
    session instead. *)
Theorem scrolled_line_completed_or_over (st : DialogueTree) :
  truthy (dialogueIsRunning st) = true ->
  fully_scrolled st ->
  exists b : bool,
    hasClippedScrollingCompleted st = Return b st
    /\ truthy (fst (isRunning st)) = b
    /\ (b = true <-> node_pending st).
Proof.
  intros Hr (s & c & Hs & Hne & Hc & Hle).
  unfold hasClippedScrollingCompleted, isRunning, line_finished, node_pending.
  rewrite Hr, Hs, Hc.
  assert (Hlen : truthy_num (str_length s) = true).
  { destruct s; [congruence|]. cbn [truthy_num str_length String.length].
    destruct (Z.eqb_spec (Z.of_nat (S (String.length s))) 0); [lia | reflexivity]. }
  assert (Hge : num_ge (toNumber (Some (Num c))) (str_length s) = true)
    by (cbn; now apply Z.leb_le).
  rewrite Hlen, Hge. destruct (String.eqb_spec s ""); [contradiction|].
  destruct (dialogueData st) as [| |res] eqn:Ed; cbn.
  - exists false. repeat split; try discriminate. intros (r & H). discriminate.
  - exists false. repeat split; try discriminate. intros (r & H). discriminate.
  - exists true. rewrite Hr. repeat split. intros _. exists res. reflexivity.
Qed.

Lemma scrolled_line_completed_or_over_witness :
  hasClippedScrollingCompleted (ticks 2 (started one_line))
  = Return false (ticks 2 (started one_line))
  /\ fst (isRunning (ticks 2 (started one_line))) = Some false.
Proof.
  destruct (scrolled_line_completed_or_over (ticks 2 (started one_line)))
    as (b & H1 & H2 & H3).
  - reflexivity.
  - exists "Hi", 2. repeat split; [discriminate | cbn; lia].
  - split; [|reflexivity].
    rewrite H1. destruct b; [|reflexivity].
    destruct (proj1 H3 eq_refl) as (r & Hr). discriminate.
Defined.

(** ** Command parameters *)

Lemma split_space_aux_word (w : string) :
  forall rest cur : string,
    all_chars not_space w = true ->
    split_space_aux (w ++ rest) cur = split_space_aux rest (cur ++ w).
Proof.
  induction w as [|c w IH]; intros rest cur H; cbn.
  - now rewrite append_nil_r.
  - cbn in H. apply andb_true_iff in H. destruct H as [Hc Hw].
    unfold not_space in Hc. apply negb_true_iff in Hc. rewrite Hc.
    rewrite (IH rest _ Hw), append_assoc. reflexivity.
Qed.

(** Words without spaces, written with single spaces, split back into the
    same words. *)
Lemma split_space_join_space (words : list string) :
  words <> [] ->
  Forall (fun w => all_chars not_space w = true) words ->
  split_space (join_space words) = words.
Proof.
  unfold split_space. induction words as [|w rest IH]; intros Hne Hall; [congruence|].
  inversion Hall as [|? ? Hw Hrest]; subst.
  destruct rest as [|w2 rest].
  - cbn [join_space]. rewrite <- (append_nil_r w) at 1.
    rewrite (split_space_aux_word w "" "" Hw). reflexivity.
  - change (join_space (w :: w2 :: rest))
      with (w ++ String " "%char (join_space (w2 :: rest)))%string.
    rewrite (split_space_aux_word w _ "" Hw).
    cbn [split_space_aux append]. rewrite Ascii.eqb_refl.
    rewrite IH; [reflexivity | discriminate | exact Hrest].
Qed.

(** X5: when the parameters captured are those of a command written as its
    name and [n] parameters with single spaces, [commandParametersCount] is
    [n], [getCommandParameter] gives the parameter at each index from 0 and
    the empty string from [n] on and below -1, and at index -1 it gives the
    name of the command. *)
Theorem command_parameters_of_words (st : DialogueTree) (name : string)
    (ps : list string) :
  Forall (fun w => all_chars not_space w = true) (name :: ps) ->
  commandParameters st = Some (split_space (join_space (name :: ps))) ->
  commandParametersCount st = Num (Z.of_nat (List.length ps))
  /\ (forall i : nat, getCommandParameter (Z.of_nat i) st = nth i ps "")
  /\ (forall i : nat, (List.length ps <= i)%nat ->
        getCommandParameter (Z.of_nat i) st = "")
  /\ getCommandParameter (-1) st = name
  /\ (forall z : Z, z < -1 -> getCommandParameter z st = "").
Proof.
  intros Hall Hp. rewrite split_space_join_space in Hp by (discriminate || exact Hall).
  assert (Hi : forall i : nat, getCommandParameter (Z.of_nat i) st = nth i ps "").
  { intros i. unfold getCommandParameter. rewrite Hp. cbn [List.length].
    destruct (Z.leb_spec (Z.of_nat i + 1) (Z.of_nat (S (List.length ps)))).
    - destruct (Z.leb_spec 0 (Z.of_nat i + 1)); [|lia].
      replace (Z.to_nat (Z.of_nat i + 1)) with (S i) by lia. reflexivity.
    - symmetry. apply nth_overflow. lia. }
  split; [|split; [exact Hi | split; [|split]]].
  - unfold commandParametersCount. rewrite Hp. cbn [List.length].
    destruct (Z.ltb_spec 1 (Z.of_nat (S (List.length ps)))).
    + f_equal. lia.
    + destruct ps; [reflexivity | cbn [List.length] in *; lia].
  - intros i Hle. rewrite Hi. apply nth_overflow. exact Hle.
  - unfold getCommandParameter. rewrite Hp. cbn [List.length].
    destruct (Z.leb_spec (-1 + 1) (Z.of_nat (S (List.length ps)))); [|lia].
    reflexivity.
  - intros z Hz. unfold getCommandParameter. rewrite Hp. cbn [List.length].
    destruct (Z.leb_spec (z + 1) (Z.of_nat (S (List.length ps)))); [|reflexivity].
    destruct (Z.leb_spec 0 (z + 1)); [lia | reflexivity].
Qed.

(** The command "shake 3" of the sample script, once caught. *)
Lemma command_parameters_of_words_witness :
  commandParametersCount
    (state_of (isCommandCalled "shake" (ticks 2 (started shake_script)))) = Num 1
  /\ getCommandParameter 0
       (state_of (isCommandCalled "shake" (ticks 2 (started shake_script)))) = "3".
Proof.
  destruct (command_parameters_of_words
              (state_of (isCommandCalled "shake" (ticks 2 (started shake_script))))
              "shake" ["3"]) as (H1 & H2 & _).
  - repeat constructor.
  - reflexivity.
  - split; [exact H1 | exact (H2 0%nat)].
Defined.

(** ** Selecting by index and reading candidates *)

Lemma normalizedOptionIndex_num (st : DialogueTree) (opts : list string) (j : Z) :
  options st = Some opts -> opts <> [] ->
  _normalizedOptionIndex (Some (Num j)) st
  = Return (Some (Num (normalized (Z.of_nat (List.length opts)) j))) st.
Proof.
  intros Ho Hne. unfold _normalizedOptionIndex, normalized. rewrite Ho.
  assert (0 < Z.of_nat (List.length opts)) by (destruct opts; [congruence | cbn; lia]).
  cbn [toNumber num_ge num_sub num_lt].
  destruct (Z.leb_spec (Z.of_nat (List.length opts)) j); cbn [toNumber num_lt].
  - destruct (Z.ltb_spec (Z.of_nat (List.length opts) - 1) 0); [lia|].
    do 3 f_equal. lia.
  - destruct (Z.ltb_spec j 0); do 3 f_equal; lia.
Qed.

(** X6: while a choice with at least one candidate is current,
    [selectOption] does not read its argument: whatever index is asked, it
    keeps the stored index when that is in range, moves it into
    [0, count - 1] otherwise (so the -1 of a fresh choice becomes 0), and
    marks the selection as changed. *)
Theorem selectOption_ignores_its_argument (st : DialogueTree) (opts : list string)
    (i : Z) :
  choosing opts st -> opts <> [] ->
  selectedOption st = Some (Num i) ->
  exists st',
    (forall optionIndex, selectOption optionIndex st = Return tt st')
    /\ selectedOption st' = Some (Num (normalized (Z.of_nat (List.length opts)) i))
    /\ (0 <= i < Z.of_nat (List.length opts) -> selectedOption st' = Some (Num i))
    /\ selectedOptionUpdated st' = Some true
    /\ choosing opts st'.
Proof.
  intros [Hd Ho] Hne Hi. unfold selectOption, data_select. rewrite Hd, Hi.
  rewrite (normalizedOptionIndex_num st opts i Ho Hne).
  eexists. split; [intros; reflexivity|]. cbn.
  split; [reflexivity|]. split; [|split; [reflexivity | split; assumption]].
  intros Hr. unfold normalized. do 2 f_equal. lia.
Qed.

Lemma selectOption_ignores_its_argument_witness :
  selectedOption (state_of (selectOption (Some (Num 1)) (started choice)))
  = Some (Num 0).
Proof.
  destruct (selectOption_ignores_its_argument (started choice) ["Yes"; "No"] (-1))
    as (st' & H1 & H2 & _).
  - split; reflexivity.
  - discriminate.
  - reflexivity.
  - rewrite H1. exact H2.
Defined.

(** X7: [getLineOption] returns the empty array when there is no candidate,
    and otherwise a candidate for every integer index: the one at the index
    when it is in range, the last one for an index past the end and the
    first one for a negative index. *)
Theorem getLineOption_clamps (st : DialogueTree) (opts : list string) :
  options st = Some opts ->
  (opts = [] -> forall i, getLineOption i st = Return NoOptions st)
  /\ (opts <> [] -> forall z : Z,
        exists s, getLineOption (Some (Num z)) st = Return (OptionString s) st
                  /\ nth_error opts
                       (Z.to_nat (normalized (Z.of_nat (List.length opts)) z))
                     = Some s).
Proof.
  intros Ho. split.
  - intros -> i. unfold getLineOption. rewrite Ho. reflexivity.
  - intros Hne z. unfold getLineOption. rewrite Ho.
    assert (Hlen : 0 < Z.of_nat (List.length opts))
      by (destruct opts; [congruence | cbn; lia]).
    replace (truthy_num (Num (Z.of_nat (List.length opts)))) with true
      by (cbn; destruct (Z.eqb_spec (Z.of_nat (List.length opts)) 0);
          [lia | reflexivity]).
    cbn [negb]. rewrite (normalizedOptionIndex_num st opts z Ho Hne).
    unfold array_get.
    set (k := normalized (Z.of_nat (List.length opts)) z).
    assert (Hk : 0 <= k < Z.of_nat (List.length opts)) by (unfold k, normalized; lia).
    destruct (Z.ltb_spec k 0); [lia|].
    destruct (nth_error opts (Z.to_nat k)) as [s|] eqn:E.
    + exists s. split; reflexivity.
    + apply nth_error_None in E. lia.
Qed.

Lemma getLineOption_clamps_witness :
  getLineOption (Some (Num 7)) (started choice)
  = Return (OptionString "No") (started choice)
  /\ getLineOption (Some (Num (-3))) (started choice)
     = Return (OptionString "Yes") (started choice).
Proof.
  destruct (getLineOption_clamps (started choice) ["Yes"; "No"]) as [_ H];
    [reflexivity|].
  split.
  - destruct (H ltac:(discriminate) 7) as (s & H1 & H2). rewrite H1.
    cbn in H2. injection H2 as <-. reflexivity.
  - destruct (H ltac:(discriminate) (-3)) as (s & H1 & H2). rewrite H1.
    cbn in H2. injection H2 as <-. reflexivity.
Defined.

(** ** The option list as text *)

Lemma blankLines_one_line (s : string) :
  forall seen : bool,
    all_chars not_terminator s = true ->
    blankLines s seen
    = if seen || negb (String.eqb s "") then "  " else " ".
Proof.
  induction s as [|c s IH]; intros seen H; cbn.
  - now rewrite orb_false_r.
  - cbn in H. apply andb_true_iff in H. destruct H as [Hc Hs].
    unfold not_terminator in Hc. apply negb_true_iff in Hc. rewrite Hc.
    rewrite (IH true Hs). now rewrite orb_true_r.
Qed.

Lemma concat_nil_cons (x : string) (l : list string) :
  String.concat "" (x :: l) = (x ++ String.concat "" l)%string.
Proof. destruct l; cbn; [now rewrite append_nil_r | reflexivity]. Qed.

Lemma appendOptions_concat (cursor : string) (addNewLine : bool)
    (selected : option number) (opts : list string) :
  blankCursor cursor = "  " ->
  forall (index : nat) (textResult : string),
    appendOptions cursor addNewLine selected index opts textResult
    = (textResult
       ++ String.concat ""
            (map (optionPiece cursor addNewLine selected)
               (combine (seq index (List.length opts)) opts)))%string.
Proof.
  intros Hb. induction opts as [|o opts IH]; intros index textResult.
  - cbn. now rewrite append_nil_r.
  - cbn [appendOptions List.length seq combine map]. rewrite IH, concat_nil_cons.
    unfold optionPiece at 2. cbn [fst snd]. rewrite Hb.
    rewrite <- !append_assoc. f_equal.
    destruct addNewLine, (strict_eq_num (Some (Num (Z.of_nat index))) selected);
      rewrite ?append_nil_r, ?append_assoc; reflexivity.
Qed.

(** X8: with a cursor that is one line and not empty, [getLineOptionsText]
    writes the candidates in order, the selected one after the cursor and
    every other one after exactly two spaces, whatever the width of the
    cursor, each followed by a line feed when asked for; with no candidate
    it returns the empty string. *)
Theorem getLineOptionsText_layout (st : DialogueTree) (opts : list string)
    (cursor : string) (addNewLine : bool) :
  options st = Some opts ->
  cursor <> "" ->
  all_chars not_terminator cursor = true ->
  getLineOptionsText cursor addNewLine st
  = Return (String.concat ""
              (map (optionPiece cursor addNewLine (selectedOption st))
                 (combine (seq 0 (List.length opts)) opts))) st.
Proof.
  intros Ho Hne Hc. unfold getLineOptionsText. rewrite Ho.
  destruct opts as [|o opts]; [reflexivity|].
  replace (truthy_num (Num (Z.of_nat (List.length (o :: opts))))) with true
    by (cbn [List.length truthy_num];
        destruct (Z.eqb_spec (Z.of_nat (S (List.length opts))) 0);
        [lia | reflexivity]).
  cbn [negb]. rewrite appendOptions_concat; [reflexivity|].
  unfold blankCursor. rewrite (blankLines_one_line cursor false Hc).
  destruct (String.eqb_spec cursor ""); [contradiction | reflexivity].
Qed.

(** The choice between "Yes" and "No" with the first candidate selected and
    a cursor of three characters. *)
Lemma getLineOptionsText_layout_witness :
  getLineOptionsTextVertical "-> " (snd (hasSelectedOptionChanged (started choice)))
  = Return ("-> Yes" ++ newline ++ "  No" ++ newline)%string
      (snd (hasSelectedOptionChanged (started choice))).
Proof.
  unfold getLineOptionsTextVertical.
  rewrite (getLineOptionsText_layout _ ["Yes"; "No"]); try reflexivity.
  discriminate.
Defined.

(** ** What a line advance keeps *)




(** ** Starting a known branch *)




(** ** Timers of an earlier session *)






(** ** While scrolling is paused *)

Lemma goToNextDialogueLine_unfold (st : DialogueTree) :
  exists fuel, goToNextDialogueLine st = goToNextDialogueLine_fuel (S fuel) st.
Proof.
  unfold goToNextDialogueLine, fuel_for.
  destruct (dialogue st) as [g|].
  - exists (S (2 * List.length g)). f_equal. lia.
  - exists 1%nat. reflexivity.
Qed.

(** X11: while the pause flag is set, no sequence of scroll ticks,
    completions, line advances and polls changes anything, and every poll
    answers false: only the timer of the wait, or a new start, ends the
    pause. *)
Theorem pause_freezes_the_line (st : DialogueTree) (ops : list CallerOp) :
  truthy (pauseScrolling st) = true ->
  callerOps ops st = Some st
  /\ (forall command, isCommandCalled command st = Return false st).
Proof.
  intros Hp.
  assert (Hpoll : forall command, isCommandCalled command st = Return false st).
  { intros command. unfold isCommandCalled. rewrite Hp.
    destruct (commandCalls st); reflexivity. }
  split; [|exact Hpoll].
  induction ops as [|op ops IH]; [reflexivity|].
  cbn [callerOps].
  assert (Hop : callerOp op st = Some st).
  { destruct op as [| | |c]; cbn [callerOp].
    - unfold scrollClippedText. rewrite Hp. reflexivity.
    - unfold completeClippedTextScrolling. rewrite Hp. reflexivity.
    - destruct (goToNextDialogueLine_unfold st) as (fuel & ->).
      cbn [goToNextDialogueLine_fuel]. rewrite Hp. reflexivity.
    - rewrite Hpoll. reflexivity. }
  rewrite Hop. exact IH.
Qed.

(** After the wait of the sample script has been hit, three operations of
    the caller leave the state as it is. *)
Lemma pause_freezes_the_line_witness :
  callerOps [OpScroll; OpAdvance; OpPoll "wait"]
    (state_of (isCommandCalled "shake" (ticks 3 (started wait_script))))
  = Some (state_of (isCommandCalled "shake" (ticks 3 (started wait_script)))).
Proof.
  refine (proj1 (pause_freezes_the_line _ _ _)).
  vm_compute. reflexivity.
Defined.

(** ** A choice becomes current *)

(** X12: when a running, unpaused session advances onto an options result,
    the result stays current with its candidates recorded and counted,
    nothing is selected (index -1) and the selection is marked as changed,
    while the line, the cursor and the command queue stay as they were; a
    further advance does not leave the choice: it resets the selection to -1
    again. *)
Theorem advance_onto_choice (st : DialogueTree) (opts : list string) :
  truthy (pauseScrolling st) = false ->
  truthy (dialogueIsRunning st) = true ->
  dialogueData st = Obj (OptionsResult opts) ->
  exists st',
    goToNextDialogueLine st = Some (Return tt st')
    /\ choosing opts st'
    /\ dialogueDataType st' = Some "options"
    /\ selectedOption st' = Some (Num (-1))
    /\ selectedOptionUpdated st' = Some true
    /\ (opts <> [] ->
        getLineOptionsCount st' = Return (Some (Num (Z.of_nat (List.length opts)))) st')
    /\ dialogueText st' = dialogueText st
    /\ clipTextEnd st' = clipTextEnd st
    /\ commandCalls st' = commandCalls st
    /\ goToNextDialogueLine st' = Some (Return tt st').
Proof.
  intros Hp Hr Hd.
  assert (Hstep : forall s : DialogueTree,
            truthy (pauseScrolling s) = false -> truthy (dialogueIsRunning s) = true ->
            dialogueData s = Obj (OptionsResult opts) ->
            goToNextDialogueLine s
            = Some (Return tt
                      (set_selectedOptionUpdated (Some true)
                         (set_options (Some opts)
                            (set_optionsCount (Some (Num (Z.of_nat (List.length opts))))
                               (set_dialogueDataType (Some "options")
                                  (set_selectedOptionUpdated (Some false)
                                     (set_selectedOption (Some (Num (-1)))
                                        (set_optionsCount (Some (Num 0)) s))))))))).
  { intros s Hps Hrs Hds. destruct (goToNextDialogueLine_unfold s) as (fuel & ->).
    cbn [goToNextDialogueLine_fuel]. rewrite Hps, Hrs. cbn [orb negb]. fields.
    rewrite Hds. cbv zeta. fields. rewrite Hds. reflexivity. }
  rewrite (Hstep st Hp Hr Hd). eexists. split; [reflexivity|].
  unfold choosing. fields.
  repeat split; try assumption.
  - intros Hne. unfold getLineOptionsCount. fields.
    replace (truthy_num (Num (Z.of_nat (List.length opts)))) with true; [reflexivity|].
    destruct opts; [congruence|]. cbn.
    destruct (Z.eqb_spec (Z.pos (Pos.of_succ_nat (List.length opts))) 0);
      [lia | reflexivity].
  - rewrite Hstep by assumption. reflexivity.
Qed.

(** The choice of the sample script once "No" has been selected: an advance
    keeps the choice and drops the selection. *)
Lemma advance_onto_choice_witness :
  exists st',
    goToNextDialogueLine
      (state_of (selectNextOption (snd (hasSelectedOptionChanged (started choice)))))
    = Some (Return tt st')
    /\ selectedOption st' = Some (Num (-1)).
Proof.
  destruct (advance_onto_choice
              (state_of (selectNextOption
                           (snd (hasSelectedOptionChanged (started choice)))))
              ["Yes"; "No"]) as (st' & H1 & _ & _ & H4 & _).
  - vm_compute. reflexivity.
  - vm_compute. reflexivity.
  - vm_compute. reflexivity.
  - exists st'. split; assumption.
Defined.

(** ** Confirming a selection *)

(** X13: while a node is held, [confirmSelectOption] leaves the state as it
    is unless that node is a choice with a selection that has been read: it
    does nothing on a text or command result, while the selection is marked
    as changed, and while the stored index is -1.  So a choice that has just
    become current cannot be confirmed, and after [selectNextOption] or
    [selectPreviousOption] a confirmation is ignored until
    [hasSelectedOptionChanged] has been called. *)
Theorem confirmSelectOption_needs_read_selection (I : Interpreter)
    (st : DialogueTree) (opts : list string) (i : Z) :
  (not_choosing st -> confirmSelectOption st = Some (Return tt st))
  /\ (node_pending st -> truthy (selectedOptionUpdated st) = true ->
      confirmSelectOption st = Some (Return tt st))
  /\ (node_pending st -> selectedOption st = Some (Num (-1)) ->
      confirmSelectOption st = Some (Return tt st))
  /\ (choosing opts st -> selectedOption st = Some (Num i) ->
      confirmSelectOption (state_of (selectNextOption st))
      = Some (Return tt (state_of (selectNextOption st)))
      /\ confirmSelectOption (state_of (selectPreviousOption st))
         = Some (Return tt (state_of (selectPreviousOption st)))).
Proof.
  assert (Hdirty : forall s, node_pending s -> truthy (selectedOptionUpdated s) = true ->
                             confirmSelectOption s = Some (Return tt s)).
  { intros s (r & Hd) Hu. unfold confirmSelectOption. rewrite Hd, Hu.
    destruct r; reflexivity. }
  split; [|split; [exact (Hdirty st) | split]].
  - intros (r & Hd & Hr). unfold confirmSelectOption. rewrite Hd.
    destruct r; [reflexivity | contradiction | reflexivity].
  - intros (r & Hd) Hs. unfold confirmSelectOption. rewrite Hd, Hs.
    destruct r; try reflexivity. cbn. now rewrite andb_false_r.
  - intros Hc Hi.
    change (selectNextOption st) with (selectStep 1 st).
    change (selectPreviousOption st) with (selectStep (-1) st).
    destruct (selectStep_choosing 1 opts st i (or_introl eq_refl) Hc Hi)
      as (sn & En & [Hdn _] & _ & Hun).
    destruct (selectStep_choosing (-1) opts st i (or_intror eq_refl) Hc Hi)
      as (sp & Ep & [Hdp _] & _ & Hup).
    rewrite En, Ep. cbn [state_of]. split; apply Hdirty.
    + eexists; exact Hdn.
    + now rewrite Hun.
    + eexists; exact Hdp.
    + now rewrite Hup.
Qed.

Lemma confirmSelectOption_needs_read_selection_witness :
  confirmSelectOption (started choice) = Some (Return tt (started choice))
  /\ confirmSelectOption
       (state_of (selectNextOption (snd (hasSelectedOptionChanged (started choice)))))
     = Some (Return tt
               (state_of (selectNextOption
                            (snd (hasSelectedOptionChanged (started choice)))))).
Proof.
  destruct (confirmSelectOption_needs_read_selection closedInterpreter
              (started choice) ["Yes"; "No"] 0) as (_ & H & _).
  destruct (confirmSelectOption_needs_read_selection closedInterpreter
              (snd (hasSelectedOptionChanged (started choice))) ["Yes"; "No"] 0)
    as (_ & _ & _ & H').
  assert (Hn : node_pending (started choice))
    by (eexists; vm_compute; reflexivity).
  assert (Hu : truthy (selectedOptionUpdated (started choice)) = true)
    by (vm_compute; reflexivity).
  assert (Hc : choosing ["Yes"; "No"] (snd (hasSelectedOptionChanged (started choice))))
    by (split; vm_compute; reflexivity).
  assert (Hi : selectedOption (snd (hasSelectedOptionChanged (started choice)))
               = Some (Num 0)) by (vm_compute; reflexivity).
  split; [exact (H Hn Hu) | exact (proj1 (H' Hc Hi))].
Defined.

(** X14: on a choice whose selection has been read, [confirmSelectOption]
    always returns and never raises, whatever the interpreter does; it
    replaces the command queue by an empty one before anything else; and
    when the selection callback raises, the error is reported and, apart
    from the emptied queue, the session is as before, the choice still
    current. *)
Theorem confirmSelectOption_catches (I : Interpreter) (st : DialogueTree)
    (opts : list string) (i : Z) :
  choosing opts st ->
  truthy (selectedOptionUpdated st) = false ->
  selectedOption st = Some (Num i) -> i <> -1 ->
  (exists st', confirmSelectOption st = Some (Return tt st'))
  /\ (forall e, result_select opts (Some (Num i)) (dialogue st) = inl e ->
      exists st',
        confirmSelectOption st = Some (Return tt st')
        /\ commandCalls st' = Some []
        /\ console st' = console st ++ [Reported e]
        /\ choosing opts st'
        /\ selectedOption st' = Some (Num i)
        /\ dialogueIsRunning st' = dialogueIsRunning st
        /\ dialogueText st' = dialogueText st
        /\ clipTextEnd st' = clipTextEnd st).
Proof.
  intros [Hd Ho] Hu Hi Hne.
  assert (Hcond : negb (truthy (selectedOptionUpdated st))
                  && negb (strict_eq_num (selectedOption st) (Some (Num (-1)))) = true).
  { rewrite Hu, Hi. cbn. destruct (Z.eqb_spec i (-1)); [contradiction | reflexivity]. }
  unfold confirmSelectOption. rewrite Hd, Hcond. fields. rewrite Hi.
  split.
  - destruct (result_select opts (Some (Num i)) (dialogue st)) as [e|g];
      [eexists; reflexivity|].
    destruct (pullNext _) as [[] st2|e st2]; [|eexists; reflexivity].
    destruct (goToNextDialogueLine_returns st2) as (o & ->).
    destruct o as [[] st3|e st3]; eexists; reflexivity.
  - intros e He. rewrite He. eexists. split; [reflexivity|].
    unfold console_error, choosing. fields. repeat split; assumption.
Qed.

Lemma confirmSelectOption_catches_witness :
  exists st',
    confirmSelectOption (snd (hasSelectedOptionChanged (started choice)))
    = Some (Return tt st')
    /\ console st' = [Reported UnknownNode].
Proof.
  destruct (confirmSelectOption_catches closedInterpreter
              (snd (hasSelectedOptionChanged (started choice))) ["Yes"; "No"] 0)
    as (_ & H).
  - split; vm_compute; reflexivity.
  - vm_compute. reflexivity.
  - vm_compute. reflexivity.
  - discriminate.
  - destruct (H UnknownNode eq_refl) as (st' & H1 & _ & H3 & _).
    exists st'. split; [exact H1 | exact H3].
Defined.

(** ** A command written inside a line *)

Lemma runner_run_known (nodeId : string) (nodes : list (string * Generator))
    (g : Generator) :
  runner_run nodeId nodes = Some g ->
  existsb (fun node => String.eqb (fst node) nodeId) nodes = true.
Proof.
  induction nodes as [|[k g'] nodes IH]; cbn; [discriminate|].
  destruct (String.eqb k nodeId); [reflexivity | exact IH].
Qed.

Lemma pullNext_pulled (g : Generator) (st : DialogueTree) :
  dialogue st = Some g -> pullNext st = Return tt (pulled g st).
Proof.
  intros H. unfold pullNext, pulled. rewrite H.
  destruct (generator_next g). reflexivity.
Qed.

(** One call of the line advance on a text result. *)
Lemma goToNextDialogueLine_fuel_text (fuel : nat) (st : DialogueTree)
    (text : string) (data : NodeData) (g : Generator) :
  truthy (pauseScrolling st) = false ->
  truthy (dialogueIsRunning st) = true ->
  dialogueData st = Obj (TextResult text data) ->
  dialogue st = Some g ->
  goToNextDialogueLine_fuel (S fuel) st
  = afterDispatch fuel
      (pulled g
         (textShown (strict_eq_str (dialogueDataType st) "options"
                     || strict_eq_str (dialogueDataType st) "text"
                     || negb (truthy_str (dialogueDataType st)))
            text data (resetSelection st))).
Proof.
  intros Hp Hr Hd Hg. cbn [goToNextDialogueLine_fuel]. rewrite Hp, Hr.
  cbn [orb negb]. cbv zeta.
  change (dialogueData (set_selectedOptionUpdated (Some false)
            (set_selectedOption (Some (Num (-1)))
               (set_optionsCount (Some (Num 0)) st))))
    with (dialogueData st).
  rewrite Hd.
  match goal with
  | |- context [pullNext ?s] => rewrite (pullNext_pulled g s)
  end.
  - reflexivity.
  - destruct (strict_eq_str _ "options" || strict_eq_str _ "text"
              || negb (truthy_str _)); exact Hg.
Qed.

(** One call of the line advance on a command result. *)
Lemma goToNextDialogueLine_fuel_command (fuel : nat) (st : DialogueTree)
    (text : string) (calls : list CommandCall) (s : string) (g : Generator) :
  truthy (pauseScrolling st) = false ->
  truthy (dialogueIsRunning st) = true ->
  dialogueData st = Obj (CommandResult text) ->
  commandCalls st = Some calls ->
  dialogueText st = Some s ->
  dialogue st = Some g ->
  goToNextDialogueLine_fuel (S fuel) st
  = match goToNextDialogueLine_fuel fuel
            (pulled g
               (set_commandCalls (Some (calls ++ [queuedCall text calls s]))
                  (set_dialogueDataType (Some "command") (resetSelection st))))
    with
    | Some (Return _ st3) => afterDispatch fuel st3
    | Some (Throw e st3) => Some (Throw e st3)
    | None => None
    end.
Proof.
  intros Hp Hr Hd Hq Hs Hg. cbn [goToNextDialogueLine_fuel]. rewrite Hp, Hr.
  cbn [orb negb]. cbv zeta.
  change (dialogueData (set_selectedOptionUpdated (Some false)
            (set_selectedOption (Some (Num (-1)))
               (set_optionsCount (Some (Num 0)) st))))
    with (dialogueData st).
  rewrite Hd.
  match goal with
  | |- context [commandCalls ?s1] =>
      change (commandCalls s1) with (commandCalls st);
      change (dialogueText s1) with (dialogueText st)
  end.
  rewrite Hq, Hs.
  match goal with
  | |- context [pullNext ?s1] => rewrite (pullNext_pulled g s1 Hg)
  end.
  unfold afterDispatch, queuedCall, resetSelection.
  destruct (goToNextDialogueLine_fuel fuel _) as [[[] st3|e st3]|]; reflexivity.
Qed.

(** X15: when the sequence of a branch is a text, a command and a text,
    followed by anything but a command, [startFrom] shows one line made of
    the two texts, with the command queued at the length of the first text,
    its name being the first word of the command; the cursor is at 0, the
    branch metadata are those of the second text, and the result after it is
    held as pending. *)
Theorem startFrom_inline_command (nodeId : string) (st : DialogueTree)
    (a b c : string) (d d' : NodeData) (rest : Generator) :
  runner_run nodeId (yarnNodes (runner st))
  = Some (TextResult a d :: CommandResult c :: TextResult b d' :: rest) ->
  starts_without_command rest ->
  exists st',
    startFrom nodeId st = Some (Return tt st')
    /\ dialogueText st' = Some (a ++ b)%string
    /\ commandCalls st'
       = Some [mkCommandCall (hd "" (split_space c)) (split_space c)
                 (Num (Z.of_nat (String.length a)))]
    /\ clipTextEnd st' = Some (Num 0)
    /\ dialogueDataType st' = Some "text"
    /\ dialogueBranchTitle st' = Some (title d')
    /\ dialogueBranchBody st' = Some (body d')
    /\ dialogueBranchTags st' = Some (tags d')
    /\ dialogueData st' = match rest with
                          | [] => Undefined
                          | r :: _ => Obj r
                          end
    /\ dialogue st' = Some (tl rest).
Proof.
  intros Hg Hrest.
  unfold startFrom, hasDialogueBranch.
  rewrite (runner_run_known _ _ _ Hg). cbn [negb].
  match goal with
  | |- context [runner_run nodeId (yarnNodes (runner ?s))] =>
      change (runner s) with (runner st)
  end.
  rewrite Hg.
  match goal with
  | |- context [pullNext ?s] =>
      rewrite (pullNext_pulled
                 (TextResult a d :: CommandResult c :: TextResult b d' :: rest) s
                 eq_refl)
  end.
  unfold goToNextDialogueLine.
  match goal with
  | |- context [fuel_for ?s] =>
      replace (fuel_for s) with (S (S (S (2 * List.length rest + 3))))
        by (unfold fuel_for; cbn [dialogue pulled set_dialogueIsRunning set_dialogueData
                                  set_dialogue generator_next snd List.length]; lia)
  end.
  (* the first text *)
  rewrite (goToNextDialogueLine_fuel_text _ _ a d
             (CommandResult c :: TextResult b d' :: rest)); try reflexivity.
  unfold afterDispatch at 1.
  match goal with
  | |- context [isCommandRef (dialogueData ?s)] =>
      change (isCommandRef (dialogueData s)) with true
  end.
  cbv iota.
  (* the command *)
  rewrite (goToNextDialogueLine_fuel_command _ _ c [] a (TextResult b d' :: rest));
    try reflexivity.
  (* the second text *)
  rewrite (goToNextDialogueLine_fuel_text _ _ b d' rest); try reflexivity.
  assert (Hlast : forall k (s : DialogueTree),
            dialogueData s = match rest with [] => Undefined | r :: _ => Obj r end ->
            afterDispatch k s = Some (Return tt s)).
  { intros k s Hd. unfold afterDispatch. rewrite Hd.
    destruct rest as [|[| |] rest']; try reflexivity. contradiction. }
  rewrite Hlast by (destruct rest; reflexivity).
  rewrite Hlast by (destruct rest; reflexivity).
  eexists. split; [reflexivity|].
  cbn [dialogueText commandCalls clipTextEnd dialogueDataType dialogueBranchTitle
       dialogueBranchBody dialogueBranchTags dialogueData dialogue pulled textShown
       resetSelection set_dialogueData set_dialogue set_dialogueBranchBody
       set_dialogueBranchTitle set_dialogueBranchTags set_dialogueDataType
       set_dialogueText set_commandCalls set_commandCallsRef set_clipTextEnd
       set_selectedOptionUpdated set_selectedOption set_optionsCount
       set_dialogueIsRunning set_pauseScrolling set_commandParameters
       set_options set_tagParameters
       strict_eq_str truthy_str String.eqb Ascii.eqb Bool.eqb orb negb andb
       queuedCall offsetTime map List.last app str_length num_add].
  unfold queuedCall. cbn [offsetTime map List.last str_length num_add].
  rewrite Z.add_0_r.
  destruct rest; repeat split.
Qed.

(** The sample script with the command "shake 3" after "He". *)
Lemma startFrom_inline_command_witness :
  exists st',
    startFrom "Start" (initial shake_script) = Some (Return tt st')
    /\ dialogueText st' = Some "Hello"
    /\ commandCalls st' = Some [mkCommandCall "shake" ["shake"; "3"] (Num 2)].
Proof.
  destruct (startFrom_inline_command "Start" (initial shake_script)
              "He" "llo" "shake 3" plain_data plain_data [])
    as (st' & H1 & H2 & H3 & _).
  - reflexivity.
  - exact I.
  - exists st'. split; [exact H1|]. split; [exact H2 | exact H3].
Defined.

(** ** What a poll takes from the queue *)

Lemma scanCommandCalls_no_match (command : string) (clip : option number)
    (s : string) (calls : list CommandCall) :
  forall (index : nat) (st : DialogueTree),
    existsb (matches command clip) calls = false ->
    returned (scanCommandCalls command clip (Some s) index calls st) = Some false
    /\ commandCalls (state_of (scanCommandCalls command clip (Some s) index calls st))
       = commandCalls st
    /\ commandParameters
         (state_of (scanCommandCalls command clip (Some s) index calls st))
       = commandParameters st.
Proof.
  induction calls as [|call rest IH]; intros index st H; [repeat split|].
  cbn [existsb] in H. apply orb_false_iff in H. destruct H as [Hc Hrest].
  rewrite scanCommandCalls_cons. unfold matches in Hc.
  destruct (eligible clip call); cbn [andb] in Hc.
  - rewrite Hc.
    destruct (IH (S index) (waitStep clip s index call st) Hrest) as (I1 & I2 & I3).
    destruct (waitStep_keeps clip s index call st) as (K1 & _).
    split; [exact I1|]. split; [congruence|].
    rewrite I3. unfold waitStep.
    destruct (String.eqb (cmd call) "wait"
              && negb (strict_eq_num clip (Some (str_length s)))); reflexivity.
  - exact (IH (S index) st Hrest).
Qed.

Lemma scanCommandCalls_first_match (command : string) (clip : option number)
    (s : string) (call : CommandCall) (post : list CommandCall)
    (pre : list CommandCall) :
  forall (index : nat) (st : DialogueTree),
    (forall c, In c pre -> matches command clip c = false) ->
    matches command clip call = true ->
    let o := scanCommandCalls command clip (Some s) index (pre ++ call :: post) st in
    returned o = Some true
    /\ commandCalls (state_of o)
       = option_map (splice1 (index + List.length pre)) (commandCalls st)
    /\ commandParameters (state_of o) = Some (params call).
Proof.
  induction pre as [|c pre IH]; intros index st Hpre Hm o; subst o.
  - cbn [app List.length]. rewrite Nat.add_0_r, scanCommandCalls_cons.
    unfold matches in Hm. apply andb_true_iff in Hm. destruct Hm as [He Hc].
    rewrite He, Hc.
    destruct (waitStep_keeps clip s index call st) as (K1 & _).
    cbn. rewrite K1. repeat split.
  - cbn [app List.length]. rewrite scanCommandCalls_cons.
    assert (Hc : matches command clip c = false) by (apply Hpre; left; reflexivity).
    assert (Hpre' : forall c', In c' pre -> matches command clip c' = false)
      by (intros c' H; apply Hpre; right; exact H).
    unfold matches in Hc.
    replace (index + S (List.length pre))%nat with (S index + List.length pre)%nat by lia.
    destruct (waitStep_keeps clip s index c st) as (K1 & _).
    destruct (eligible clip c); cbn [andb] in Hc.
    + rewrite Hc.
      destruct (IH (S index) (waitStep clip s index c st) Hpre' Hm) as (I1 & I2 & I3).
      rewrite K1 in I2. auto.
    + exact (IH (S index) st Hpre' Hm).
Qed.

(** X16: on a line, while scrolling is not paused, [isCommandCalled]
    answers true exactly when some queued entry with the polled name has
    its offset reached; it then removes the first such entry and no other
    one and captures its parameters; when it answers false the queue and the
    parameters captured earlier are left as they were. *)
Theorem isCommandCalled_takes_first_match (st : DialogueTree) (command : string)
    (calls : list CommandCall) (s : string) :
  commandCalls st = Some calls ->
  dialogueText st = Some s ->
  truthy (pauseScrolling st) = false ->
  returned (isCommandCalled command st)
  = Some (existsb (matches command (clipTextEnd st)) calls)
  /\ (existsb (matches command (clipTextEnd st)) calls = false ->
      commandCalls (state_of (isCommandCalled command st)) = Some calls
      /\ commandParameters (state_of (isCommandCalled command st))
         = commandParameters st)
  /\ (forall pre call post,
        calls = pre ++ call :: post ->
        (forall c, In c pre -> matches command (clipTextEnd st) c = false) ->
        matches command (clipTextEnd st) call = true ->
        commandCalls (state_of (isCommandCalled command st)) = Some (pre ++ post)
        /\ commandParameters (state_of (isCommandCalled command st))
           = Some (params call)).
Proof.
  intros Hq Hs Hp. unfold isCommandCalled. rewrite Hq, Hp, Hs.
  split; [|split].
  - apply scanCommandCalls_spec.
  - intros Hno.
    destruct (scanCommandCalls_no_match command (clipTextEnd st) s calls 0 st Hno)
      as (_ & N2 & N3).
    rewrite N2, N3. split; [exact Hq | reflexivity].
  - intros pre call post -> Hpre Hm.
    destruct (scanCommandCalls_first_match command (clipTextEnd st) s call post pre
                0 st Hpre Hm) as (_ & F2 & F3).
    cbn [Nat.add] in F2. rewrite F2, F3, Hq. cbn [option_map].
    rewrite splice1_middle. split; reflexivity.
Qed.

Lemma isCommandCalled_takes_first_match_witness :
  returned (isCommandCalled "shake" (ticks 2 (started shake_script))) = Some true
  /\ commandCalls (state_of (isCommandCalled "shake" (ticks 2 (started shake_script))))
     = Some [].
Proof.
  destruct (isCommandCalled_takes_first_match (ticks 2 (started shake_script)) "shake"
              [mkCommandCall "shake" ["shake"; "3"] (Num 2)] "Hello")
    as (H1 & _ & H3); try (vm_compute; reflexivity).
  split; [exact H1|].
  destruct (H3 [] (mkCommandCall "shake" ["shake"; "3"] (Num 2)) []) as [H4 _];
    [reflexivity | intros c [] | reflexivity | exact H4].
Defined.

(** ** Branch tags *)

Lemma all_chars_append (p : ascii -> bool) (a b : string) :
  all_chars p (a ++ b) = all_chars p a && all_chars p b.
Proof.
  induction a as [|x a IH]; cbn; [reflexivity|].
  rewrite IH. now rewrite andb_assoc.
Qed.

Lemma span_run (p : ascii -> bool) (a : string) :
  forall (c : ascii) (rest : string),
    all_chars p a = true -> p c = false ->
    span p (a ++ String c rest) = (a, String c rest).
Proof.
  induction a as [|x a IH]; intros c rest Ha Hc; cbn.
  - now rewrite Hc.
  - cbn in Ha. apply andb_true_iff in Ha. destruct Ha as [Hx Ha].
    rewrite Hx, (IH c rest Ha Hc). reflexivity.
Qed.

Lemma span_all (p : ascii -> bool) (a : string) :
  all_chars p a = true -> span p a = (a, "").
Proof.
  induction a as [|x a IH]; cbn; [reflexivity|].
  intros Ha. apply andb_true_iff in Ha. destruct Ha as [Hx Ha].
  now rewrite Hx, (IH Ha).
Qed.

(** A tag written as a name, an opening parenthesis, arguments and a closing
    parenthesis is matched as that name and those arguments. *)
Lemma matchTag_call (name args tail : string) :
  name <> "" -> all_chars not_open name = true ->
  args <> "" -> all_chars not_close args = true ->
  matchTag (name ++ String "("%char (args ++ String ")"%char tail))
  = Some (name, args).
Proof.
  intros Hn Hno Ha Hnc.
  assert (H : matchTagHere (name ++ String "("%char (args ++ String ")"%char tail))
              = Some (name, args)).
  { unfold matchTagHere. rewrite (span_run not_open name) by (assumption || reflexivity).
    destruct name; [congruence|].
    rewrite (span_run not_close args) by (assumption || reflexivity).
    destruct args; [congruence | reflexivity]. }
  destruct (name ++ String "("%char (args ++ String ")"%char tail))%string;
    cbn [matchTag]; rewrite H; reflexivity.
Qed.

(** A tag without an opening parenthesis has no parameter list. *)
Lemma matchTag_plain (tag : string) :
  all_chars not_open tag = true -> matchTag tag = None.
Proof.
  intros H. induction tag as [|c tag IH].
  - reflexivity.
  - assert (Hh : matchTagHere (String c tag) = None).
    { unfold matchTagHere. rewrite (span_all not_open _ H). reflexivity. }
    cbn [matchTag]. rewrite Hh. apply IH.
    cbn in H. apply andb_true_iff in H. apply H.
Qed.

Lemma split_comma_aux_word (w : string) :
  forall rest cur : string,
    all_chars not_comma w = true ->
    split_comma_aux (w ++ rest) cur = split_comma_aux rest (cur ++ w).
Proof.
  induction w as [|c w IH]; intros rest cur H; cbn.
  - now rewrite append_nil_r.
  - cbn in H. apply andb_true_iff in H. destruct H as [Hc Hw].
    unfold not_comma in Hc. apply negb_true_iff in Hc. rewrite Hc.
    rewrite (IH rest _ Hw), append_assoc. reflexivity.
Qed.

(** Parameters without commas, written with commas between them, split back
    into the same parameters. *)
Lemma split_comma_join_comma (ps : list string) :
  ps <> [] ->
  Forall (fun w => all_chars not_comma w = true) ps ->
  split_comma (join_comma ps) = ps.
Proof.
  unfold split_comma. induction ps as [|w rest IH]; intros Hne Hall; [congruence|].
  inversion Hall as [|? ? Hw Hrest]; subst.
  destruct rest as [|w2 rest].
  - cbn [join_comma]. rewrite <- (append_nil_r w) at 1.
    rewrite (split_comma_aux_word w "" "" Hw). reflexivity.
  - change (join_comma (w :: w2 :: rest))
      with (w ++ String ","%char (join_comma (w2 :: rest)))%string.
    rewrite (split_comma_aux_word w _ "" Hw).
    cbn [split_comma_aux append]. rewrite Ascii.eqb_refl.
    rewrite IH; [reflexivity | discriminate | exact Hrest].
Qed.

Lemma scanTags_reaches (query : string) (tag : string) (post : list string)
    (found : list string) (pre : list string) :
  forall st : DialogueTree,
    (forall t, In t pre -> tag_name t <> query) ->
    matchTag tag = Some (query, join_comma found) ->
    fst (scanTags query (pre ++ tag :: post) st) = true
    /\ snd (scanTags query (pre ++ tag :: post) st)
       = set_tagParameters (Some (split_comma (join_comma found)))
           (snd (scanTags query (pre ++ tag :: post) st))
    /\ tagParameters (snd (scanTags query (pre ++ tag :: post) st))
       = Some (split_comma (join_comma found))
    /\ dialogueIsRunning (snd (scanTags query (pre ++ tag :: post) st))
       = dialogueIsRunning st.
Proof.
  induction pre as [|t pre IH]; intros st Hpre Hm.
  - cbn [app scanTags]. rewrite Hm, String.eqb_refl. cbn. repeat split.
  - cbn [app scanTags].
    assert (Ht : tag_name t <> query) by (apply Hpre; left; reflexivity).
    assert (Hpre' : forall t', In t' pre -> tag_name t' <> query)
      by (intros t' H; apply Hpre; right; exact H).
    unfold tag_name in Ht.
    destruct (matchTag t) as [[name args]|].
    + destruct (String.eqb_spec name query); [contradiction|].
      destruct (IH (set_tagParameters (Some (split_comma args)) st) Hpre' Hm)
        as (I1 & I2 & I3 & I4).
      repeat split; assumption.
    + destruct (String.eqb_spec t query); [contradiction|].
      destruct (IH (set_tagParameters (Some []) st) Hpre' Hm) as (I1 & I2 & I3 & I4).
      repeat split; assumption.
Qed.

(** X17: on a running session, when the first tag that answers to a name is
    written as that name followed by parameters between parentheses,
    separated by commas, [branchContainsTag] answers true for the name and
    [getTagParameter] then gives each parameter at its index from 0, and the
    empty string from their number on and for a negative index. *)
Theorem branchContainsTag_parameters (st : DialogueTree) (name : string)
    (ps : list string) (pre post : list string) :
  truthy (dialogueIsRunning st) = true ->
  dialogueBranchTags st
  = Some (pre ++ (name ++ String "("%char (join_comma ps ++ ")"))%string :: post) ->
  (forall t, In t pre -> tag_name t <> name) ->
  name <> "" -> all_chars not_open name = true ->
  ps <> [] -> join_comma ps <> "" ->
  Forall (fun p => all_chars not_comma p = true /\ all_chars not_close p = true) ps ->
  returned (branchContainsTag name st) = Some true
  /\ tagParameters (state_of (branchContainsTag name st)) = Some ps
  /\ (forall i : nat,
        getTagParameter (Z.of_nat i) (state_of (branchContainsTag name st))
        = Return (nth i ps "") (state_of (branchContainsTag name st)))
  /\ (forall z : Z, z < 0 ->
        getTagParameter z (state_of (branchContainsTag name st))
        = Return "" (state_of (branchContainsTag name st))).
Proof.
  intros Hr Ht Hpre Hn Hno Hps Hj Hall.
  assert (Hclose : all_chars not_close (join_comma ps) = true).
  { clear - Hall. induction ps as [|p ps IH]; [reflexivity|].
    inversion Hall as [|? ? [_ Hp] Hrest]; subst.
    destruct ps as [|p2 ps]; [exact Hp|].
    change (join_comma (p :: p2 :: ps))
      with (p ++ String ","%char (join_comma (p2 :: ps)))%string.
    rewrite all_chars_append, Hp. cbn [all_chars andb].
    rewrite (IH Hrest). reflexivity. }
  assert (Hcomma : Forall (fun w => all_chars not_comma w = true) ps).
  { eapply Forall_impl; [|exact Hall]. intros p [H _]. exact H. }
  assert (Hm : matchTag (name ++ String "("%char (join_comma ps ++ ")"))
               = Some (name, join_comma ps)).
  { exact (matchTag_call name (join_comma ps) "" Hn Hno Hj Hclose). }
  unfold branchContainsTag. fields. rewrite Hr, Ht.
  replace (truthy_num (Num (Z.of_nat (List.length
             (pre ++ (name ++ String "("%char (join_comma ps ++ ")"))%string :: post)))))
    with true
    by (rewrite length_app; cbn [List.length truthy_num];
        match goal with
        | |- true = negb (?n =? 0) => destruct (Z.eqb_spec n 0); [lia | reflexivity]
        end).
  destruct (scanTags_reaches name _ post ps pre (set_tagParameters (Some []) st)
              Hpre Hm) as (S1 & _ & S3 & S4).
  destruct (scanTags name _ _) as [b st2]. cbn [fst snd] in S1, S3, S4.
  cbn [returned state_of]. subst b.
  rewrite (split_comma_join_comma ps Hps Hcomma) in S3.
  split; [reflexivity|]. split; [exact S3|].
  fields. split.
  - intros i. unfold getTagParameter. rewrite S4, Hr, S3.
    destruct (Z.leb_spec (Z.of_nat i) (Z.of_nat (List.length ps))).
    + destruct (Z.ltb_spec (Z.of_nat i) 0); [lia|]. now rewrite Nat2Z.id.
    + rewrite nth_overflow by lia. reflexivity.
  - intros z Hz. unfold getTagParameter. rewrite S4, Hr, S3.
    destruct (Z.leb_spec z (Z.of_nat (List.length ps))); [|reflexivity].
    destruct (Z.ltb_spec z 0); [reflexivity | lia].
Qed.

Lemma branchContainsTag_parameters_witness :
  returned (branchContainsTag "mood" (started mood_script)) = Some true
  /\ getTagParameter 1 (state_of (branchContainsTag "mood" (started mood_script)))
     = Return "loud" (state_of (branchContainsTag "mood" (started mood_script))).
Proof.
  destruct (branchContainsTag_parameters (started mood_script) "mood"
              ["happy"; "loud"] ["sad"] []) as (H1 & _ & H3 & _).
  - vm_compute. reflexivity.
  - vm_compute. reflexivity.
  - intros t [<-|[]]. vm_compute. discriminate.
  - discriminate.
  - reflexivity.
  - discriminate.
  - vm_compute. discriminate.
  - repeat constructor.
  - split; [exact H1 | exact (H3 1%nat)].
Defined.

Lemma scanTags_plain (query : string) (ts : list string) :
  forall st : DialogueTree,
    Forall (fun t => all_chars not_open t = true) ts ->
    tagParameters st = Some [] ->
    fst (scanTags query ts st) = existsb (fun t => String.eqb t query) ts
    /\ tagParameters (snd (scanTags query ts st)) = Some [].
Proof.
  induction ts as [|t ts IH]; intros st Hall Hp; [split; [reflexivity | exact Hp]|].
  inversion Hall as [|? ? Ht Hrest]; subst.
  cbn [scanTags existsb]. rewrite (matchTag_plain t Ht).
  destruct (String.eqb t query); [split; reflexivity|].
  exact (IH (set_tagParameters (Some []) st) Hrest eq_refl).
Qed.

Lemma scanTags_running (query : string) (ts : list string) :
  forall st : DialogueTree,
    dialogueIsRunning (snd (scanTags query ts st)) = dialogueIsRunning st.
Proof.
  induction ts as [|t ts IH]; intros st; [reflexivity|].
  cbn [scanTags].
  destruct (matchTag t) as [[n a]|];
    match goal with
    | |- context [if ?b then _ else _] => destruct b
    end; try rewrite IH; reflexivity.
Qed.

(** X18: on a running session whose tags have no parenthesis,
    [branchContainsTag] answers whether some tag equals the query, letter
    case included, and leaves no tag parameter, so that [getTagParameter]
    gives the empty string at every index; while no session runs it answers
    false.  In both cases the parameters of an earlier query are gone. *)
Theorem branchContainsTag_plain_tags (st : DialogueTree) (query : string)
    (ts : list string) (i : Z) :
  dialogueBranchTags st = Some ts ->
  Forall (fun t => all_chars not_open t = true) ts ->
  (truthy (dialogueIsRunning st) = true ->
   returned (branchContainsTag query st)
   = Some (existsb (fun t => String.eqb t query) ts)
   /\ tagParameters (state_of (branchContainsTag query st)) = Some []
   /\ returned (getTagParameter i (state_of (branchContainsTag query st))) = Some "")
  /\ (truthy (dialogueIsRunning st) = false ->
      branchContainsTag query st = Return false (set_tagParameters (Some []) st)).
Proof.
  intros Ht Hall. split.
  - intros Hr. unfold branchContainsTag. fields. rewrite Hr, Ht.
    destruct (truthy_num (Num (Z.of_nat (List.length ts)))) eqn:El.
    + destruct (scanTags_plain query ts (set_tagParameters (Some []) st) Hall eq_refl)
        as (S1 & S3).
      pose proof (scanTags_running query ts (set_tagParameters (Some []) st)) as S4.
      change (dialogueIsRunning (set_tagParameters (Some []) st))
        with (dialogueIsRunning st) in S4.
      destruct (scanTags query ts _) as [b st2]. cbn [fst snd] in S1, S3, S4.
      cbn [returned state_of]. subst b. split; [reflexivity|]. split; [exact S3|].
      unfold getTagParameter. rewrite S4, Hr, S3. cbn [List.length].
      destruct (i <=? Z.of_nat 0); [|reflexivity].
      destruct (i <? 0); [reflexivity|]. cbn. destruct (Z.to_nat i); reflexivity.
    + assert (ts = []) as ->.
      { destruct ts; [reflexivity|]. cbn in El.
        destruct (Z.eqb_spec (Z.pos (Pos.of_succ_nat (List.length ts))) 0);
          [lia | discriminate]. }
      cbn. split; [reflexivity|]. split; [reflexivity|].
      unfold getTagParameter. fields. rewrite Hr. cbn [List.length].
      destruct (i <=? Z.of_nat 0); [|reflexivity].
      destruct (i <? 0); [reflexivity|]. cbn. destruct (Z.to_nat i); reflexivity.
  - intros Hr. unfold branchContainsTag. fields. rewrite Hr. reflexivity.
Qed.

Lemma branchContainsTag_plain_tags_witness :
  returned (branchContainsTag "Sad"
              (set_dialogueBranchTags (Some ["sad"; "tired"]) (started mood_script)))
  = Some false.
Proof.
  destruct (branchContainsTag_plain_tags
              (set_dialogueBranchTags (Some ["sad"; "tired"]) (started mood_script))
              "Sad" ["sad"; "tired"] 0) as [H _].
  - reflexivity.
  - repeat constructor.
  - destruct H as (H1 & _); [vm_compute; reflexivity | exact H1].
Defined.

(** X19: on a running session with at least one tag, [getBranchTag] gives
    the tag at an index from 0, the last tag for every index past the end
    and [undefined], not the empty string, for a negative index;
    [getBranchTags] gives the tags in order with commas between them. *)
Theorem getBranchTag_bounds (st : DialogueTree) (ts : list string) :
  truthy (dialogueIsRunning st) = true ->
  dialogueBranchTags st = Some ts -> ts <> [] ->
  (forall i : nat,
     exists t, getBranchTag (Num (Z.of_nat i)) st = Return (Some t) st
               /\ nth_error ts (Nat.min i (List.length ts - 1)) = Some t)
  /\ (forall z : Z, z < 0 -> getBranchTag (Num z) st = Return None st)
  /\ getBranchTags st = Return (join_comma ts) st.
Proof.
  intros Hr Ht Hne.
  assert (Hlen : (0 < List.length ts)%nat) by (destruct ts; [congruence | cbn; lia]).
  assert (Htruthy : truthy_num (Num (Z.of_nat (List.length ts))) = true).
  { cbn. destruct (Z.eqb_spec (Z.of_nat (List.length ts)) 0); [lia | reflexivity]. }
  split; [|split].
  - intros i. unfold getBranchTag. rewrite Hr, Ht, Htruthy.
    cbn [num_sub num_gt num_lt].
    destruct (Z.ltb_spec (Z.of_nat (List.length ts) - 1) (Z.of_nat i)).
    + unfold array_get.
      destruct (Z.ltb_spec (Z.of_nat (List.length ts) - 1) 0); [lia|].
      replace (Z.to_nat (Z.of_nat (List.length ts) - 1))
        with (Nat.min i (List.length ts - 1)) by lia.
      destruct (nth_error ts (Nat.min i (List.length ts - 1))) as [t|] eqn:E.
      * exists t. split; reflexivity.
      * apply nth_error_None in E. lia.
    + unfold array_get. destruct (Z.ltb_spec (Z.of_nat i) 0); [lia|].
      rewrite Nat2Z.id. replace (Nat.min i (List.length ts - 1)) with i by lia.
      destruct (nth_error ts i) as [t|] eqn:E.
      * exists t. split; reflexivity.
      * apply nth_error_None in E. lia.
  - intros z Hz. unfold getBranchTag. rewrite Hr, Ht, Htruthy.
    cbn [num_sub num_gt num_lt].
    destruct (Z.ltb_spec (Z.of_nat (List.length ts) - 1) z); [lia|].
    unfold array_get. destruct (Z.ltb_spec z 0); [reflexivity | lia].
  - unfold getBranchTags. rewrite Hr, Ht. reflexivity.
Qed.

Lemma getBranchTag_bounds_witness :
  getBranchTag (Num 9) (started mood_script)
  = Return (Some "mood(happy,loud)") (started mood_script)
  /\ getBranchTags (started mood_script)
     = Return "sad,mood(happy,loud)" (started mood_script).
Proof.
  destruct (getBranchTag_bounds (started mood_script) ["sad"; "mood(happy,loud)"])
    as (H1 & _ & H3).
  - vm_compute. reflexivity.
  - vm_compute. reflexivity.
  - discriminate.
  - split; [|exact H3].
    destruct (H1 9%nat) as (t & E & Hn). cbn in Hn. injection Hn as <-. exact E.
Defined.

(** ** The visit table *)

Lemma own_property_key (t : string) (entries : list (string * JSValue)) :
  existsb (fun k => String.eqb k t) (map fst entries) = true
  <-> In t (map fst entries).
Proof.
  rewrite existsb_exists. split.
  - intros (k & Hin & He). apply String.eqb_eq in He. now subst.
  - intros H. exists t. split; [exact H | apply String.eqb_refl].
Qed.

(** X20: [branchTitleHasBeenVisited] reads the visit table whether or not a
    session runs: for a title that is a key of the table it returns what the
    table holds for it, for any other title it returns false, and the empty
    title stands for the title of the current branch.  After a [loadState]
    whose input parses to an object without a "visited" property the table
    is [undefined], and the call raises a [TypeError] for every title, as
    [getVisitedBranchTitles] does on a running session. *)
Theorem branchTitleHasBeenVisited_reads_table (st : DialogueTree) (t : string) :
  (forall entries, visited (runner st) = JObject entries -> t <> "" ->
     (In t (map fst entries) ->
      branchTitleHasBeenVisited t st = Return (own_property t entries) st)
     /\ (~ In t (map fst entries) ->
         branchTitleHasBeenVisited t st = Return (JBool false) st)
     /\ (dialogueBranchTitle st = Some t ->
         branchTitleHasBeenVisited "" st = branchTitleHasBeenVisited t st)
     /\ (truthy (dialogueIsRunning st) = true ->
         getVisitedBranchTitles st = Return (join_comma (map fst entries)) st))
  /\ (forall (H : Host) (input : Variable_) (props : list (string * JSValue)),
        JSON_parse (variableStructureToJSON input) = inr (JObject props) ->
        own_property "visited" props = JUndefined ->
        branchTitleHasBeenVisited t (loadState input st)
        = Throw TypeError (loadState input st)
        /\ (truthy (dialogueIsRunning st) = true ->
            getVisitedBranchTitles (loadState input st)
            = Throw TypeError (loadState input st))).
Proof.
  split.
  - intros entries Hv Hne.
    assert (Ht : String.eqb t "" = false) by (now apply String.eqb_neq).
    unfold branchTitleHasBeenVisited, getVisitedBranchTitles.
    rewrite Hv, Ht. cbn [own_entries String.eqb].
    split; [|split; [|split]].
    + intros Hin. apply own_property_key in Hin. rewrite Hin. reflexivity.
    + intros Hin. destruct (existsb _ _) eqn:E; [|reflexivity].
      apply own_property_key in E. contradiction.
    + intros ->. reflexivity.
    + intros ->. reflexivity.
  - intros H input props Hp Hv.
    assert (E : visited (runner (loadState input st)) = JUndefined).
    { unfold loadState. rewrite Hp. cbn [get_property]. rewrite Hv. reflexivity. }
    assert (Er : dialogueIsRunning (loadState input st) = dialogueIsRunning st).
    { unfold loadState. rewrite Hp. reflexivity. }
    unfold branchTitleHasBeenVisited, getVisitedBranchTitles. rewrite E, Er.
    split; [reflexivity|]. intros ->. reflexivity.
Qed.

Lemma branchTitleHasBeenVisited_reads_table_witness :
  branchTitleHasBeenVisited "Start" (started mood_script)
  = Return (JBool true) (started mood_script)
  /\ branchTitleHasBeenVisited "Start" (loadState (JObject []) (started mood_script))
     = Throw TypeError (loadState (JObject []) (started mood_script)).
Proof.
  destruct (branchTitleHasBeenVisited_reads_table (started mood_script) "Start")
    as [H1 H2].
  split.
  - destruct (H1 [("Start", JBool true)]) as (H3 & _);
      [reflexivity | discriminate|].
    rewrite H3; [reflexivity | left; reflexivity].
  - destruct (H2 sampleHost (JObject []) []) as [H3 _];
      [reflexivity | reflexivity | exact H3].
Defined.
